(** * Neural-Finance/client: artifact engine, event watcher and sweep agent

    A shallow embedding of the parts of
      - [wandb/sdk/wandb_artifacts.py]
      - [wandb/internal/tb_watcher.py]
      - [wandb/wandb_agent.py]
    that the specification describes, and theorems about the properties it
    states of them (numbered C1 to C10).

    Conventions.  A Python [str] is a [string] (a list of 8-bit characters,
    compared by code).  A [dict] whose iteration order matters is an
    association list in insertion order; other dicts are [gmap]s; a dict
    object that is shared lives in a store and is named by a reference.
    Wall-clock and stopwatch readings are rationals.  A Python call that can
    raise returns a [result]; a method that also writes runs in a
    state-and-error monad.  Paths are POSIX paths on a tree of directories
    and regular files.  Library functions the sources call without defining
    them (hashing, base64, [urlparse], the cloud clients) are the fields of
    the class [Outside]. *)

From Stdlib Require Import String Ascii List ZArith QArith Lia Bool.
From Stdlib Require Import Permutation Sorted DecimalString.
From stdpp Require Import gmap strings list.

Import ListNotations.
Local Open Scope string_scope.
Local Open Scope list_scope.

(** ** Exceptions and results *)

Inductive exn : Type :=
| ValueError (msg : string)
| AttributeError (msg : string)
| OSError (msg : string)
| AssertionError (msg : string)
| TypeError (msg : string)
| ImportFailure (msg : string).

Inductive result (A : Type) : Type :=
| Ok (a : A)
| Raise (e : exn).
Arguments Ok {A} a.
Arguments Raise {A} e.

(** ** Python's [str] operations used by the sources *)

Module Py.

(** [s.split(sep)] for a one-character separator. *)
Fixpoint split (sep : ascii) (s : string) : list string :=
  match s with
  | EmptyString => [EmptyString]
  | String c s' =>
      if Ascii.eqb c sep then EmptyString :: split sep s'
      else match split sep s' with
           | [] => [String c EmptyString]
           | w :: ws => String c w :: ws
           end
  end.

Fixpoint rev_string (s : string) : string :=
  match s with
  | EmptyString => EmptyString
  | String c s' => rev_string s' ++ String c EmptyString
  end.

Definition startswith (s p : string) : bool := String.prefix p s.

Definition endswith (s p : string) : bool :=
  String.prefix (rev_string p) (rev_string s).

(** [l.index(x)]: the position of the first occurrence, [None] standing for
    the [ValueError] raised when there is none. *)
Fixpoint index (x : string) (l : list string) : option nat :=
  match l with
  | [] => None
  | y :: l' => if String.eqb y x then Some 0%nat else S <$> index x l'
  end.

(** [s[n:]] *)
Fixpoint drop (n : nat) (s : string) : string :=
  match n, s with
  | O, _ => s
  | S n', String _ s' => drop n' s'
  | S _, EmptyString => EmptyString
  end.

(** [s[:n]] *)
Fixpoint take (n : nat) (s : string) : string :=
  match n, s with
  | S n', String c s' => String c (take n' s')
  | _, _ => EmptyString
  end.

(** The ASCII characters that [int()] strips from both ends. *)
Definition is_space (c : ascii) : bool :=
  let n := nat_of_ascii c in
  ((9 <=? n) && (n <=? 13) || (n =? 32))%nat.

Fixpoint lstrip (s : string) : string :=
  match s with
  | String c s' => if is_space c then lstrip s' else s
  | EmptyString => EmptyString
  end.

Definition strip (s : string) : string :=
  rev_string (lstrip (rev_string (lstrip s))).

Definition digit_of (c : ascii) : option Z :=
  let n := nat_of_ascii c in
  if ((48 <=? n) && (n <=? 57))%nat then Some (Z.of_nat n - 48)%Z else None.

(** Decimal digits, single underscores allowed between two digits. *)
Fixpoint digits (s : string) (acc : Z) (after_digit : bool) : option Z :=
  match s with
  | EmptyString => if after_digit then Some acc else None
  | String c s' =>
      match digit_of c with
      | Some d => digits s' (10 * acc + d)%Z true
      | None =>
          if Ascii.eqb c "_"%char && after_digit then digits s' acc false
          else None
      end
  end.

(** [int(s)]: [None] stands for the [ValueError]. *)
Definition int (s : string) : option Z :=
  match strip s with
  | String "-"%char s' => Z.opp <$> digits s' 0%Z false
  | String "+"%char s' => digits s' 0%Z false
  | s' => digits s' 0%Z false
  end.

End Py.

(** ** [os.path] on POSIX *)

Module OsPath.

(** The text after the last ["/"]. *)
Fixpoint basename (p : string) : string :=
  match p with
  | EmptyString => EmptyString
  | String c p' =>
      if Ascii.eqb c "/"%char then basename p'
      else if existsb (Ascii.eqb "/"%char) (list_ascii_of_string p')
           then basename p'
           else p
  end.

(** [os.path.join(a, b)]: an absolute [b] discards [a]. *)
Definition join2 (a b : string) : string :=
  if Py.startswith b "/" then b
  else if String.eqb a "" || Py.endswith a "/" then a ++ b
  else a ++ "/" ++ b.

Definition join (a : string) (ps : list string) : string :=
  fold_left join2 ps a.

(** [p.rstrip("/")] *)
Definition rstrip_slash (p : string) : string :=
  let fix go (s : string) : string :=
    match s with
    | String "/"%char s' => go s'
    | _ => s
    end in
  Py.rev_string (go (Py.rev_string p)).

(** [p[:p.rfind("/") + 1]] *)
Fixpoint head_of (p : string) : string :=
  match p with
  | EmptyString => EmptyString
  | String c p' =>
      if existsb (Ascii.eqb "/"%char) (list_ascii_of_string p)
      then String c (head_of p')
      else EmptyString
  end.

Definition dirname (p : string) : string :=
  let head := head_of p in
  if String.eqb (rstrip_slash head) "" then head else rstrip_slash head.

End OsPath.

(** ** [tb_watcher.is_tfevents_file_created_by] *)

Module TbWatcher.

(** The [for i, part in enumerate(hostname.split("."))] loop: [false] as
    soon as a component is missing ([IndexError]) or differs. *)
Fixpoint hostname_loop (fname_components : list string) (tfevents_idx : nat)
         (i : nat) (parts : list string) : bool :=
  match parts with
  | [] => true
  | part :: rest =>
      match fname_components !! (tfevents_idx + 2 + i)%nat with
      | None => false
      | Some fname_component_part =>
          if String.eqb part fname_component_part
          then hostname_loop fname_components tfevents_idx (S i) rest
          else false
      end
  end.

Definition is_tfevents_file_created_by
           (path hostname : string) (start_time : Q) : result bool :=
  if String.eqb path "" then Raise (ValueError "Path must be a nonempty string")
  else
    let basename := OsPath.basename path in
    if Py.endswith basename ".profile_empty" then Ok false
    else
      let fname_components := Py.split "."%char basename in
      match Py.index "tfevents" fname_components with
      | None => Ok false
      | Some tfevents_idx =>
          if hostname_loop fname_components tfevents_idx 0
                           (Py.split "."%char hostname)
          then
            match fname_components !! (tfevents_idx + 1)%nat with
            | None => Ok false
            | Some c =>
                match Py.int c with
                | None => Ok false
                | Some created_time =>
                    Ok (Qle_bool start_time (inject_Z created_time))
                end
            end
          else Ok false
      end.

(** The filter in the words of the specification.  "The" [tfevents]
    component is the first one, as [list.index] finds it. *)
Definition created_by_spec (path hostname : string) (start_time : Q) : Prop :=
  let basename := OsPath.basename path in
  let components := Py.split "."%char basename in
  (~ exists stem, basename = (stem ++ ".profile_empty")%string)
  /\ exists idx : nat,
      components !! idx = Some "tfevents"
      /\ (forall j : nat, (j < idx)%nat -> components !! j <> Some "tfevents")
      /\ (exists c t, components !! (idx + 1)%nat = Some c
                      /\ Py.int c = Some t /\ (start_time <= inject_Z t)%Q)
      /\ (forall (i : nat) (part : string),
             Py.split "."%char hostname !! i = Some part ->
             components !! (idx + 2 + i)%nat = Some part).

End TbWatcher.


(** ** [tb_watcher.TBHistory]

    [_flush] appends the in-flight dict object itself to [_added]; rows are
    therefore references into a store of dict objects, and a row that was
    appended (or already returned) still changes when the object it refers to
    is written again. *)

Module TBHistory.

Inductive pyval : Type :=
| PyInt (z : Z)
| PyFloat (q : Q)
| PyStr (s : string).

(** A dict object is a finite map; a reference is its index in the store. *)
Definition ref := nat.

Record t : Type := mk {
  _step : Z;
  _data : ref;
  _added : list ref;
  store : list (gmap string pyval)
}.

(** [__init__]: [_data = dict()] allocates the first dict object. *)
Definition init : t :=
  {| _step := 0; _data := 0%nat; _added := []; store := [∅] |}.

Definition deref (h : t) (r : ref) : gmap string pyval :=
  default ∅ (store h !! r).

Definition _flush (h : t) : t :=
  if (size (deref h (_data h)) =? 0)%nat then h
  else
    {| _step := _step h + 1;
       _data := _data h;
       _added := _added h ++ [_data h];
       store := <[_data h := <["_step" := PyInt (_step h)]> (deref h (_data h))]>
                  (store h) |}.

(** [d.update(e)]: the entries of [e] win. *)
Definition dict_update (d e : gmap string pyval) : gmap string pyval := e ∪ d.

Definition add (d : gmap string pyval) (h : t) : t :=
  let h := _flush h in
  let fresh := length (store h) in
  {| _step := _step h;
     _data := fresh;
     _added := _added h;
     store := store h ++ [dict_update ∅ d] |}.

Definition _row_update (d : gmap string pyval) (h : t) : t :=
  {| _step := _step h;
     _data := _data h;
     _added := _added h;
     store := <[_data h := dict_update (deref h (_data h)) d]> (store h) |}.

(** Returns a copy of the list of references and clears it. *)
Definition _get_and_reset (h : t) : list ref * t :=
  (_added h,
   {| _step := _step h; _data := _data h; _added := []; store := store h |}).

Inductive op : Type :=
| Add (d : gmap string pyval)
| Flush
| GetAndReset.

(** Running a sequence of calls.  The second component collects, call after
    call, the rows each [_get_and_reset] returned, read when it returns. *)
Definition step (st : t * list (gmap string pyval)) (o : op)
  : t * list (gmap string pyval) :=
  let '(h, out) := st in
  match o with
  | Add d => (add d h, out)
  | Flush => (_flush h, out)
  | GetAndReset =>
      let '(rows, h') := _get_and_reset h in
      (h', out ++ map (deref h') rows)
  end.

Definition run (ops : list op) : t * list (gmap string pyval) :=
  fold_left step ops (init, []).

Definition emitted (ops : list op) : list (gmap string pyval) := snd (run ops).

Definition steps_of (rows : list (gmap string pyval)) : list (option pyval) :=
  map (fun r => r !! "_step") rows.

(** [0, 1, ..., n-1] as [_step] values. *)
Definition contiguous_from_zero (n : nat) : list (option pyval) :=
  map (fun i => Some (PyInt (Z.of_nat i))) (seq 0 n).

Definition is_get_and_reset (o : op) : bool :=
  match o with GetAndReset => true | _ => false end.

(** No in-flight map is flushed twice: once an explicit [_flush] has found
    the in-flight map non-empty (and appended it), only [_get_and_reset]
    follows. *)
Fixpoint flushed_once (h : t) (ops : list op) : bool :=
  match ops with
  | [] => true
  | Add d :: rest => flushed_once (add d h) rest
  | GetAndReset :: rest => flushed_once (snd (_get_and_reset h)) rest
  | Flush :: rest =>
      if (size (deref h (_data h)) =? 0)%nat then flushed_once h rest
      else forallb is_get_and_reset rest
  end.

(** The calling discipline of [TBEventConsumer._thread_body]: rows are
    flushed by [add]; the explicit [_flush] comes once, after the loop, and
    only [_get_and_reset] follows it. *)
Fixpoint consumer_protocol (ops : list op) : bool :=
  match ops with
  | [] => true
  | Flush :: rest => forallb is_get_and_reset rest
  | _ :: rest => consumer_protocol rest
  end.

(** *** Invariants of a run *)

Definition run_from (st : t * list (gmap string pyval)) (ops : list op)
  : t * list (gmap string pyval) := fold_left step ops st.

(** Rows already returned, and rows waiting in [_added], carry their
    position as [_step]; the counter is the number of both. *)
Definition numbered (h : t) (out : list (gmap string pyval)) : Prop :=
  (forall (i : nat) (row : gmap string pyval),
      out !! i = Some row -> row !! "_step" = Some (PyInt (Z.of_nat i)))
  /\ (forall (k : nat) (r : ref),
         _added h !! k = Some r ->
         deref h r !! "_step" = Some (PyInt (Z.of_nat (length out + k))))
  /\ _step h = Z.of_nat (length out + length (_added h)).

Definition bounded (h : t) : Prop :=
  (_data h < length (store h))%nat
  /\ forall r : ref, r ∈ _added h -> (r < length (store h))%nat.

(** The in-flight dict has not been appended yet. *)
Definition fresh (h : t) : Prop := bounded h /\ _data h ∉ _added h.

End TBHistory.

(** ** [wandb_agent]: flap protection and the two-stage stop *)

Module Agent.

Definition POLL_INTERVAL : Q := 5.
Definition REPORT_INTERVAL : Q := 0.
Definition KILL_DELAY : Q := 30.
Definition FLAPPING_MAX_SECONDS : Q := 60.
Definition FLAPPING_MAX_FAILURES : Z := 3.

(** [wandb.env.AGENT_DISABLE_FLAPPING] *)
Definition AGENT_DISABLE_FLAPPING : string := "WANDB_AGENT_DISABLE_FLAPPING".

Inductive platform : Type := Windows | Posix.

(** What [AgentProcess] asks of the handle it owns. *)
Inductive call : Type :=
| popen_send_signal_CTRL_C_EVENT
| popen_terminate
| popen_kill
| proc_terminate
| os_kill_SIGKILL (pid : Z).

Definition is_terminate (c : call) : bool :=
  match c with
  | popen_send_signal_CTRL_C_EVENT | popen_terminate | proc_terminate => true
  | _ => false
  end.

Definition is_kill (c : call) : bool :=
  match c with
  | popen_kill | os_kill_SIGKILL _ => true
  | _ => false
  end.

(** [_popen] is set for a command, [_proc] for a function; [pid] is
    [self._proc.pid] ([None] before the process is started). *)
Record AgentProcess : Type := mkProc {
  _popen : bool;
  pid : option Z;
  _proc_killed : bool;
  last_sigterm_time : option Q
}.

Definition terminate (sys : platform) (p : AgentProcess) : call :=
  if _popen p then
    match sys with
    | Windows => popen_send_signal_CTRL_C_EVENT
    | Posix => popen_terminate
    end
  else proc_terminate.

(** [signal.SIGKILL] is not defined on Windows: looking it up raises. *)
Definition no_SIGKILL : exn :=
  AttributeError "module 'signal' has no attribute 'SIGKILL'".

(** The [OSError] of a call on the handle of a process that is gone. *)
Definition process_gone : exn := OSError "No such process".

(** [AgentProcess.kill]: the call it makes on the handle (when it gets to
    make one), the object afterwards, and the exception it raises (if any).
    [gone] tells whether the call on the handle raises [OSError], as it does
    for a process that is already dead. *)
Definition kill (sys : platform) (gone : bool) (p : AgentProcess)
  : option call * AgentProcess * option exn :=
  if _popen p then (Some popen_kill, p, if gone then Some process_gone else None)
  else
    match pid p with
    | Some n =>
        if (n =? 0)%Z then (None, p, None)
        else
          match sys with
          | Windows => (None, p, Some no_SIGKILL)
          | Posix =>
              if gone then (Some (os_kill_SIGKILL n), p, Some process_gone)
              else (Some (os_kill_SIGKILL n),
                    {| _popen := _popen p; pid := pid p; _proc_killed := true;
                       last_sigterm_time := last_sigterm_time p |},
                    None)
          end
    | None => (None, p, None)
    end.

(** [except OSError: pass] *)
Definition caught (e : exn) : bool :=
  match e with OSError _ => true | _ => false end.

(** Whether [kill] finds its signal: everywhere but for a function child
    with a pid on Windows. *)
Definition kill_is_there (sys : platform) (p : AgentProcess) : bool :=
  match sys with
  | Posix => true
  | Windows =>
      _popen p || match pid p with Some n => (n =? 0)%Z | None => true end
  end.

(** A started child: a [Popen] handle, or a [Process] that has a pid. *)
Definition started (p : AgentProcess) : Prop :=
  _popen p = true \/ exists n, pid p = Some n /\ n <> 0%Z.

(** An entry of the trace of calls: when, for which run, what. *)
Record issued : Type := mkIssued {
  at_time : Q;
  for_run : string;
  what : call
}.

Record t : Type := mk {
  _run_processes : gmap string AgentProcess;
  _running : bool;
  _last_report_time : option Q;
  _kill_delay : Q;
  _finished : Z;
  _failed : Z;
  _count : option Z;
  trace : list issued
}.

Definition set_running (b : bool) (a : t) : t :=
  {| _run_processes := _run_processes a; _running := b;
     _last_report_time := _last_report_time a; _kill_delay := _kill_delay a;
     _finished := _finished a; _failed := _failed a; _count := _count a;
     trace := trace a |}.

Definition set_failed (n : Z) (a : t) : t :=
  {| _run_processes := _run_processes a; _running := _running a;
     _last_report_time := _last_report_time a; _kill_delay := _kill_delay a;
     _finished := _finished a; _failed := n; _count := _count a;
     trace := trace a |}.

Definition set_processes (m : gmap string AgentProcess) (a : t) : t :=
  {| _run_processes := m; _running := _running a;
     _last_report_time := _last_report_time a; _kill_delay := _kill_delay a;
     _finished := _finished a; _failed := _failed a; _count := _count a;
     trace := trace a |}.

Definition emit (e : issued) (a : t) : t :=
  {| _run_processes := _run_processes a; _running := _running a;
     _last_report_time := _last_report_time a; _kill_delay := _kill_delay a;
     _finished := _finished a; _failed := _failed a; _count := _count a;
     trace := trace a ++ [e] |}.

Definition Qlt_bool (x y : Q) : bool := negb (Qle_bool y x).

(** The process environment and the clocks are read by the code; here they
    are arguments: [environ] is [os.environ], [now] is [time.time()] and
    [START_TIME] is [wandb.START_TIME]. *)
Definition is_flapping (environ : gmap string string) (now START_TIME : Q)
           (a : t) : option bool :=
  if bool_decide (environ !! AGENT_DISABLE_FLAPPING = Some "true") then Some false
  else if Qlt_bool now (START_TIME + FLAPPING_MAX_SECONDS)
       then Some (FLAPPING_MAX_FAILURES <=? _failed a)%Z
       else None.

(** Python truth of the value [is_flapping] returns ([None] is false). *)
Definition truthy (v : option bool) : bool := default false v.

(** What [AgentProcess.poll] returns: [None], [True] or an exit status. *)
Inductive poll_result : Type :=
| PollNone
| PollBool (b : bool)
| PollInt (n : Z).

Inductive ctl : Type := Next | Break.

(** One turn of [for run_id, run_process in ...] in [Agent.run], given what
    [run_process.poll()] returned. *)
Definition poll_one (environ : gmap string string) (now START_TIME : Q)
           (run_id : string) (r : poll_result)
           (st : t * gmap string bool) : t * gmap string bool * ctl :=
  let '(a, run_status) := st in
  let cleanup (a : t) :=
    {| _run_processes := delete run_id (_run_processes a);
       _running := _running a;
       _last_report_time := None;
       _kill_delay := _kill_delay a;
       _finished := _finished a + 1;
       _failed := _failed a;
       _count := _count a;
       trace := trace a |} in
  match r with
  | PollNone => (a, <[run_id := true]> run_status, Next)
  | PollInt n =>
      if (0 <? n)%Z then
        let a := set_failed (_failed a + 1) a in
        if truthy (is_flapping environ now START_TIME a)
        then (set_running false a, run_status, Break)
        else (cleanup a, run_status, Next)
      else (cleanup a, run_status, Next)
  | PollBool _ => (cleanup a, run_status, Next)
  end.

(** The whole [for] loop over the children, each with what its [poll()]
    returned, and the test that follows it:
    [if self._count and self._finished >= self._count or not self._running]. *)
Fixpoint poll_children (environ : gmap string string) (now START_TIME : Q)
         (polled : list (string * poll_result)) (st : t * gmap string bool)
  : t * gmap string bool :=
  match polled with
  | [] => st
  | (run_id, r) :: rest =>
      match poll_one environ now START_TIME run_id r st with
      | (a, run_status, Break) => (a, run_status)
      | (a, run_status, Next) => poll_children environ now START_TIME rest (a, run_status)
      end
  end.

Definition after_polling (a : t) : t :=
  let count_reached :=
    match _count a with
    | Some c => negb (c =? 0)%Z && (c <=? _finished a)%Z
    | None => false
    end in
  if count_reached || negb (_running a) then set_running false a else a.

(** [_command_stop], with [now = util.stopwatch_now()] and [gone] for the
    call it makes on the child's handle.  An [OSError] of that call is
    caught; any other exception leaves the method. *)
Definition _command_stop (sys : platform) (now : Q) (gone : bool) (run_id : string) (a : t)
  : result unit * t :=
  match _run_processes a !! run_id with
  | Some proc =>
      match last_sigterm_time proc with
      | None =>
          let proc' := {| _popen := _popen proc; pid := pid proc;
                          _proc_killed := _proc_killed proc;
                          last_sigterm_time := Some now |} in
          (Ok tt,
           emit (mkIssued now run_id (terminate sys proc))
                (set_processes (<[run_id := proc']> (_run_processes a)) a))
      | Some t0 =>
          if Qlt_bool (t0 + _kill_delay a) now then
            let '(c, proc', e) := kill sys gone proc in
            let a := set_processes (<[run_id := proc']> (_run_processes a)) a in
            let a := match c with
                     | Some c => emit (mkIssued now run_id c) a
                     | None => a
                     end in
            match e with
            | Some e => if caught e then (Ok tt, a) else (Raise e, a)
            | None => (Ok tt, a)
            end
          else (Ok tt, a)
      end
  | None => (Ok tt, a)
  end.

(** The loop of [_command_exit] over the children; [gone] tells, for each
    run, whether the call on its handle raises [OSError]. *)
Fixpoint exit_loop (sys : platform) (now : Q) (gone : string -> bool)
         (children : list (string * AgentProcess)) (a : t) : result unit * t :=
  match children with
  | [] => (Ok tt, a)
  | (run_id, proc) :: rest =>
      let '(c, proc', e) := kill sys (gone run_id) proc in
      let a := set_processes (<[run_id := proc']> (_run_processes a)) a in
      let a := match c with
               | Some c => emit (mkIssued now run_id c) a
               | None => a
               end in
      match e with
      | Some e => if caught e then exit_loop sys now gone rest a else (Raise e, a)
      | None => exit_loop sys now gone rest a
      end
  end.

(** [_command_exit]: every child is killed at once, whatever its
    [last_sigterm_time], and then the main loop is told to end. *)
Definition _command_exit (sys : platform) (now : Q) (gone : string -> bool) (a : t)
  : result unit * t :=
  match exit_loop sys now gone (map_to_list (_run_processes a)) a with
  | (Ok _, a') => (Ok tt, set_running false a')
  | (Raise e, a') => (Raise e, a')
  end.

(** The end of [_command_run]: the new process is stored under its run id
    with [last_sigterm_time = None]. *)
Definition register_run (run_id : string) (proc : AgentProcess) (a : t) : t :=
  let proc' := {| _popen := _popen proc; pid := pid proc;
                  _proc_killed := _proc_killed proc;
                  last_sigterm_time := None |} in
  {| _run_processes := <[run_id := proc']> (_run_processes a);
     _running := _running a;
     _last_report_time := None;
     _kill_delay := _kill_delay a;
     _finished := _finished a;
     _failed := _failed a;
     _count := _count a;
     trace := trace a |}.

Inductive command : Type :=
| Stop (now : Q) (gone : bool) (run_id : string)
| Run (run_id : string) (proc : AgentProcess).

(** A command as [_process_command] runs it: an exception of the command is
    caught there and reported in the response, and the agent goes on. *)
Definition exec (sys : platform) (a : t) (c : command) : t :=
  match c with
  | Stop now gone run_id => snd (_command_stop sys now gone run_id a)
  | Run run_id proc => register_run run_id proc a
  end.

Definition run_commands (sys : platform) (a : t) (cs : list command) : t :=
  fold_left (exec sys) cs a.

(** *** Invariants of the trace *)

(** A recorded [last_sigterm_time] is the time of a terminate call in the
    trace. *)
Definition sigterm_recorded (a : t) : Prop :=
  forall (run_id : string) (p : AgentProcess) (t0 : Q),
    _run_processes a !! run_id = Some p ->
    last_sigterm_time p = Some t0 ->
    exists (j : nat) (e : issued),
      trace a !! j = Some e /\ is_terminate (what e) = true
      /\ for_run e = run_id /\ at_time e = t0.

(** Every kill in the trace comes after a terminate for the same run that is
    older by more than [delay]. *)
Definition kill_after_delay (delay : Q) (tr : list issued) : Prop :=
  forall (i : nat) (e : issued),
    tr !! i = Some e -> is_kill (what e) = true ->
    exists (j : nat) (e' : issued),
      (j < i)%nat /\ tr !! j = Some e' /\ is_terminate (what e') = true
      /\ for_run e' = for_run e /\ (at_time e' + delay < at_time e)%Q.

(** *** The state of a running agent *)

(** A running agent is not flapping: [_failed] grows only in the polling
    loop, right before the test that stops the agent when it is. *)
Definition settled (environ : gmap string string) (now START_TIME : Q) (a : t) : Prop :=
  _running a = true -> truthy (is_flapping environ now START_TIME a) = false.

End Agent.

(** ** A [dict] in insertion order

    Keys are strings.  Assigning to a key that is present replaces its value
    where it stands; a new key goes to the end. *)

Module PyDict.

Definition t (A : Type) : Type := list (string * A).

Fixpoint get {A} (k : string) (d : t A) : option A :=
  match d with
  | [] => None
  | (k', v) :: d' => if String.eqb k' k then Some v else get k d'
  end.

Fixpoint set {A} (k : string) (v : A) (d : t A) : t A :=
  match d with
  | [] => [(k, v)]
  | (k', v') :: d' =>
      if String.eqb k' k then (k, v) :: d' else (k', v') :: set k v d'
  end.

Definition contains {A} (k : string) (d : t A) : bool :=
  match get k d with Some _ => true | None => false end.

Definition keys {A} (d : t A) : list string := map fst d.
Definition values {A} (d : t A) : list A := map snd d.
Definition items {A} (d : t A) : list (string * A) := d.

(** The dict obtained from [{}] by the assignments [ins], in order. *)
Definition of_assignments {A} (ins : list (string * A)) : t A :=
  fold_left (fun d kv => set (fst kv) (snd kv) d) ins [].

End PyDict.

(** ** The file system

    A tree of directories and regular files (no symbolic links) and a current
    directory.  A path is resolved the way [os.path.abspath] reads it. *)

Module FS.

#[warnings="-register-all"] Inductive node : Type :=
| File (content : string)
| Dir (children : list (string * node)).

Record t : Type := mk { root : node; cwd : list string }.

(** Components of the absolute, normalised form of [p]. *)
Definition norm_step (acc : list string) (c : string) : list string :=
  if String.eqb c "" || String.eqb c "." then acc
  else if String.eqb c ".." then removelast acc
  else acc ++ [c].

Definition components (fs : t) (p : string) : list string :=
  fold_left norm_step (Py.split "/"%char p)
            (if Py.startswith p "/" then [] else cwd fs).

Fixpoint lookup (n : node) (cs : list string) : option node :=
  match cs with
  | [] => Some n
  | c :: cs' =>
      match n with
      | Dir ch =>
          match PyDict.get c ch with
          | Some n' => lookup n' cs'
          | None => None
          end
      | File _ => None
      end
  end.

Definition stat (fs : t) (p : string) : option node :=
  if String.eqb p "" then None else lookup (root fs) (components fs p).

Definition exists_ (fs : t) (p : string) : bool :=
  match stat fs p with Some _ => true | None => false end.

Definition isfile (fs : t) (p : string) : bool :=
  match stat fs p with Some (File _) => true | _ => false end.

Definition isdir (fs : t) (p : string) : bool :=
  match stat fs p with Some (Dir _) => true | _ => false end.

(** [open(p, "rb").read()] *)
Definition read (fs : t) (p : string) : result string :=
  match stat fs p with
  | Some (File c) => Ok c
  | Some (Dir _) => Raise (OSError "Is a directory")
  | None => Raise (OSError "No such file or directory")
  end.

(** [os.path.getsize]; a directory reports the size of its inode, taken
    here to be 4096. *)
Definition getsize (fs : t) (p : string) : result Z :=
  match stat fs p with
  | Some (File c) => Ok (Z.of_nat (String.length c))
  | Some (Dir _) => Ok 4096%Z
  | None => Raise (OSError "No such file or directory")
  end.

Fixpoint chain (cs : list string) : node :=
  match cs with
  | [] => Dir []
  | c :: cs' => Dir [(c, chain cs')]
  end.

(** [os.makedirs] that accepts an existing directory; [None] when a regular
    file is in the way. *)
Fixpoint mkdirs (n : node) (cs : list string) : option node :=
  match n with
  | File _ => None
  | Dir ch =>
      match cs with
      | [] => Some n
      | c :: cs' =>
          match PyDict.get c ch with
          | Some n' =>
              match mkdirs n' cs' with
              | Some n'' => Some (Dir (PyDict.set c n'' ch))
              | None => None
              end
          | None => Some (Dir (ch ++ [(c, chain cs')]))
          end
      end
  end.

(** Create or replace the regular file at [cs]; its parent must be a
    directory and the target must not be one. *)
Fixpoint write_node (n : node) (cs : list string) (content : string)
  : option node :=
  match n, cs with
  | Dir ch, [c] =>
      match PyDict.get c ch with
      | Some (Dir _) => None
      | _ => Some (Dir (PyDict.set c (File content) ch))
      end
  | Dir ch, c :: cs' =>
      match PyDict.get c ch with
      | Some n' =>
          match write_node n' cs' content with
          | Some n'' => Some (Dir (PyDict.set c n'' ch))
          | None => None
          end
      | None => None
      end
  | _, _ => None
  end.

Definition write (fs : t) (p : string) (content : string) : result t :=
  if String.eqb p "" then Raise (OSError "No such file or directory")
  else
    match write_node (root fs) (components fs p) content with
    | Some r => Ok {| root := r; cwd := cwd fs |}
    | None => Raise (OSError "cannot open for writing")
    end.

Definition file_names (ch : list (string * node)) : list string :=
  flat_map (fun '(name, n) => match n with File _ => [name] | Dir _ => [] end) ch.

Definition dir_names (ch : list (string * node)) : list string :=
  flat_map (fun '(name, n) => match n with Dir _ => [name] | File _ => [] end) ch.

(** [os.walk(top)], top-down: one triple [(root, dirs, files)] per
    directory, the sub-directories visited under [os.path.join(root, d)]. *)
Fixpoint walk_node (top : string) (n : node)
  : list (string * list string * list string) :=
  match n with
  | File _ => []
  | Dir ch =>
      (top, dir_names ch, file_names ch)
        :: flat_map (fun kv => match snd kv with
                               | Dir _ => walk_node (OsPath.join2 top (fst kv)) (snd kv)
                               | File _ => []
                               end) ch
  end.

Definition walk (fs : t) (top : string) : list (string * list string * list string) :=
  match stat fs top with
  | Some n => walk_node top n
  | None => []
  end.

(** Every regular file below a node, as a list of components. *)
Fixpoint files_below (n : node) : list (list string) :=
  match n with
  | File _ => [[]]
  | Dir ch => flat_map (fun kv => map (cons (fst kv)) (files_below (snd kv))) ch
  end.

Fixpoint common_prefix_len (a b : list string) : nat :=
  match a, b with
  | x :: a', y :: b' => if String.eqb x y then S (common_prefix_len a' b') else O
  | _, _ => O
  end.

(** [os.path.relpath(p, start)] *)
Definition relpath (fs : t) (p start : string) : string :=
  let start_list := components fs start in
  let path_list := components fs p in
  let i := common_prefix_len start_list path_list in
  let rel_list := repeat ".." (length start_list - i)%nat ++ skipn i path_list in
  match rel_list with
  | [] => "."
  | r :: rs => OsPath.join r rs
  end.

End FS.

(** ** A state-and-error monad

    A Python call reads and writes its world and either returns or raises;
    the world it leaves behind is there in both cases. *)

Definition M (W A : Type) : Type := W -> result A * W.

Definition ret {W A} (a : A) : M W A := fun w => (Ok a, w).

Definition raise {W A} (e : exn) : M W A := fun w => (Raise e, w).

Definition bind {W A B} (m : M W A) (k : A -> M W B) : M W B :=
  fun w =>
    match m w with
    | (Ok a, w') => k a w'
    | (Raise e, w') => (Raise e, w')
    end.

Definition get_world {W} : M W W := fun w => (Ok w, w).

Definition put_world {W} (w : W) : M W unit := fun _ => (Ok tt, w).

Definition of_result {W A} (r : result A) : M W A := fun w => (r, w).

Notation "x <~ m ;; k" := (bind m (fun x => k))
  (at level 99, m at level 98, k at level 200, right associativity).
Notation "m ;;; k" := (bind m (fun _ => k))
  (at level 99, k at level 200, right associativity).

Fixpoint for_each {W A} (l : list A) (body : A -> M W unit) : M W unit :=
  match l with
  | [] => ret tt
  | x :: l' => body x ;;; for_each l' body
  end.

(** ** [wandb_artifacts] *)

Module Artifacts.

Local Open Scope string_scope.

Definition nl : string := String (ascii_of_nat 10) EmptyString.

Definition dquote : string := String (ascii_of_nat 34) EmptyString.

(** [x or y] on an optional string: [None] and [""] are false. *)
Definition or_else (x : option string) (y : string) : string :=
  match x with
  | Some s => if String.eqb s "" then y else s
  | None => y
  end.

(** [str.format] of a value that may be [None]. *)
Definition fmt (x : option string) : string := default "None" x.

Definition fmt_int (n : Z) : string := NilEmpty.string_of_int (Z.to_int n).

(** What [urlparse] returns, as far as the sources look at it. *)
Record url : Type := mkUrl { scheme : string; netloc : string; url_path : string }.

(** What a call of [urlparse] on a string does: it returns the parts, or
    raises [ValueError] (["Invalid IPv6 URL"] on a netloc with an unbalanced
    bracket, for one) with the message given. *)
Inductive parsed : Type :=
| Parsed (u : url)
| Invalid (msg : string).

Record ArtifactManifestEntry : Type := mkEntry {
  path : string;
  ref : option string;
  digest : option string;
  birth_artifact_id : option string;
  size : option Z;
  extra : PyDict.t string;
  local_path : option string
}.

(** [ArtifactManifestEntry.__init__] *)
Definition new_entry (path : string) (ref : option string) (digest : option string)
           (birth_artifact_id : option string) (size : option Z)
           (extra : PyDict.t string) (local_path : option string)
  : result ArtifactManifestEntry :=
  match local_path, size with
  | Some _, None =>
      Raise (AssertionError "programming error, size required when local_path specified")
  | _, _ => Ok (mkEntry path ref digest birth_artifact_id size extra local_path)
  end.

(** [ArtifactManifestEntry(name, path, digest=path)] *)
Definition reference_entry (name uri : string) : result ArtifactManifestEntry :=
  new_entry name (Some uri) (Some uri) None None [] None.

Definition set_local_path (p : string) (e : ArtifactManifestEntry) : ArtifactManifestEntry :=
  mkEntry (path e) (ref e) (digest e) (birth_artifact_id e) (size e) (extra e) (Some p).

(** *** [sorted(items, key=lambda kv: kv[0])]: a stable sort on the key *)

Fixpoint insert_by_key {A} (x : string * A) (l : list (string * A)) : list (string * A) :=
  match l with
  | [] => [x]
  | y :: l' =>
      if String.leb (fst x) (fst y) then x :: l else y :: insert_by_key x l'
  end.

Definition sorted_by_key {A} (l : list (string * A)) : list (string * A) :=
  fold_right insert_by_key [] l.

(** Modelled from the spec: [util.bytes_to_hex] is not among the sources; the
    hash is "decoded to hex", two lower-case digits per byte. *)
Definition hex_digit (n : nat) : ascii :=
  ascii_of_nat (if (n <? 10)%nat then 48 + n else 87 + n).

Fixpoint bytes_to_hex (b : string) : string :=
  match b with
  | EmptyString => EmptyString
  | String c b' =>
      let n := nat_of_ascii c in
      String (hex_digit (n / 16)) (String (hex_digit (n mod 16)) (bytes_to_hex b'))
  end.

(** Modelled from the spec: [util.mkdir_exists_ok] is not among the sources;
    it "ensures the directory exists", and cannot when a regular file stands
    in its place. *)
Definition mkdir_exists_ok (p : string) : M FS.t unit :=
  fun fs =>
    if String.eqb p "" then (Raise (OSError "No such file or directory"), fs)
    else
      match FS.mkdirs (FS.root fs) (FS.components fs p) with
      | Some r => (Ok tt, FS.mk r (FS.cwd fs))
      | None => (Raise (OSError "File exists"), fs)
      end.

(** [shutil.copyfile(src, dst)] *)
Definition copyfile (src dst : string) : M FS.t unit :=
  fun fs =>
    match FS.read fs src with
    | Ok c =>
        match FS.write fs dst c with
        | Ok fs' => (Ok tt, fs')
        | Raise e => (Raise e, fs)
        end
    | Raise e => (Raise e, fs)
    end.

(** [os.path.isfile(path) and os.path.getsize(path) == size] *)
Definition cached (fs : FS.t) (path : string) (size : option Z) : bool :=
  FS.isfile fs path &&
  match FS.getsize fs path, size with
  | Ok n, Some s => (n =? s)%Z
  | _, _ => false
  end.

Definition DEFAULT_MAX_OBJECTS : Z := 10000.

(** [max_objects or DEFAULT_MAX_OBJECTS] *)
Definition max_objects_or_default (max_objects : option Z) : Z :=
  match max_objects with
  | Some n => if (n =? 0)%Z then DEFAULT_MAX_OBJECTS else n
  | None => DEFAULT_MAX_OBJECTS
  end.

Definition exceeded (max_objects : Z) : exn :=
  ValueError ("Exceeded " ++ fmt_int max_objects
              ++ " objects tracked, pass max_objects to add_reference").

Inductive handler : Type :=
| TrackingHandler (scheme : option string)
| LocalFileHandler (scheme : string)
| S3Handler (scheme : string)
| GCSHandler (scheme : string)
| HTTPHandler (scheme : string).

(** The [scheme] property of each handler class. *)
Definition handler_scheme (h : handler) : option string :=
  match h with
  | TrackingHandler s => s
  | LocalFileHandler s | S3Handler s | GCSHandler s | HTTPHandler s => Some s
  end.

Record MultiHandler : Type := mkMulti {
  _handlers : gmap (option string) handler;
  _default_handler : option handler
}.

(** [MultiHandler.__init__] *)
Definition MultiHandler_init (handlers : list handler) (default_handler : option handler)
  : MultiHandler :=
  mkMulti (fold_left (fun m h => <[handler_scheme h := h]> m) handlers ∅)
          default_handler.

(** [d is not None] for a dict [d]. *)
Definition is_not_None {K V} `{Countable K} (d : gmap K V) : bool := true.

(** *** The manifest digest in the words of the specification *)

Definition le_key {A} (x y : string * A) : Prop := String.leb (fst x) (fst y) = true.

Definition lt_key {A} (x y : string * A) : Prop := String.ltb (fst x) (fst y) = true.

(** Ascending order of path, characters compared by code. *)
Definition ascending {A} (l : list (string * A)) : Prop := StronglySorted lt_key l.

(** ["{path}:{digest}\n"] for each entry of [l], in the order of [l]. *)
Fixpoint digest_lines (l : list (string * ArtifactManifestEntry)) : string :=
  match l with
  | [] => ""
  | (p, e) :: l' => p ++ ":" ++ fmt (digest e) ++ nl ++ digest_lines l'
  end.

(** The fields of [Artifact] that its methods read or write;
    [artifact_dir] is [self._artifact_dir.name], [cache_dir] the directory of
    [self._cache]. *)
Record Artifact : Type := mkArtifact {
  _final : bool;
  _digest : option string;
  _file_entries : option (list ArtifactManifestEntry);
  _manifest : PyDict.t ArtifactManifestEntry;
  _added_new : bool;
  artifact_dir : string;
  cache_dir : string
}.

(** An artifact and the file system it lives on. *)
Record world : Type := mkWorld { art : Artifact; fs : FS.t }.

Definition lift_fs {A} (m : M FS.t A) : M world A :=
  fun w => let '(r, fs') := m (fs w) in (r, mkWorld (art w) fs').

Definition get_art : M world Artifact := fun w => (Ok (art w), w).

Definition modify_art (f : Artifact -> Artifact) : M world unit :=
  fun w => (Ok tt, mkWorld (f (art w)) (fs w)).

Definition set_final (a : Artifact) : Artifact :=
  mkArtifact true (_digest a) (_file_entries a) (_manifest a) (_added_new a)
             (artifact_dir a) (cache_dir a).

Definition set_digest (d : string) (a : Artifact) : Artifact :=
  mkArtifact (_final a) (Some d) (_file_entries a) (_manifest a) (_added_new a)
             (artifact_dir a) (cache_dir a).

Definition set_added_new (a : Artifact) : Artifact :=
  mkArtifact (_final a) (_digest a) (_file_entries a) (_manifest a) true
             (artifact_dir a) (cache_dir a).

Definition set_manifest (m : PyDict.t ArtifactManifestEntry) (a : Artifact) : Artifact :=
  mkArtifact (_final a) (_digest a) (_file_entries a) m (_added_new a)
             (artifact_dir a) (cache_dir a).

(** The [mode] of [open]: one that creates the file (["w"], the default, and
    ["a"], ["x"]) or one that reads an existing file. *)
Inductive open_mode : Type := Creating | Reading.

(** [name.lstrip("/")] *)
Fixpoint lstrip_slash (s : string) : string :=
  match s with
  | String "/"%char s' => lstrip_slash s'
  | _ => s
  end.

(** A cache key of at least two characters with no slash among its first
    three: such a key splits into a directory name and a file name. *)
Definition plain_key (k : string) : bool :=
  match k with
  | String a (String b rest) =>
      negb (Ascii.eqb a "/") && negb (Ascii.eqb b "/") && negb (Py.startswith rest "/")
  | _ => false
  end.

(** Library functions and the outside world, as the sources use them. *)
Class Outside : Type := {
  (** [six.moves.urllib.parse.urlparse] *)
  urlparse : string -> parsed;
  (** [hashlib.md5(data).hexdigest()] *)
  md5_hexdigest : string -> string;
  (** Base64 of the MD5 of a file's bytes: what [md5_file_b64] computes from
      the content it reads. *)
  md5_b64 : string -> string;
  (** [base64.b64decode] *)
  b64decode : string -> result string;
  (** Whether [boto3] can be imported and a session made, and whether
      [google.cloud.storage] can be imported and a client made. *)
  boto3_available : bool;
  gcs_available : bool;
  (** The parts of [store_path] that query a service when [checksum] is set:
      for S3 lines 799-838 and for GCS lines 974-1001 (arguments: uri, bucket,
      key, name, max_objects); for HTTP the request and
      [_entry_from_headers], which give digest, size and extra. *)
  s3_objects :
    string -> string -> string -> option string -> Z -> result (list ArtifactManifestEntry);
  gcs_objects :
    string -> string -> string -> option string -> Z -> result (list ArtifactManifestEntry);
  http_entry : string -> result (option string * option Z * PyDict.t string);
  (** [load_path] of the single-scheme handlers. *)
  handler_load_path : handler -> ArtifactManifestEntry -> bool -> M FS.t string
}.

Section Libraries.

Context `{Outside}.

(** Modelled from the spec: [md5_file_b64] (in [wandb.interface.artifacts]) is
    not among the sources; it "computes MD5" of the file at the path. *)
Definition md5_file_b64 (fs : FS.t) (p : string) : result string :=
  match FS.read fs p with
  | Ok c => Ok (md5_b64 c)
  | Raise e => Raise e
  end.

(** *** [ArtifactsCache] *)

Definition check_md5_obj_path (cache_dir : string) (b64_md5 : string) (size : option Z)
  : M FS.t (string * bool) :=
  raw <~ of_result (b64decode b64_md5) ;;
  let hex_md5 := bytes_to_hex raw in
  let path := OsPath.join cache_dir ["obj"; "md5"; Py.take 2 hex_md5; Py.drop 2 hex_md5] in
  fs <~ get_world ;;
  if cached fs path size then ret (path, true)
  else mkdir_exists_ok (OsPath.dirname path) ;;; ret (path, false).

Definition check_etag_obj_path (cache_dir : string) (etag : string) (size : option Z)
  : M FS.t (string * bool) :=
  let path := OsPath.join cache_dir ["obj"; "etag"; Py.take 2 etag; Py.drop 2 etag] in
  fs <~ get_world ;;
  if cached fs path size then ret (path, true)
  else mkdir_exists_ok (OsPath.dirname path) ;;; ret (path, false).

(** *** [ArtifactManifestV1.digest] *)

(** A [hashlib] object: the bytes fed to it so far. *)
Definition hasher_update (h : string) (data : string) : string := h ++ data.

Definition manifest_line (kv : string * ArtifactManifestEntry) : string :=
  fst kv ++ ":" ++ fmt (digest (snd kv)) ++ nl.

Definition manifest_digest (entries : PyDict.t ArtifactManifestEntry) : string :=
  let hasher := "" in
  let hasher := hasher_update hasher ("wandb-artifact-manifest-v1" ++ nl) in
  let hasher :=
    fold_left (fun h kv => hasher_update h (manifest_line kv))
              (sorted_by_key (PyDict.items entries)) hasher in
  md5_hexdigest hasher.

(** Modelled from the spec: [ArtifactManifest.add_entry] (in
    [wandb.interface.artifacts]) is not among the sources; the manifest is an
    "ordered mapping path -> ManifestEntry" into which an entry is inserted
    under its path. *)
Definition add_entry (e : ArtifactManifestEntry) (entries : PyDict.t ArtifactManifestEntry)
  : PyDict.t ArtifactManifestEntry :=
  PyDict.set (path e) e entries.

(** *** Storage handlers: [store_path] *)

Definition TrackingHandler_store_path (uri : string) (name : option string)
  : result (list ArtifactManifestEntry) :=
  match urlparse uri with
  | Invalid msg => Raise (ValueError msg)
  | Parsed url =>
      match name with
      | None =>
          Raise (ValueError ("You must pass name=" ++ dquote ++ "<entry_name>" ++ dquote
                             ++ " when tracking references with unknown schemes. ref: "
                             ++ uri))
      | Some _ =>
          let name := or_else name (Py.drop 1 (url_path url)) in
          match reference_entry name uri with
          | Ok e => Ok [e]
          | Raise x => Raise x
          end
      end
  end.

(** The body of [for sub_path in files] in [LocalFileHandler.store_path]. *)
Fixpoint local_files_loop (fs : FS.t) (uri : string) (max_objects : Z)
         (files : list string) (st : Z * list ArtifactManifestEntry)
  : result (Z * list ArtifactManifestEntry) :=
  match files with
  | [] => Ok st
  | sub_path :: rest =>
      let i := (fst st + 1)%Z in
      if (max_objects <=? i)%Z then Raise (exceeded max_objects)
      else
        match FS.getsize fs sub_path with
        | Raise e => Raise e
        | Ok sz =>
            match md5_file_b64 fs sub_path with
            | Raise e => Raise e
            | Ok d =>
                match new_entry (OsPath.basename sub_path)
                                (Some (OsPath.join2 uri sub_path))
                                (Some d) None (Some sz) [] None with
                | Raise e => Raise e
                | Ok entry => local_files_loop fs uri max_objects rest (i, (snd st ++ [entry])%list)
                end
            end
        end
  end.

(** [for root, dirs, files in os.walk(local_path)] *)
Fixpoint local_walk_loop (fs : FS.t) (uri : string) (max_objects : Z)
         (triples : list (string * list string * list string))
         (st : Z * list ArtifactManifestEntry)
  : result (Z * list ArtifactManifestEntry) :=
  match triples with
  | [] => Ok st
  | (_, _, files) :: rest =>
      match local_files_loop fs uri max_objects files st with
      | Raise e => Raise e
      | Ok st' => local_walk_loop fs uri max_objects rest st'
      end
  end.

Definition LocalFileHandler_store_path (fs : FS.t) (uri : string) (name : option string)
           (checksum : bool) (max_objects : option Z)
  : result (list ArtifactManifestEntry) :=
  match urlparse uri with
  | Invalid msg => Raise (ValueError msg)
  | Parsed url =>
      let local_path := netloc url ++ url_path url in
      let max_objects := max_objects_or_default max_objects in
      if negb checksum then
        match reference_entry (or_else name (OsPath.basename uri)) uri with
        | Ok e => Ok [e]
        | Raise x => Raise x
        end
      else if FS.isdir fs local_path then
        match local_walk_loop fs uri max_objects (FS.walk fs local_path) (0%Z, []) with
        | Ok (_, entries) => Ok entries
        | Raise e => Raise e
        end
      else if FS.isfile fs local_path then
        let name := or_else name (OsPath.basename local_path) in
        match FS.getsize fs local_path with
        | Raise e => Raise e
        | Ok sz =>
            match md5_file_b64 fs local_path with
            | Raise e => Raise e
            | Ok d =>
                match new_entry name (Some uri) (Some d) None (Some sz) [] None with
                | Ok e => Ok [e]
                | Raise x => Raise x
                end
            end
        end
      else
        Raise (ValueError ("Path " ++ dquote ++ uri ++ dquote
                           ++ " must be a valid file or directory path"))
  end.

(** [S3Handler.init_boto] and [GCSHandler.init_gcs] *)
Definition init_boto : result unit :=
  if boto3_available then Ok tt
  else Raise (ImportFailure
                "s3:// references requires the boto3 library, run pip install wandb[aws]").

Definition init_gcs : result unit :=
  if gcs_available then Ok tt
  else Raise (ImportFailure
                "gs:// references requires the google-cloud-storage library, run pip install wandb[gcp]").

(** [_parse_uri]: the bucket and the key without its leading slash. *)
Definition _parse_uri (uri : string) : result (string * string) :=
  match urlparse uri with
  | Invalid msg => Raise (ValueError msg)
  | Parsed url => Ok (netloc url, Py.drop 1 (url_path url))
  end.

Definition S3Handler_store_path (uri : string) (name : option string)
           (checksum : bool) (max_objects : option Z)
  : result (list ArtifactManifestEntry) :=
  match init_boto with
  | Raise e => Raise e
  | Ok _ =>
      match _parse_uri uri with
      | Raise e => Raise e
      | Ok (bucket, key) =>
          let max_objects := max_objects_or_default max_objects in
          if negb checksum then
            match reference_entry (or_else name key) uri with
            | Ok e => Ok [e]
            | Raise x => Raise x
            end
          else s3_objects uri bucket key name max_objects
      end
  end.

Definition GCSHandler_store_path (uri : string) (name : option string)
           (checksum : bool) (max_objects : option Z)
  : result (list ArtifactManifestEntry) :=
  match init_gcs with
  | Raise e => Raise e
  | Ok _ =>
      match _parse_uri uri with
      | Raise e => Raise e
      | Ok (bucket, key) =>
          let max_objects := max_objects_or_default max_objects in
          if negb checksum then
            match reference_entry (or_else name key) uri with
            | Ok e => Ok [e]
            | Raise x => Raise x
            end
          else gcs_objects uri bucket key name max_objects
      end
  end.

Definition HTTPHandler_store_path (uri : string) (name : option string) (checksum : bool)
  : result (list ArtifactManifestEntry) :=
  let name := or_else name (OsPath.basename uri) in
  if negb checksum then
    match reference_entry name uri with
    | Ok e => Ok [e]
    | Raise x => Raise x
    end
  else
    match http_entry uri with
    | Raise e => Raise e
    | Ok (digest, size, extra) =>
        match new_entry name (Some uri) digest None size extra None with
        | Ok e => Ok [e]
        | Raise x => Raise x
        end
    end.

(** Method dispatch on the handler's class. *)
Definition handler_store_path (h : handler) (fs : FS.t) (uri : string)
           (name : option string) (checksum : bool) (max_objects : option Z)
  : result (list ArtifactManifestEntry) :=
  match h with
  | TrackingHandler _ => TrackingHandler_store_path uri name
  | LocalFileHandler _ => LocalFileHandler_store_path fs uri name checksum max_objects
  | S3Handler _ => S3Handler_store_path uri name checksum max_objects
  | GCSHandler _ => GCSHandler_store_path uri name checksum max_objects
  | HTTPHandler _ => HTTPHandler_store_path uri name checksum
  end.

Definition no_handler (scheme : string) : exn :=
  ValueError ("No storage handler registered for scheme " ++ dquote ++ scheme ++ dquote).

(** Calling a method on [None]. *)
Definition none_has_no (attr : string) : exn :=
  AttributeError ("'NoneType' object has no attribute '" ++ attr ++ "'").

(** [urlparse(manifest_entry.ref).scheme]; there is none when [ref] is
    [None]. *)
Definition ref_scheme (manifest_entry : ArtifactManifestEntry) : result string :=
  match ref manifest_entry with
  | Some r =>
      match urlparse r with
      | Invalid msg => Raise (ValueError msg)
      | Parsed url => Ok (scheme url)
      end
  | None => Ok ""
  end.

Definition MultiHandler_load_path (mh : MultiHandler) (manifest_entry : ArtifactManifestEntry)
           (local : bool) : M FS.t string :=
  url_scheme <~ of_result (ref_scheme manifest_entry) ;;
  match _handlers mh !! Some url_scheme with
  | None =>
      match _default_handler mh with
      | Some d => handler_load_path d manifest_entry local
      | None => raise (no_handler url_scheme)
      end
  | Some h => handler_load_path h manifest_entry local
  end.

Definition MultiHandler_store_path (mh : MultiHandler) (fs : FS.t) (uri : string)
           (name : option string) (checksum : bool) (max_objects : option Z)
  : result (list ArtifactManifestEntry) :=
  match urlparse uri with
  | Invalid msg => Raise (ValueError msg)
  | Parsed url =>
      match _handlers mh !! Some (scheme url) with
      | None =>
          if is_not_None (_handlers mh) then
            match _default_handler mh with
            | Some d => handler_store_path d fs uri name checksum max_objects
            | None => Raise (none_has_no "store_path")
            end
          else Raise (no_handler (scheme url))
      | Some h => handler_store_path h fs uri name checksum max_objects
      end
  end.

(** The handler of [WandbStoragePolicy]. *)
Definition policy_handler : MultiHandler :=
  MultiHandler_init
    [S3Handler "s3"; GCSHandler "gs"; HTTPHandler "http"; HTTPHandler "https";
     LocalFileHandler "file"]
    (Some (TrackingHandler None)).

Definition store_reference (fs : FS.t) (uri : string) (name : option string)
           (checksum : bool) (max_objects : option Z)
  : result (list ArtifactManifestEntry) :=
  MultiHandler_store_path policy_handler fs uri name checksum max_objects.

(** *** [Artifact] *)

Definition finalized_error : exn := ValueError "Can't add to finalized artifact.".

Definition _ensure_can_add : M world unit :=
  a <~ get_art ;;
  if _final a then raise finalized_error else ret tt.

(** [open(path, mode)]: the handle returned is the path. *)
Definition open_ (p : string) (mode : open_mode) : M world string :=
  match mode with
  | Creating =>
      w <~ get_world ;;
      fs' <~ of_result (FS.write (fs w) p "") ;;
      put_world (mkWorld (art w) fs') ;;;
      ret p
  | Reading =>
      w <~ get_world ;;
      of_result (FS.read (fs w) p) ;;;
      ret p
  end.

Definition new_file (name : string) (mode : open_mode) : M world string :=
  _ensure_can_add ;;;
  a <~ get_art ;;
  let path := OsPath.join2 (artifact_dir a) (lstrip_slash name) in
  w <~ get_world ;;
  if FS.exists_ (fs w) path then
    raise (ValueError ("File with name " ++ dquote ++ name ++ dquote ++ " already exists"))
  else
    lift_fs (mkdir_exists_ok (OsPath.dirname path)) ;;;
    modify_art set_added_new ;;;
    open_ path mode.

Definition add_file (local_path : string) (name : option string) : M world unit :=
  _ensure_can_add ;;;
  w <~ get_world ;;
  if negb (FS.isfile (fs w) local_path) then
    raise (ValueError ("Path is not a file: " ++ local_path))
  else
    let name := or_else name (OsPath.basename local_path) in
    d <~ of_result (md5_file_b64 (fs w) local_path) ;;
    sz <~ of_result (FS.getsize (fs w) local_path) ;;
    entry <~ of_result (new_entry name None (Some d) None (Some sz) [] (Some local_path)) ;;
    modify_art (fun a => set_manifest (add_entry entry (_manifest a)) a).

(** The nested loops of [add_dir] that collect [(logical_path, physical_path)]. *)
Definition add_dir_paths (fs : FS.t) (local_path : string) (name : option string)
  : list (string * string) :=
  flat_map
    (fun '(dirpath, _, filenames) =>
       map (fun fname =>
              let physical_path := OsPath.join2 dirpath fname in
              let logical_path := FS.relpath fs physical_path local_path in
              let logical_path :=
                match name with
                | Some n => OsPath.join2 n logical_path
                | None => logical_path
                end in
              (logical_path, physical_path))
           filenames)
    (FS.walk fs local_path).

Definition add_manifest_file (log_phy_path : string * string) : M world unit :=
  let '(logical_path, physical_path) := log_phy_path in
  w <~ get_world ;;
  d <~ of_result (md5_file_b64 (fs w) physical_path) ;;
  sz <~ of_result (FS.getsize (fs w) physical_path) ;;
  entry <~ of_result (new_entry logical_path None (Some d) None (Some sz) []
                                (Some physical_path)) ;;
  modify_art (fun a => set_manifest (add_entry entry (_manifest a)) a).

(** [pool.map(add_manifest_file, paths)] runs on eight threads; here the
    files are taken one after the other, in the order of [paths]. *)
Definition add_dir (local_path : string) (name : option string) : M world unit :=
  _ensure_can_add ;;;
  w <~ get_world ;;
  if negb (FS.isdir (fs w) local_path) then
    raise (ValueError ("Path is not a directory: " ++ local_path))
  else
    for_each (add_dir_paths (fs w) local_path name) add_manifest_file.

Definition add_reference (uri : string) (name : option string) (checksum : bool)
           (max_objects : option Z) : M world unit :=
  match urlparse uri with
  | Invalid msg => raise (ValueError msg)
  | Parsed url =>
      if String.eqb (scheme url) "" then
        raise (ValueError "References must be URIs. To reference a local file, use file://")
      else
        a <~ get_art ;;
        if _final a then raise finalized_error
        else
          w <~ get_world ;;
          manifest_entries <~
            of_result (store_reference (fs w) uri name checksum max_objects) ;;
          for_each manifest_entries
                   (fun entry =>
                      modify_art (fun a => set_manifest (add_entry entry (_manifest a)) a))
  end.

(** [remap_entry] inside [finalize]; the entry is an object of the manifest,
    updated where it stands under its key. *)
Definition remap_entry (key : string) : M world unit :=
  a <~ get_art ;;
  match PyDict.get key (_manifest a) with
  | None => ret tt
  | Some entry =>
      match local_path entry with
      | None => ret tt
      | Some lp =>
          if negb (Py.startswith lp (artifact_dir a)) then ret tt
          else
            w <~ get_world ;;
            let rel_path := FS.relpath (fs w) lp (artifact_dir a) in
            let local_path := OsPath.join2 (artifact_dir a) rel_path in
            match digest entry with
            | None => raise (TypeError "argument should be a bytes-like object or ASCII string, not 'NoneType'")
            | Some d =>
                r <~ lift_fs (check_md5_obj_path (cache_dir a) d (size entry)) ;;
                let '(cache_path, hit) := r in
                (if hit then ret tt else lift_fs (copyfile local_path cache_path)) ;;;
                modify_art (fun a => set_manifest
                                       (PyDict.set key (set_local_path cache_path entry)
                                                   (_manifest a)) a)
            end
      end
  end.

Definition finalize : M world (option (list ArtifactManifestEntry)) :=
  a <~ get_art ;;
  if _final a then ret (_file_entries a)
  else
    (if _added_new a then add_dir (artifact_dir a) None else ret tt) ;;;
    modify_art set_final ;;;
    modify_art (fun a => set_digest (manifest_digest (_manifest a)) a) ;;;
    (if _added_new a then
       a' <~ get_art ;;
       for_each (PyDict.keys (_manifest a')) remap_entry
     else ret tt) ;;;
    ret None.

End Libraries.

(** *** Vocabulary for [store_path] with [checksum=False] *)

(** The one entry a handler returns for a reference it does not checksum. *)
Definition unchecked_entry (name uri : string) : ArtifactManifestEntry :=
  mkEntry name (Some uri) (Some uri) None None [] None.

(** Whether the client library a handler sets up first is there. *)
Definition initialises `{Outside} (h : handler) : bool :=
  match h with
  | S3Handler _ => boto3_available
  | GCSHandler _ => gcs_available
  | _ => true
  end.

(** Whether the handler gets past its call of [urlparse] on the URI; the
    HTTP handler makes none. *)
Definition parses `{Outside} (h : handler) (uri : string) : bool :=
  match h with
  | HTTPHandler _ => true
  | _ => match urlparse uri with Parsed _ => true | Invalid _ => false end
  end.

(** The name an entry gets when none is given. *)
Definition default_name `{Outside} (h : handler) (uri : string) : string :=
  match h with
  | S3Handler _ | GCSHandler _ =>
      match urlparse uri with
      | Parsed url => Py.drop 1 (url_path url)
      | Invalid _ => ""
      end
  | _ => OsPath.basename uri
  end.

Definition single_scheme (h : handler) : bool :=
  match h with TrackingHandler _ => false | _ => true end.

End Artifacts.

(** ** Concrete libraries and worlds for the examples *)

Module Sample.

Import Artifacts.
Local Open Scope string_scope.

Definition scheme_char (c : ascii) : bool :=
  let n := nat_of_ascii c in
  ((97 <=? n) && (n <=? 122) || (65 <=? n) && (n <=? 90) || (48 <=? n) && (n <=? 57)
   || (n =? 43) || (n =? 45) || (n =? 46))%nat.

Definition has_char (c : ascii) (s : string) : bool :=
  existsb (Ascii.eqb c) (list_ascii_of_string s).

(** A netloc with one bracket and not the other is refused. *)
Definition with_netloc (sch net rest : string) : parsed :=
  if xorb (has_char "[" net) (has_char "]" net) then Invalid "Invalid IPv6 URL"
  else Parsed (mkUrl sch net rest).

(** [urlparse] on URIs of the shape [scheme://netloc/path] (lower-case
    scheme, no query, no fragment); a string without such a scheme is all
    path. *)
Definition urlparse (uri : string) : parsed :=
  match String.index 0 ":" uri with
  | Some i =>
      let sch := Py.take i uri in
      let rest := Py.drop (S i) uri in
      if negb (String.eqb sch "") && forallb scheme_char (list_ascii_of_string sch) then
        if Py.startswith rest "//" then
          let r := Py.drop 2 rest in
          match String.index 0 "/" r with
          | Some j => with_netloc sch (Py.take j r) (Py.drop j r)
          | None => with_netloc sch r ""
          end
        else Parsed (mkUrl sch "" rest)
      else Parsed (mkUrl "" "" uri)
  | None => Parsed (mkUrl "" "" uri)
  end.

(** Stand-ins for the hash functions: any function will do where a theorem
    holds for all of them. *)
Definition md5_hexdigest (data : string) : string := "md5hex(" ++ data ++ ")".
Definition md5_b64 (data : string) : string := "md5b64(" ++ data ++ ")".
Definition b64decode (s : string) : result string := Ok s.

Definition no_objects (uri bucket key : string) (name : option string) (max_objects : Z)
  : result (list ArtifactManifestEntry) := Ok [].
Definition no_etag (uri : string) : result (option string * option Z * PyDict.t string) :=
  Ok (None, None, []).
Definition no_load (h : handler) (e : ArtifactManifestEntry) (local : bool) : M FS.t string :=
  raise (OSError "unreachable").

(** An agent that watches three children started from a command, with the
    given number of failures so far. *)
Definition children : gmap string Agent.AgentProcess :=
  {["run-1" := Agent.mkProc true None false None;
    "run-2" := Agent.mkProc true None false None;
    "run-3" := Agent.mkProc true None false None]}.

Definition agent (failed : Z) : Agent.t :=
  Agent.mk children true None Agent.KILL_DELAY 0 failed None [].

(** An agent that runs a function: one child, started as a
    [multiprocessing.Process] with pid 4242. *)
Definition function_agent : Agent.t :=
  Agent.mk {["run-1" := Agent.mkProc false (Some 4242%Z) false None]}
           true None Agent.KILL_DELAY 0 0 None [].

(** Both client libraries are there; the services hold nothing. *)
Definition outside : Outside :=
  {| Artifacts.urlparse := urlparse;
     Artifacts.md5_hexdigest := md5_hexdigest;
     Artifacts.md5_b64 := md5_b64;
     Artifacts.b64decode := b64decode;
     Artifacts.boto3_available := true;
     Artifacts.gcs_available := true;
     Artifacts.s3_objects := no_objects;
     Artifacts.gcs_objects := no_objects;
     Artifacts.http_entry := no_etag;
     Artifacts.handler_load_path := no_load |}.

(** The same on a machine without [boto3] and without a GCS client. *)
Definition outside_without_sdk : Outside :=
  {| Artifacts.urlparse := urlparse;
     Artifacts.md5_hexdigest := md5_hexdigest;
     Artifacts.md5_b64 := md5_b64;
     Artifacts.b64decode := b64decode;
     Artifacts.boto3_available := false;
     Artifacts.gcs_available := false;
     Artifacts.s3_objects := no_objects;
     Artifacts.gcs_objects := no_objects;
     Artifacts.http_entry := no_etag;
     Artifacts.handler_load_path := no_load |}.

(** [/d/a.txt], [/d/sub/b.txt] and an empty [/cache]; the current directory
    is [/d]. *)
Definition tree : FS.node :=
  FS.Dir [("d", FS.Dir [("a.txt", FS.File "x");
                        ("sub", FS.Dir [("b.txt", FS.File "yy")])]);
          ("cache", FS.Dir [])].

Definition fs_in_d : FS.t := FS.mk tree ["d"].

(** [/one/f] only; the current directory is [/one]. *)
Definition fs_one : FS.t := FS.mk (FS.Dir [("one", FS.Dir [("f", FS.File "abc")])]) ["one"].

(** An artifact with one staged file: [finalize] records it, moves it into
    the cache and marks the artifact final. *)
Definition staged_world : world :=
  mkWorld (mkArtifact false None None [] true "/stage" "/cache")
          (FS.mk (FS.Dir [("stage", FS.Dir [("f", FS.File "hi")]); ("cache", FS.Dir [])]) []).

End Sample.


(** * Further parts of the sources *)

(** ** [tb_watcher]: more of [TBHistory], and [TBDirWatcher.process_event] *)

Module TBHistoryMore.

Import TBHistory.

(** The four methods a caller has. *)
Inductive method_call : Type :=
| CallAdd (d : gmap string pyval)
| CallRowUpdate (d : gmap string pyval)
| CallFlush
| CallGetAndReset.

Definition step_call (st : t * list (gmap string pyval)) (c : method_call)
  : t * list (gmap string pyval) :=
  let '(h, out) := st in
  match c with
  | CallAdd d => (add d h, out)
  | CallRowUpdate d => (_row_update d h, out)
  | CallFlush => (_flush h, out)
  | CallGetAndReset =>
      let '(rows, h') := _get_and_reset h in
      (h', out ++ map (deref h') rows)
  end.

Definition run_calls_from (st : t * list (gmap string pyval)) (cs : list method_call)
  : t * list (gmap string pyval) := fold_left step_call cs st.

(** The rows returned by all the [_get_and_reset] of a run from a fresh
    history, each read when it is returned. *)
Definition returned (cs : list method_call) : list (gmap string pyval) :=
  snd (run_calls_from (init, []) cs).

Definition is_call_get_and_reset (c : method_call) : bool :=
  match c with CallGetAndReset => true | _ => false end.

(** No dict is written after it was appended: once an explicit [_flush] has
    appended the in-flight map, only [_get_and_reset] follows. *)
Fixpoint appended_is_left_alone (h : t) (cs : list method_call) : bool :=
  match cs with
  | [] => true
  | CallAdd d :: rest => appended_is_left_alone (add d h) rest
  | CallRowUpdate d :: rest => appended_is_left_alone (_row_update d h) rest
  | CallGetAndReset :: rest => appended_is_left_alone (snd (_get_and_reset h)) rest
  | CallFlush :: rest =>
      if (size (deref h (_data h)) =? 0)%nat then appended_is_left_alone h rest
      else forallb is_call_get_and_reset rest
  end.

(** The dicts given to [add], in order. *)
Definition added_dicts (ops : list op) : list (gmap string pyval) :=
  flat_map (fun o => match o with Add d => [d] | _ => [] end) ops.

Definition is_flush (o : op) : bool := match o with Flush => true | _ => false end.

Definition non_empty (d : gmap string pyval) : bool := negb (size d =? 0)%nat.

(** The dicts of [l] with the [_step] values [n], [n+1], ... written in. *)
Fixpoint numbered_from (n : nat) (l : list (gmap string pyval))
  : list (gmap string pyval) :=
  match l with
  | [] => []
  | d :: l' => <["_step" := PyInt (Z.of_nat n)]> d :: numbered_from (S n) l'
  end.

End TBHistoryMore.

Module TBDirWatcher.

(** A decoded event, as far as [process_event] looks at it: [None] in
    [file_version] and [summary] stands for [HasField] being false. *)
Record tf_event : Type := mkTfEvent {
  wall_time : Q;
  step : Z;
  file_version : option string;
  summary : option string
}.

(** [tb_watcher.Event]: the event, its namespace and the time of wrapping. *)
Record Event : Type := mkEvent {
  event : tf_event;
  namespace : option string;
  created_at : Q
}.

(** [Event.__lt__] *)
Definition Event_lt (a b : Event) : bool :=
  negb (Qle_bool (wall_time (event b)) (wall_time (event a))).

(** The fields of [TBDirWatcher] that [process_event] reads or writes, and
    the items put on [self._queue], in the order they were put. *)
Record t : Type := mk {
  _first_event_timestamp : option Q;
  _file_version : option string;
  _namespace : option string;
  _queue : list Event
}.

(** [process_event(event)], with [now = time.time()] read when the event is
    wrapped. *)
Definition process_event (now : Q) (e : tf_event) (w : t) : t :=
  let first :=
    match _first_event_timestamp w with
    | None => Some (wall_time e)
    | Some ts => Some ts
    end in
  let version :=
    match file_version e with
    | Some v => Some v
    | None => _file_version w
    end in
  let queue :=
    match summary e with
    | Some _ => _queue w ++ [mkEvent e (_namespace w) now]
    | None => _queue w
    end in
  mk first version (_namespace w) queue.

(** [for event in self._generator.Load(): self.process_event(event)], each
    event with the clock reading at its turn. *)
Definition process_events (es : list (Q * tf_event)) (w : t) : t :=
  fold_left (fun w ne => process_event (fst ne) (snd ne) w) es w.

Definition has_summary (ne : Q * tf_event) : bool :=
  match summary (snd ne) with Some _ => true | None => false end.

End TBDirWatcher.

(** ** [wandb_agent]: the polling loop as a whole, and the command line of a run *)

Module AgentLoop.

Import Agent.

(** The poll results the loop counts as a failure, and those it takes for a
    finished child. *)
Definition polled_failed (r : poll_result) : bool :=
  match r with PollInt n => (0 <? n)%Z | _ => false end.

Definition polled_finished (r : poll_result) : bool :=
  match r with PollNone => false | _ => true end.

Definition finished_ids (polled : list (string * poll_result)) : list string :=
  map fst (List.filter (fun kr => polled_finished (snd kr)) polled).

Definition alive_ids (polled : list (string * poll_result)) : list string :=
  map fst (List.filter (fun kr => negb (polled_finished (snd kr))) polled).

Definition failures (polled : list (string * poll_result)) : nat :=
  length (List.filter (fun kr => polled_failed (snd kr)) polled).

(** The call [_command_exit] makes for one child, if it makes one. *)
Definition exit_call (sys : platform) (now : Q) (kv : string * AgentProcess)
  : option issued :=
  mkIssued now (fst kv) <$> fst (fst (kill sys false (snd kv))).

(** The child after [kill], for the answer [gone] of its handle. *)
Definition killed (sys : platform) (gone : bool) (p : AgentProcess) : AgentProcess :=
  snd (fst (kill sys gone p)).

End AgentLoop.

Module AgentCommand.

Import Agent.
Local Open Scope string_scope.

Definition default_sweep_command : list string :=
  ["${env}"; "${interpreter}"; "${program}"; "${args}"].

(** [c[2:-1]] *)
Definition between (c : string) : string :=
  Py.take (String.length c - 3) (Py.drop 2 c).

(** [flags_list] holds each parameter with its value as [str.format] prints
    it. *)
Definition flags_no_hyphens (flags_list : list (string * string)) : list string :=
  map (fun pv => fst pv ++ "=" ++ snd pv) flags_list.

Definition flags (flags_list : list (string * string)) : list string :=
  map (fun flag => "--" ++ flag) (flags_no_hyphens flags_list).

(** [json_file], from [os.environ[SWEEP_ID]] and the command's [run_id]. *)
Definition json_file (sweep_id run_id : string) : string :=
  OsPath.join "wandb" ["sweep-" ++ sweep_id; "config-" ++ run_id ++ ".json"].

(** [sweep_vars]; [flags_json] is [json.dumps(flags_dict)]. *)
Definition sweep_vars (sys : platform) (program : string)
           (flags_list : list (string * string)) (flags_json json_file : string)
  : gmap string (list string) :=
  let vars : gmap string (list string) :=
    <["env" := ["/usr/bin/env"]]>
      (<["args_json_file" := [json_file]]>
         (<["args_json" := [flags_json]]>
            (<["args_no_hyphens" := flags_no_hyphens flags_list]>
               (<["args" := flags flags_list]>
                  (<["program" := [program]]>
                     (<["interpreter" := ["python"]]> ∅)))))) in
  match sys with
  | Windows => delete "env" vars
  | Posix => vars
  end.

(** The loop [for c in sweep_command] that builds [command_list]. *)
Definition expand (vars : gmap string (list string)) (sweep_command : list string)
  : list string :=
  fold_left
    (fun command_list c =>
       if Py.startswith c "${" && Py.endswith c "}"
       then (command_list ++ default [] (vars !! between c))%list
       else (command_list ++ [c])%list)
    sweep_command [].

(** The command line [_command_run] starts a run with, when the agent runs
    a program ([self._function] is not set). *)
Definition command_list (sys : platform) (_sweep_command : list string)
           (program : string) (flags_list : list (string * string))
           (flags_json sweep_id run_id : string) : list string :=
  let sweep_command :=
    match _sweep_command with
    | [] => default_sweep_command
    | _ => _sweep_command
    end in
  expand (sweep_vars sys program flags_list flags_json (json_file sweep_id run_id))
         sweep_command.

End AgentCommand.

(** ** [wandb_artifacts]: creating an artifact, its properties, and [load_path] *)

Module ArtifactsMore.

Import Artifacts.
Local Open Scope string_scope.

(** *** [Artifact.__init__] *)





(** The files an [os.walk] of [top] lists, directory after directory. *)
Definition walked_files (fs : FS.t) (top : string) : list string :=
  flat_map (fun t => snd t) (FS.walk fs top).

(** The process: its files and the module's global [_artifacts_cache] (the
    directory of the cache object, once there is one). *)
Record process : Type := mkProcess {
  files : FS.t;
  _artifacts_cache : option string
}.

(** [env.get_cache_dir()], and [compat_tempfile.TemporaryDirectory(...)]
    with the name of the directory it makes. *)
Class Host : Type := {
  get_cache_dir : string;
  TemporaryDirectory : M FS.t string
}.

Definition lift_files {A} (m : M FS.t A) : M process A :=
  fun p => let '(r, fs') := m (files p) in (r, mkProcess fs' (_artifacts_cache p)).

(** [ArtifactsCache.__init__] *)
Definition ArtifactsCache_init (cache_dir : string) : M FS.t string :=
  mkdir_exists_ok cache_dir ;;; ret cache_dir.

Section Creation.

Context `{Host}.

Definition get_artifacts_cache : M process string :=
  p <~ get_world ;;
  match _artifacts_cache p with
  | Some cache => ret cache
  | None =>
      let cache_dir := OsPath.join2 get_cache_dir "artifacts" in
      cache <~ lift_files (ArtifactsCache_init cache_dir) ;;
      p' <~ get_world ;;
      put_world (mkProcess (files p') (Some cache)) ;;;
      ret cache
  end.

(** [WandbStoragePolicy.__init__]: the policy and each of its five handlers
    ask for the cache. *)
Definition WandbStoragePolicy_init : M process unit :=
  get_artifacts_cache ;;;
  for_each [S3Handler "s3"; GCSHandler "gs"; HTTPHandler "http"; HTTPHandler "https";
            LocalFileHandler "file"]
           (fun _ => get_artifacts_cache ;;; ret tt).


End Creation.

(** The error of [new_file] for a name that is taken. *)
Definition already_exists (name : string) : exn :=
  ValueError ("File with name " ++ dquote ++ name ++ dquote ++ " already exists").

(** What the manifest digest reads of a manifest: each path with the digest
    of its entry. *)
Definition digests (m : PyDict.t ArtifactManifestEntry) : list (string * option string) :=
  map (fun kv => (fst kv, digest (snd kv))) m.

(** *** More of the library *)

(** [os.path.samefile] on a tree without links, with the fall-back of
    [shutil._samefile] to the normalised absolute paths. *)
Definition samefile (fs : FS.t) (a b : string) : bool :=
  bool_decide (FS.components fs a = FS.components fs b).

(** [shutil.copy(src, dst)] *)
Definition shutil_copy (src dst : string) : M FS.t string :=
  fs <~ get_world ;;
  let dst := if FS.isdir fs dst then OsPath.join2 dst (OsPath.basename src) else dst in
  if samefile fs src dst
  then raise (OSError (src ++ " and " ++ dst ++ " are the same file"))
  else copyfile src dst ;;; ret dst.

Section Loading.

Context `{Outside}.

(** *** The properties [manifest] and [digest] *)

Definition Artifact_manifest : M world (PyDict.t ArtifactManifestEntry) :=
  finalize ;;;
  a <~ get_art ;;
  ret (_manifest a).

Definition Artifact_digest : M world (option string) :=
  finalize ;;;
  a <~ get_art ;;
  ret (_digest a).

(** *** Where [finalize] leaves the local paths *)

(** The path of the cache for the MD5 whose bytes are [raw]. *)
Definition md5_cache_path (cache_dir raw : string) : string :=
  let hex_md5 := bytes_to_hex raw in
  OsPath.join cache_dir ["obj"; "md5"; Py.take 2 hex_md5; Py.drop 2 hex_md5].

(** The entry has no local path, or one that does not start with the name
    of the artifact's directory, or the cache path of its own digest. *)
Definition out_of_staging (a : Artifact) (e : ArtifactManifestEntry) : Prop :=
  match local_path e with
  | None => True
  | Some lp =>
      Py.startswith lp (artifact_dir a) = false
      \/ exists d raw, digest e = Some d /\ b64decode d = Ok raw
                       /\ lp = md5_cache_path (cache_dir a) raw
  end.

(** The entries under the keys of [done] are out of the staging directory. *)
Definition remapped (done : list string) (w : world) : Prop :=
  forall k e, In k done -> PyDict.get k (_manifest (art w)) = Some e ->
              out_of_staging (art w) e.

(** *** [LocalFileHandler.load_path]; its argument [local] is not read *)

(** ["%s%s" % (url.netloc, url.path)] for [url = urlparse(manifest_entry.ref)];
    [urlparse(None)] gives empty byte strings, printed as [b'']. *)
Definition ref_local_path (e : ArtifactManifestEntry) : result string :=
  match ref e with
  | Some r =>
      match urlparse r with
      | Invalid msg => Raise (ValueError msg)
      | Parsed url => Ok (netloc url ++ url_path url)
      end
  | None => Ok "b''b''"
  end.

Definition digest_mismatch (local_path : string) (expected : string) (found : string) : exn :=
  ValueError ("Local file reference: Digest mismatch for path " ++ local_path
              ++ ": expected " ++ expected ++ " but found " ++ found).

Definition LocalFileHandler_load_path (cache_dir : string)
           (manifest_entry : ArtifactManifestEntry) : M FS.t string :=
  local_path <~ of_result (ref_local_path manifest_entry) ;;
  fs <~ get_world ;;
  if negb (FS.exists_ fs local_path) then
    raise (ValueError ("Local file reference: Failed to find file at path " ++ local_path))
  else
    match digest manifest_entry with
    | None =>
        raise (TypeError "argument should be a bytes-like object or ASCII string, not 'NoneType'")
    | Some d =>
        r <~ check_md5_obj_path cache_dir d (size manifest_entry) ;;
        let '(path, hit) := r in
        if hit then ret path
        else
          fs <~ get_world ;;
          md5 <~ of_result (md5_file_b64 fs local_path) ;;
          if negb (String.eqb md5 d) then raise (digest_mismatch local_path d md5)
          else
            mkdir_exists_ok (OsPath.dirname path) ;;;
            shutil_copy local_path path ;;;
            ret path
    end.

End Loading.

End ArtifactsMore.

(** ** More samples *)

Module SampleMore.

Import Artifacts ArtifactsMore.
Local Open Scope string_scope.

(** The cache root is [/home/.cache/wandb]; a temporary directory is made
    as [/tmp/artifact]. *)
Definition host : Host :=
  {| get_cache_dir := "/home/.cache/wandb";
     TemporaryDirectory := mkdir_exists_ok "/tmp/artifact" ;;; ret "/tmp/artifact" |}.

Definition fresh_process : process := mkProcess (FS.mk (FS.Dir []) []) None.

(** [/data/model.bin] and an empty [/cache]. *)
Definition fs_data : FS.t :=
  FS.mk (FS.Dir [("data", FS.Dir [("model.bin", FS.File "weights")]); ("cache", FS.Dir [])]) [].

End SampleMore.

(** ** [ArtifactManifestV1]: the manifest as JSON *)

Module ManifestJson.

Import Artifacts ArtifactsMore.
Local Open Scope string_scope.

(** An entry of ["contents"].  ["digest"] is always there ([None] is
    [null]); for the other keys [None] stands for a key that is missing. *)
Record json_entry : Type := mkJsonEntry {
  j_digest : option string;
  j_birthArtifactID : option string;
  j_ref : option string;
  j_extra : option (PyDict.t string);
  j_size : option Z;
  j_local_path : option string
}.

(** The manifest document, with the keys that [from_manifest_json]
    subscripts; [None] in [storagePolicyConfig] is a missing key. *)
Record manifest_json : Type := mkJson {
  version : Z;
  storagePolicy : string;
  storagePolicyConfig : option (PyDict.t string);
  contents : PyDict.t json_entry
}.

(** The two storage policy classes of the module, and their objects. *)
Inductive policy_class : Type := WandbStoragePolicy_cls | S3BucketPolicy_cls.

Inductive StoragePolicy : Type :=
| WandbStoragePolicy (config : PyDict.t string)
| S3BucketPolicy (bucket : string).

(** [name()] and [config()] *)
Definition policy_name (p : StoragePolicy) : string :=
  match p with
  | WandbStoragePolicy _ => "wandb-storage-policy-v1"
  | S3BucketPolicy _ => "wandb-s3-bucket-policy-v1"
  end.

Definition policy_config (p : StoragePolicy) : PyDict.t string :=
  match p with
  | WandbStoragePolicy config => config
  | S3BucketPolicy bucket => [("bucket", bucket)]
  end.

(** Modelled from the spec: [ArtifactManifest.__init__] (in
    [wandb.interface.artifacts]) is not among the sources; the manifest is an
    "ordered mapping path -> ManifestEntry + policy reference". *)
Record ArtifactManifestV1 : Type := mkManifest {
  storage_policy : StoragePolicy;
  entries : PyDict.t ArtifactManifestEntry
}.

(** Python truth of an optional string. *)
Definition truthy_str (x : option string) : bool :=
  match x with
  | Some s => negb (String.eqb s "")
  | None => false
  end.

(** The [json_entry] built in the loop of [to_manifest_json]. *)
Definition to_json_entry (entry : ArtifactManifestEntry) : json_entry :=
  mkJsonEntry (digest entry)
              (if truthy_str (birth_artifact_id entry) then birth_artifact_id entry else None)
              (if truthy_str (ref entry) then ref entry else None)
              (match extra entry with [] => None | x => Some x end)
              (size entry)
              None.

(** [sorted(self.entries.values(), key=lambda k: k.path)] *)
Definition sorted_by_path (m : PyDict.t ArtifactManifestEntry) : list ArtifactManifestEntry :=
  map snd (sorted_by_key (map (fun e => (path e, e)) (PyDict.values m))).

Definition to_manifest_json (m : ArtifactManifestV1) : manifest_json :=
  let contents :=
    fold_left (fun contents entry => PyDict.set (path entry) (to_json_entry entry) contents)
              (sorted_by_path (entries m)) [] in
  mkJson 1 (policy_name (storage_policy m)) (Some (policy_config (storage_policy m)))
         contents.

(** The dict comprehension of [from_manifest_json]. *)
Fixpoint entries_of (contents : list (string * json_entry))
         (acc : PyDict.t ArtifactManifestEntry) : result (PyDict.t ArtifactManifestEntry) :=
  match contents with
  | [] => Ok acc
  | (name, val) :: rest =>
      match new_entry name (j_ref val) (j_digest val) (j_birthArtifactID val) (j_size val)
                      (default [] (j_extra val)) (j_local_path val) with
      | Ok e => entries_of rest (PyDict.set name e acc)
      | Raise x => Raise x
      end
  end.

Section Reading.

Context `{Host}.

(** [StoragePolicy.lookup_by_name], which is not among the sources: the
    class registered under a name, if there is one. *)
Variable lookup_by_name : string -> option policy_class.

(** [from_config] of the two classes, with what their [__init__] asks of
    the cache. *)
Definition from_config (cls : policy_class) (config : PyDict.t string)
  : M process StoragePolicy :=
  match cls with
  | WandbStoragePolicy_cls =>
      WandbStoragePolicy_init ;;; ret (WandbStoragePolicy config)
  | S3BucketPolicy_cls =>
      match PyDict.get "bucket" config with
      | None => raise (ValueError "Bucket name not found in config")
      | Some bucket =>
          get_artifacts_cache ;;; get_artifacts_cache ;;; ret (S3BucketPolicy bucket)
      end
  end.

Definition from_manifest_json (mj : manifest_json) : M process ArtifactManifestV1 :=
  if negb (version mj =? 1)%Z then
    raise (ValueError ("Expected manifest version 1, got " ++ fmt_int (version mj)))
  else
    let storage_policy_name := storagePolicy mj in
    let storage_policy_config := default [] (storagePolicyConfig mj) in
    match lookup_by_name storage_policy_name with
    | None =>
        raise (ValueError ("Failed to find storage policy " ++ dquote
                           ++ storage_policy_name ++ dquote))
    | Some storage_policy_cls =>
        entries <~ of_result (entries_of (PyDict.items (contents mj)) []) ;;
        policy <~ from_config storage_policy_cls storage_policy_config ;;
        ret (mkManifest policy entries)
    end.

End Reading.

(** An entry as it comes back from the document: without its local path,
    and with an empty reference or birth id read as none. *)
Definition as_stored (e : ArtifactManifestEntry) : ArtifactManifestEntry :=
  mkEntry (path e)
          (if truthy_str (ref e) then ref e else None)
          (digest e)
          (if truthy_str (birth_artifact_id e) then birth_artifact_id e else None)
          (size e) (extra e) None.

(** Every entry stands under its own path, as [add_entry] puts it. *)
Definition keyed_by_path (m : PyDict.t ArtifactManifestEntry) : Prop :=
  Forall (fun kv => path (snd kv) = fst kv) m.

End ManifestJson.

(** * Theorems *)

(** ** Strings *)

Module PyFacts.

Local Open Scope string_scope.

Lemma append_cons (c : ascii) (a b : string) : String c a ++ b = String c (a ++ b).
Proof. reflexivity. Qed.

Lemma append_nil_l (s : string) : "" ++ s = s.
Proof. reflexivity. Qed.

Lemma append_nil_r (s : string) : s ++ "" = s.
Proof. induction s as [|c s IH]; [reflexivity|]. now rewrite append_cons, IH. Qed.

Lemma append_assoc (a b c : string) : (a ++ b) ++ c = a ++ (b ++ c).
Proof. induction a as [|x a IH]; [reflexivity|]. now rewrite !append_cons, IH. Qed.

Lemma rev_string_app (a b : string) :
  Py.rev_string (a ++ b) = Py.rev_string b ++ Py.rev_string a.
Proof.
  induction a as [|c a IH]; rewrite ?append_cons, ?append_nil_l; simpl.
  - now rewrite append_nil_r.
  - now rewrite IH, append_assoc.
Qed.

Lemma rev_string_involutive (s : string) : Py.rev_string (Py.rev_string s) = s.
Proof.
  induction s as [|c s IH]; simpl; [reflexivity|].
  now rewrite rev_string_app, IH.
Qed.

Lemma prefix_iff (p s : string) :
  String.prefix p s = true <-> exists t, s = p ++ t.
Proof.
  revert s; induction p as [|c p IH]; intros s.
  - destruct s; simpl; split; eauto.
  - destruct s as [|d s]; simpl.
    + split; [discriminate | intros [t Ht]; discriminate].
    + destruct (ascii_dec c d) as [->|Hne].
      * rewrite IH. split; intros [t Ht]; exists t; rewrite ?append_cons in *; congruence.
      * split; [discriminate | intros [t Ht]; rewrite append_cons in Ht; congruence].
Qed.

Lemma endswith_iff (s p : string) :
  Py.endswith s p = true <-> exists stem, s = stem ++ p.
Proof.
  unfold Py.endswith. rewrite prefix_iff. split.
  - intros [t Ht]. exists (Py.rev_string t).
    rewrite <- (rev_string_involutive s), Ht, rev_string_app.
    now rewrite rev_string_involutive.
  - intros [stem ->]. exists (Py.rev_string stem). apply rev_string_app.
Qed.

Lemma index_Some (x : string) (l : list string) (i : nat) :
  Py.index x l = Some i <->
  l !! i = Some x /\ forall j : nat, (j < i)%nat -> l !! j <> Some x.
Proof.
  revert i; induction l as [|y l IH]; intros i; simpl.
  - split; [discriminate | intros [H _]; discriminate].
  - destruct (String.eqb_spec y x) as [->|Hne].
    + split.
      * intros [= <-]. split; [reflexivity | intros j Hj; lia].
      * intros [Hi Hfirst]. destruct i as [|i]; [reflexivity|].
        exfalso. apply (Hfirst 0%nat); [lia | reflexivity].
    + destruct i as [|i]; simpl.
      * split.
        -- destruct (Py.index x l); discriminate.
        -- intros [[= ->] _]. congruence.
      * split.
        -- destruct (Py.index x l) as [k|] eqn:E; [|discriminate].
           intros [= <-]. destruct (proj1 (IH k) eq_refl) as [Hk Hfirst].
           split; [exact Hk|]. intros [|j] Hj; simpl; [congruence|].
           apply Hfirst; lia.
        -- intros [Hi Hfirst].
           assert (Py.index x l = Some i) as ->; [|reflexivity].
           apply IH. split; [exact Hi|]. intros j Hj. apply (Hfirst (S j)). lia.
Qed.

Lemma index_None (x : string) (l : list string) :
  Py.index x l = None <-> forall j : nat, l !! j <> Some x.
Proof.
  induction l as [|y l IH]; simpl.
  - split; [intros _ j; discriminate | reflexivity].
  - destruct (String.eqb_spec y x) as [->|Hne].
    + split; [discriminate | intros H; exfalso; now apply (H 0%nat)].
    + destruct (Py.index x l) eqn:E; simpl.
      * split; [discriminate|]. intros H. exfalso.
        assert (Hall : forall j : nat, l !! j <> Some x) by (intros j; apply (H (S j))).
        apply IH in Hall. discriminate.
      * split; [|reflexivity]. intros _ [|j]; simpl; [congruence|].
        now apply IH.
Qed.

End PyFacts.

(** ** Paths and the file system *)

Module OsPathFacts.

Local Open Scope string_scope.

Lemma startswith_cons (c : ascii) (s : string) :
  Py.startswith (String c s) "/" = Ascii.eqb c "/".
Proof.
  unfold Py.startswith.
  change (String.prefix "/" (String c s))
    with (if ascii_dec "/"%char c then String.prefix "" s else false).
  destruct (ascii_dec "/"%char c) as [<-|Hne].
  - destruct s; reflexivity.
  - symmetry. apply Ascii.eqb_neq. congruence.
Qed.

Lemma endswith_last (s : string) (c : ascii) :
  Py.endswith (s ++ String c "") "/" = Ascii.eqb c "/".
Proof.
  unfold Py.endswith. rewrite PyFacts.rev_string_app.
  change (Py.rev_string (String c "")) with (String c "").
  change (Py.rev_string "/") with "/".
  rewrite PyFacts.append_cons, PyFacts.append_nil_l.
  apply (startswith_cons c (Py.rev_string s)).
Qed.

Lemma snoc_or_empty (s : string) : s = "" \/ exists t c, s = t ++ String c "".
Proof.
  induction s as [|a s IH]; [now left|]. right.
  destruct IH as [->|(t & c & ->)].
  - exists "", a. reflexivity.
  - exists (String a t), c. reflexivity.
Qed.

(** Whether a string ends with a slash is decided by its tail. *)
Lemma endswith_app (a b : string) :
  b <> "" -> Py.endswith (a ++ b) "/" = Py.endswith b "/".
Proof.
  intros Hb. destruct (snoc_or_empty b) as [->|(t & c & ->)]; [contradiction|].
  rewrite <- PyFacts.append_assoc. now rewrite !endswith_last.
Qed.

Lemma append_not_empty_r (a b : string) : b <> "" -> a ++ b <> "".
Proof. destruct a; [now rewrite PyFacts.append_nil_l | discriminate]. Qed.

(** Joining onto a non-empty head without a trailing slash a tail that is
    not absolute puts one slash between them. *)
Lemma join2_plain (a b : string) :
  a <> "" -> Py.endswith a "/" = false -> Py.startswith b "/" = false ->
  OsPath.join2 a b = a ++ "/" ++ b.
Proof.
  intros Ha He Hs. unfold OsPath.join2. rewrite Hs, He.
  destruct (String.eqb_spec a ""); [contradiction | reflexivity].
Qed.

(** The layout of a cache path: [root/obj/<kind>/<hh>/<rest>]. *)
Lemma cache_layout (root kind hh rest : string) :
  root <> "" -> Py.endswith root "/" = false ->
  kind <> "" -> Py.startswith kind "/" = false -> Py.endswith kind "/" = false ->
  hh <> "" -> Py.startswith hh "/" = false -> Py.endswith hh "/" = false ->
  Py.startswith rest "/" = false ->
  OsPath.join root ["obj"; kind; hh; rest]
  = root ++ "/obj/" ++ kind ++ "/" ++ hh ++ "/" ++ rest.
Proof.
  intros Hr Hre Hk Hks Hke Hh Hhs Hhe Hrs. unfold OsPath.join. simpl.
  rewrite (join2_plain root "obj") by (assumption || reflexivity).
  rewrite (join2_plain _ kind); [| |rewrite endswith_app|]; try assumption;
    try discriminate; try reflexivity.
  2:{ apply append_not_empty_r. discriminate. }
  rewrite (join2_plain _ hh); try assumption.
  2:{ apply append_not_empty_r, append_not_empty_r. exact Hk. }
  2:{ rewrite endswith_app by (apply append_not_empty_r; exact Hk).
      rewrite endswith_app by exact Hk. exact Hke. }
  rewrite (join2_plain _ rest); try assumption.
  2:{ apply append_not_empty_r, append_not_empty_r. exact Hh. }
  2:{ rewrite endswith_app by (apply append_not_empty_r; exact Hh).
      rewrite endswith_app by exact Hh. exact Hhe. }
  rewrite !PyFacts.append_assoc. reflexivity.
Qed.

End OsPathFacts.

Module FSFacts.

Lemma get_set_eq {A} (k : string) (v : A) (d : PyDict.t A) :
  PyDict.get k (PyDict.set k v d) = Some v.
Proof.
  induction d as [|[k' v'] d IH]; simpl.
  - now rewrite String.eqb_refl.
  - destruct (String.eqb_spec k' k) as [->|Hne]; simpl.
    + now rewrite String.eqb_refl.
    + destruct (String.eqb_spec k' k); [contradiction | exact IH].
Qed.

Lemma get_snoc_fresh {A} (k : string) (v : A) (d : PyDict.t A) :
  PyDict.get k d = None -> PyDict.get k (d ++ [(k, v)]) = Some v.
Proof.
  induction d as [|[k' v'] d IH]; simpl.
  - now rewrite String.eqb_refl.
  - destruct (String.eqb_spec k' k); [discriminate | exact IH].
Qed.

Lemma lookup_chain (cs : list string) : FS.lookup (FS.chain cs) cs = Some (FS.Dir []).
Proof.
  induction cs as [|c cs IH]; simpl; [reflexivity|].
  now rewrite String.eqb_refl.
Qed.

(** After [mkdirs] a directory stands at the end of the path. *)
Lemma mkdirs_lookup (cs : list string) (n n' : FS.node) :
  FS.mkdirs n cs = Some n' -> exists ch, FS.lookup n' cs = Some (FS.Dir ch).
Proof.
  revert n n'; induction cs as [|c cs IH]; intros n n'.
  - destruct n as [content|ch]; simpl; [discriminate|]. intros [= <-]. eauto.
  - destruct n as [content|ch]; simpl; [discriminate|].
    destruct (PyDict.get c ch) as [n1|] eqn:E.
    + destruct (FS.mkdirs n1 cs) as [n1'|] eqn:E1; [|discriminate].
      intros [= <-]. simpl. rewrite get_set_eq. now apply (IH n1).
    + intros [= <-]. simpl. rewrite (get_snoc_fresh _ _ _ E).
      rewrite lookup_chain. eauto.
Qed.

(** Modelled [mkdir_exists_ok] does ensure the directory when it returns. *)
Lemma mkdir_exists_ok_isdir (p : string) (fs fs' : FS.t) :
  Artifacts.mkdir_exists_ok p fs = (Ok tt, fs') -> FS.isdir fs' p = true.
Proof.
  unfold Artifacts.mkdir_exists_ok, FS.isdir, FS.stat.
  destruct (String.eqb p ""); [discriminate|].
  destruct (FS.mkdirs (FS.root fs) (FS.components fs p)) as [r|] eqn:E; [|discriminate].
  intros [= <-]. apply mkdirs_lookup in E as [ch Hch].
  unfold FS.components in *. simpl. now rewrite Hch.
Qed.

End FSFacts.

(** ** The event-file filter *)

Module TbWatcherFacts.

Import TbWatcher.

Lemma hostname_loop_true (comps : list string) (idx : nat) (parts : list string) (i : nat) :
  hostname_loop comps idx i parts = true <->
  forall (k : nat) (part : string),
    parts !! k = Some part -> comps !! (idx + 2 + (i + k))%nat = Some part.
Proof.
  revert i; induction parts as [|p parts IH]; intros i; simpl.
  - split; [intros _ k part; discriminate | reflexivity].
  - destruct (comps !! (idx + 2 + i)%nat) as [c|] eqn:E.
    + destruct (String.eqb_spec p c) as [->|Hne].
      * rewrite IH. split.
        -- intros H [|k] part; simpl.
           ++ intros [= <-]. now replace (i + 0)%nat with i by lia.
           ++ intros Hk. replace (i + S k)%nat with (S i + k)%nat by lia. now apply H.
        -- intros H k part Hk.
           replace (S i + k)%nat with (i + S k)%nat by lia. now apply H.
      * split; [discriminate|]. intros H. exfalso.
        specialize (H 0%nat p eq_refl).
        replace (i + 0)%nat with i in H by lia. congruence.
    + split; [discriminate|]. intros H. exfalso.
      specialize (H 0%nat p eq_refl).
      replace (i + 0)%nat with i in H by lia. congruence.
Qed.

(** C6.  On the empty path the filter raises [ValueError]; on every other
    path it returns a boolean, and that boolean is [true] exactly when the
    basename does not end with [.profile_empty], has a [tfevents] component,
    the component after it parses as an integer not below [start_time], and
    the components of the hostname match the filename components from two
    places after [tfevents] on. *)
Theorem is_tfevents_file_created_by_spec (path hostname : string) (start_time : Q) :
  (path = "" /\ is_tfevents_file_created_by path hostname start_time
               = Raise (ValueError "Path must be a nonempty string"))
  \/ (path <> ""
      /\ exists b : bool,
          is_tfevents_file_created_by path hostname start_time = Ok b
          /\ (b = true <-> created_by_spec path hostname start_time)).
Proof.
  unfold is_tfevents_file_created_by, created_by_spec.
  destruct (String.eqb_spec path "") as [->|Hne]; [left; split; reflexivity|].
  right. split; [exact Hne|].
  set (base := OsPath.basename path).
  set (comps := Py.split "."%char base).
  destruct (Py.endswith base ".profile_empty") eqn:Eend.
  { exists false. split; [reflexivity|]. split; [discriminate|].
    intros [Hno _]. exfalso. apply Hno. now apply PyFacts.endswith_iff. }
  assert (Hnot : ~ exists stem, base = (stem ++ ".profile_empty")%string).
  { intros H. apply PyFacts.endswith_iff in H. congruence. }
  destruct (Py.index "tfevents" comps) as [idx|] eqn:Eidx.
  2:{ exists false. split; [reflexivity|]. split; [discriminate|].
      intros [_ [i [Hi _]]]. exfalso.
      exact (proj1 (PyFacts.index_None _ _) Eidx i Hi). }
  destruct (proj1 (PyFacts.index_Some _ _ _) Eidx) as [Hidx Hfirst].
  assert (Huniq : forall i : nat,
             comps !! i = Some "tfevents" ->
             (forall j : nat, (j < i)%nat -> comps !! j <> Some "tfevents") -> i = idx).
  { intros i Hi Hfi. destruct (Nat.lt_trichotomy i idx) as [Hlt|[Heq|Hgt]]; [|exact Heq|].
    - exfalso. exact (Hfirst i Hlt Hi).
    - exfalso. exact (Hfi idx Hgt Hidx). }
  destruct (hostname_loop comps idx 0 (Py.split "."%char hostname)) eqn:Ehost.
  2:{ exists false. split; [reflexivity|]. split; [discriminate|].
      intros [_ [i [Hi [Hfi [_ Hh]]]]]. exfalso.
      rewrite (Huniq i Hi Hfi) in Hh.
      assert (hostname_loop comps idx 0 (Py.split "."%char hostname) = true);
        [|congruence].
      apply hostname_loop_true. intros k part Hk. simpl. now apply Hh. }
  assert (Hhost : forall (i : nat) (part : string),
             Py.split "."%char hostname !! i = Some part ->
             comps !! (idx + 2 + i)%nat = Some part).
  { intros i part Hi. exact (proj1 (hostname_loop_true _ _ _ _) Ehost i part Hi). }
  destruct (comps !! (idx + 1)%nat) as [c|] eqn:Ec.
  2:{ exists false. split; [reflexivity|]. split; [discriminate|].
      intros [_ [i [Hi [Hfi [[c [t [Hc _]]] _]]]]]. exfalso.
      rewrite (Huniq i Hi Hfi) in Hc. congruence. }
  destruct (Py.int c) as [t|] eqn:Et.
  2:{ exists false. split; [reflexivity|]. split; [discriminate|].
      intros [_ [i [Hi [Hfi [[c' [t [Hc [Hint _]]]] _]]]]]. exfalso.
      rewrite (Huniq i Hi Hfi) in Hc. congruence. }
  exists (Qle_bool start_time (inject_Z t)). split; [reflexivity|].
  rewrite Qle_bool_iff. split.
  - intros Hle. split; [exact Hnot|]. exists idx.
    split; [exact Hidx|]. split; [exact Hfirst|]. split; [|exact Hhost].
    exists c, t. auto.
  - intros [_ [i [Hi [Hfi [[c' [t' [Hc [Hint Hle]]]] _]]]]].
    rewrite (Huniq i Hi Hfi) in Hc.
    assert (c' = c) by congruence. subst c'.
    assert (t' = t) by congruence. subst t'. exact Hle.
Qed.

(** The filter on file names as TensorBoard writes them. *)
Example filter_examples :
  is_tfevents_file_created_by "/logs/train/events.out.tfevents.1600000000.host.local.1234.v2"
                              "host.local" 1500000000 = Ok true
  /\ is_tfevents_file_created_by "events.out.tfevents.1400000000.host.local"
                                 "host.local" 1500000000 = Ok false
  /\ is_tfevents_file_created_by "events.out.tfevents.1600000000.other.local"
                                 "host.local" 1500000000 = Ok false
  /\ is_tfevents_file_created_by "events.out.tfevents.1600000000.host"
                                 "host.local" 1500000000 = Ok false
  /\ is_tfevents_file_created_by "events.out.tfevents.1600000000.host.local.profile_empty"
                                 "host.local" 1500000000 = Ok false
  /\ is_tfevents_file_created_by "/logs/train/checkpoint" "host.local" 1500000000 = Ok false
  /\ is_tfevents_file_created_by "events.tfevents.now.host.local" "host.local" 0 = Ok false
  /\ is_tfevents_file_created_by "" "host.local" 0
     = Raise (ValueError "Path must be a nonempty string").
Proof. repeat split; vm_compute; reflexivity. Qed.

End TbWatcherFacts.

(** ** [TBHistory] *)

Module TBHistoryFacts.

Import TBHistory.

Lemma flush_empty (h : t) : deref h (_data h) = ∅ -> _flush h = h.
Proof. intros E. unfold _flush. rewrite E. reflexivity. Qed.

Lemma flush_numbered (h : t) (out : list (gmap string pyval)) :
  numbered h out -> fresh h -> numbered (_flush h) out /\ bounded (_flush h).
Proof.
  intros (Hout & Hadd & Hstep) [[Hd Hb] Hfresh]. unfold _flush.
  destruct (size (deref h (_data h)) =? 0)%nat.
  { split; [split; [|split]|split]; assumption. }
  split; [split; [|split]|split]; simpl.
  - exact Hout.
  - intros k r Hk. unfold deref; simpl.
    destruct (decide (k < length (_added h))%nat) as [Hlt|Hge].
    + rewrite lookup_app_l in Hk by exact Hlt.
      assert (r <> _data h).
      { intros ->. apply Hfresh. eapply list_elem_of_lookup_2; eauto. }
      rewrite list_lookup_insert_ne by congruence. now apply Hadd.
    + rewrite lookup_app_r in Hk by lia.
      destruct (k - length (_added h))%nat as [|n] eqn:En; simpl in Hk; [|discriminate].
      injection Hk as <-.
      rewrite list_lookup_insert_eq by exact Hd. simpl.
      rewrite lookup_insert_eq. rewrite Hstep. do 3 f_equal. lia.
  - rewrite Hstep, length_app. simpl. lia.
  - now rewrite length_insert.
  - intros r Hr. rewrite length_insert. apply elem_of_app in Hr as [Hr|Hr].
    + now apply Hb.
    + apply list_elem_of_singleton in Hr as ->. exact Hd.
Qed.

Lemma add_numbered (d : gmap string pyval) (h : t) (out : list (gmap string pyval)) :
  numbered h out -> fresh h -> numbered (add d h) out /\ fresh (add d h).
Proof.
  intros Hn Hf. destruct (flush_numbered h out Hn Hf) as [(Hout & Hadd & Hstep) [Hd Hb]].
  unfold add. split; [split; [|split]|split; [split|]]; simpl.
  - exact Hout.
  - intros k r Hk. unfold deref; simpl.
    rewrite lookup_app_l.
    + now apply Hadd.
    + apply Hb. eapply list_elem_of_lookup_2; eauto.
  - exact Hstep.
  - rewrite length_app. simpl. lia.
  - intros r Hr. rewrite length_app. simpl. specialize (Hb r Hr). lia.
  - intros Hin. specialize (Hb _ Hin). lia.
Qed.

Lemma get_and_reset_numbered (h : t) (out : list (gmap string pyval)) :
  numbered h out ->
  numbered (snd (_get_and_reset h)) (out ++ map (deref (snd (_get_and_reset h))) (_added h)).
Proof.
  intros (Hout & Hadd & Hstep). split; [|split]; simpl.
  - intros i row Hi.
    destruct (decide (i < length out)%nat) as [Hlt|Hge].
    + rewrite lookup_app_l in Hi by exact Hlt. now apply Hout.
    + rewrite lookup_app_r in Hi by lia.
      rewrite list_lookup_fmap in Hi.
      destruct (_added h !! (i - length out)%nat) as [r|] eqn:Er; [|discriminate].
      simpl in Hi. injection Hi as <-.
      change (deref h r !! "_step" = Some (PyInt (Z.of_nat i))).
      rewrite (Hadd _ _ Er). do 3 f_equal. lia.
  - intros k r Hk. discriminate.
  - rewrite Hstep, length_app, length_map. simpl. f_equal. lia.
Qed.

Lemma only_get_and_reset (ops : list op) (h : t) (out : list (gmap string pyval)) :
  forallb is_get_and_reset ops = true ->
  numbered h out -> numbered (fst (run_from (h, out) ops)) (snd (run_from (h, out) ops)).
Proof.
  revert h out; induction ops as [|o ops IH]; intros h out Hall Hn; [exact Hn|].
  simpl in Hall. apply andb_true_iff in Hall as [Ho Hall].
  destruct o; try discriminate. simpl.
  apply IH; [exact Hall|]. apply (get_and_reset_numbered h out Hn).
Qed.

Lemma flushed_once_numbered (ops : list op) (h : t) (out : list (gmap string pyval)) :
  flushed_once h ops = true ->
  numbered h out -> fresh h ->
  numbered (fst (run_from (h, out) ops)) (snd (run_from (h, out) ops)).
Proof.
  revert h out; induction ops as [|o ops IH]; intros h out Hp Hn Hf; [exact Hn|].
  destruct o as [d| |]; simpl in Hp |- *.
  - destruct (add_numbered d h out Hn Hf) as [Hn' Hf']. now apply IH.
  - destruct (size (deref h (_data h)) =? 0)%nat eqn:E.
    + assert (_flush h = h) as -> by (unfold _flush; now rewrite E).
      now apply IH.
    + apply only_get_and_reset; [exact Hp|]. now apply flush_numbered.
  - apply IH; [exact Hp| apply (get_and_reset_numbered h out Hn) |].
    destruct Hf as [[Hd _] _]. split; [split|]; simpl.
    + exact Hd.
    + intros r Hr. now apply elem_of_nil in Hr.
    + apply not_elem_of_nil.
Qed.

(** The consumer's discipline is of this kind. *)
Lemma consumer_protocol_flushed_once (ops : list op) (h : t) :
  consumer_protocol ops = true -> flushed_once h ops = true.
Proof.
  revert h; induction ops as [|o ops IH]; intros h Hp; [reflexivity|].
  destruct o as [d| |]; simpl in Hp |- *.
  - now apply IH.
  - destruct (size (deref h (_data h)) =? 0)%nat; [|exact Hp].
    clear IH. revert h. induction ops as [|o ops IH]; intros h; [reflexivity|].
    simpl in Hp. apply andb_true_iff in Hp as [Ho Hp].
    destruct o; try discriminate. simpl. now apply IH.
  - now apply IH.
Qed.

Lemma numbered_init : numbered init [] /\ fresh init.
Proof.
  split; [split; [|split]|split; [split|]]; simpl; try discriminate; try reflexivity.
  - lia.
  - intros r Hr. now apply elem_of_nil in Hr.
  - apply not_elem_of_nil.
Qed.

Lemma contiguous_lookup (n i : nat) :
  contiguous_from_zero n !! i
  = if decide (i < n)%nat then Some (Some (PyInt (Z.of_nat i))) else None.
Proof.
  unfold contiguous_from_zero. rewrite list_lookup_fmap.
  destruct (decide (i < n)%nat) as [Hlt|Hge].
  - rewrite lookup_seq_lt by exact Hlt. reflexivity.
  - rewrite lookup_seq_ge by lia. reflexivity.
Qed.

(** C9, the failing sequence.  After [add] and two [_flush] the same dict
    object stands twice in [_added] and carries the step written last: the
    rows returned read [_step = 1] twice, not [0, 1]. *)
Lemma second_flush_repeats_the_row :
  let ops := [Add {["loss" := PyFloat 1]}; Flush; Flush; GetAndReset] in
  steps_of (emitted ops) = [Some (PyInt 1); Some (PyInt 1)]
  /\ steps_of (emitted ops) <> contiguous_from_zero (length (emitted ops)).
Proof. split; [vm_compute; reflexivity | vm_compute; discriminate]. Qed.

(** C9, amended.  Along every sequence of [add], [_flush] and
    [_get_and_reset] from a fresh history in which no in-flight map is
    flushed twice (an explicit [_flush] that appends is followed by
    [_get_and_reset] only, as in the consumer), the rows returned carry the
    [_step] values [0, 1, 2, ...] in order and none of them is the empty
    map; and [_flush] of an empty in-flight map changes nothing. *)
Theorem rows_contiguous (ops : list op) :
  flushed_once init ops = true ->
  steps_of (emitted ops) = contiguous_from_zero (length (emitted ops))
  /\ Forall (fun row : gmap string pyval => row <> ∅) (emitted ops)
  /\ (forall h : t, deref h (_data h) = ∅ -> _flush h = h).
Proof.
  intros Hp. destruct numbered_init as [Hn Hf].
  destruct (flushed_once_numbered ops init [] Hp Hn Hf) as (Hout & _ & _).
  fold (run ops) in Hout. fold (emitted ops) in Hout.
  split; [|split].
  - apply list_eq. intros i. rewrite contiguous_lookup. unfold steps_of.
    rewrite list_lookup_fmap.
    destruct (emitted ops !! i) as [row|] eqn:Ei; simpl.
    + apply lookup_lt_Some in Ei as Hlt. rewrite (Hout _ _ Ei).
      destruct (decide (i < length (emitted ops))%nat); [reflexivity | lia].
    + apply lookup_ge_None in Ei.
      destruct (decide (i < length (emitted ops))%nat); [lia | reflexivity].
  - apply Forall_lookup. intros i row Hi Hempty.
    specialize (Hout _ _ Hi). rewrite Hempty in Hout. discriminate.
  - exact flush_empty.
Qed.

Lemma rows_contiguous_witness :
  let ops := [Add {["loss" := PyFloat 1]}; Add {["loss" := PyFloat 2]}; GetAndReset;
              Add {["acc" := PyInt 3]}; Flush; GetAndReset] in
  flushed_once init ops = true
  /\ steps_of (emitted ops) = contiguous_from_zero (length (emitted ops)).
Proof.
  split; [reflexivity|].
  apply (rows_contiguous
           [Add {["loss" := PyFloat 1]}; Add {["loss" := PyFloat 2]}; GetAndReset;
            Add {["acc" := PyInt 3]}; Flush; GetAndReset]).
  reflexivity.
Defined.

End TBHistoryFacts.

(** ** The sweep agent *)

Module AgentFacts.

Import Agent.

Lemma Qlt_bool_iff (x y : Q) : Qlt_bool x y = true <-> (x < y)%Q.
Proof.
  unfold Qlt_bool. rewrite negb_true_iff. split.
  - intros H. apply Qnot_le_lt. intros Hle. apply Qle_bool_iff in Hle. congruence.
  - intros H. destruct (Qle_bool y x) eqn:E; [|reflexivity].
    apply Qle_bool_iff in E. exfalso. exact (Qlt_not_le _ _ H E).
Qed.

Lemma is_flapping_true (environ : gmap string string) (now START_TIME : Q) (a : t) :
  truthy (is_flapping environ now START_TIME a) = true <->
  environ !! AGENT_DISABLE_FLAPPING <> Some "true"
  /\ (now < START_TIME + FLAPPING_MAX_SECONDS)%Q
  /\ (FLAPPING_MAX_FAILURES <= _failed a)%Z.
Proof.
  unfold is_flapping. case_bool_decide as Henv; simpl.
  - split; [discriminate | intros [H _]; contradiction].
  - destruct (Qlt_bool now (START_TIME + FLAPPING_MAX_SECONDS)) eqn:Et; simpl.
    + apply Qlt_bool_iff in Et. rewrite Z.leb_le. tauto.
    + split; [discriminate|]. intros (_ & Hlt & _).
      apply Qlt_bool_iff in Hlt. congruence.
Qed.

(** A poll result that is not a positive integer is not a failure: the
    child is cleaned up (or reported alive) and nothing else changes. *)
Lemma poll_one_not_positive (environ : gmap string string) (now START_TIME : Q) (a : t)
      (run_id : string) (r : poll_result) (run_status : gmap string bool) :
  (forall n, r = PollInt n -> (n <= 0)%Z) ->
  _failed (fst (fst (poll_one environ now START_TIME run_id r (a, run_status)))) = _failed a
  /\ _running (fst (fst (poll_one environ now START_TIME run_id r (a, run_status))))
     = _running a.
Proof.
  intros H. unfold poll_one. destruct r as [|b|n]; try (split; reflexivity).
  specialize (H n eq_refl).
  assert ((0 <? n)%Z = false) as -> by (apply Z.ltb_ge; exact H).
  split; reflexivity.
Qed.

(** [is_flapping()] reads the failure count of the agent and nothing else
    of it. *)
Lemma is_flapping_failed (environ : gmap string string) (now START_TIME : Q) (a b : t) :
  _failed a = _failed b ->
  is_flapping environ now START_TIME a = is_flapping environ now START_TIME b.
Proof. intros E. unfold is_flapping. now rewrite E. Qed.

(** After a poll, [is_flapping()] holds only of an agent that was flapping
    before or has just been stopped. *)
Lemma poll_one_flapping (environ : gmap string string) (now START_TIME : Q) (a : t)
      (run_id : string) (r : poll_result) (run_status : gmap string bool) :
  truthy (is_flapping environ now START_TIME a) = false ->
  truthy (is_flapping environ now START_TIME
                      (fst (fst (poll_one environ now START_TIME run_id r (a, run_status)))))
  = true ->
  _running (fst (fst (poll_one environ now START_TIME run_id r (a, run_status)))) = false.
Proof.
  intros Hbefore. unfold poll_one.
  assert (Hclean : forall b fin rep,
             truthy (is_flapping environ now START_TIME b) = false ->
             truthy (is_flapping environ now START_TIME
                       {| _run_processes := delete run_id (_run_processes b);
                          _running := _running b; _last_report_time := rep;
                          _kill_delay := _kill_delay b; _finished := fin;
                          _failed := _failed b; _count := _count b; trace := trace b |})
             = true -> False).
  { intros b fin rep Hb Hafter. unfold is_flapping in Hb, Hafter. simpl in Hafter.
    congruence. }
  destruct r as [|b|n]; simpl.
  - congruence.
  - intros Hafter. exfalso. exact (Hclean a _ _ Hbefore Hafter).
  - destruct (0 <? n)%Z.
    + destruct (truthy (is_flapping environ now START_TIME (set_failed (_failed a + 1) a)))
        eqn:Eflap; simpl.
      * reflexivity.
      * intros Hafter. exfalso. exact (Hclean (set_failed (_failed a + 1) a) _ _ Eflap Hafter).
    + intros Hafter. exfalso. exact (Hclean a _ _ Hbefore Hafter).
Qed.

Lemma poll_one_running (environ : gmap string string) (now START_TIME : Q) (a : t)
      (run_id : string) (r : poll_result) (run_status : gmap string bool) :
  _running (fst (fst (poll_one environ now START_TIME run_id r (a, run_status)))) = true ->
  _running a = true.
Proof.
  unfold poll_one. destruct r as [|b|n]; simpl; try trivial.
  destruct (0 <? n)%Z; [|trivial].
  destruct (truthy (is_flapping environ now START_TIME (set_failed (_failed a + 1) a)));
    simpl; [discriminate | trivial].
Qed.

(** *** A running agent is not flapping *)

Lemma settled_fresh (environ : gmap string string) (now START_TIME : Q) (a : t) :
  (_failed a < FLAPPING_MAX_FAILURES)%Z -> settled environ now START_TIME a.
Proof.
  intros Hlt _. destruct (truthy (is_flapping environ now START_TIME a)) eqn:E; [|reflexivity].
  apply is_flapping_true in E as (_ & _ & Hge). lia.
Qed.

Lemma settled_later (environ : gmap string string) (now now' START_TIME : Q) (a : t) :
  (now <= now')%Q -> settled environ now START_TIME a -> settled environ now' START_TIME a.
Proof.
  intros Hle Hs Hrun.
  destruct (truthy (is_flapping environ now' START_TIME a)) eqn:E; [|reflexivity].
  apply is_flapping_true in E as (Henv & Hlt & Hge).
  assert (Hnow : truthy (is_flapping environ now START_TIME a) = true).
  { apply is_flapping_true. repeat split; try assumption.
    eapply Qle_lt_trans; eassumption. }
  rewrite (Hs Hrun) in Hnow. discriminate.
Qed.

Lemma settled_poll_one (environ : gmap string string) (now START_TIME : Q) (a : t)
      (run_id : string) (r : poll_result) (run_status : gmap string bool) :
  settled environ now START_TIME a ->
  settled environ now START_TIME
          (fst (fst (poll_one environ now START_TIME run_id r (a, run_status)))).
Proof.
  intros Hs Hrun. pose proof (poll_one_running _ _ _ _ _ _ _ Hrun) as Hrun0.
  destruct (truthy (is_flapping environ now START_TIME
                      (fst (fst (poll_one environ now START_TIME run_id r (a, run_status))))))
    eqn:E; [|reflexivity].
  rewrite (poll_one_flapping _ _ _ _ _ _ _ (Hs Hrun0) E) in Hrun. discriminate.
Qed.

Lemma settled_poll_children (environ : gmap string string) (now START_TIME : Q)
      (polled : list (string * poll_result)) (a : t) (run_status : gmap string bool) :
  settled environ now START_TIME a ->
  settled environ now START_TIME
          (fst (poll_children environ now START_TIME polled (a, run_status))).
Proof.
  revert a run_status; induction polled as [|[run_id r] polled IH]; intros a run_status Hs;
    [exact Hs|].
  pose proof (settled_poll_one environ now START_TIME a run_id r run_status Hs) as Hs1.
  cbn [poll_children].
  destruct (poll_one environ now START_TIME run_id r (a, run_status))
    as [[a1 rs1] [|]]; cbn [fst] in Hs1 |- *.
  - now apply IH.
  - exact Hs1.
Qed.

(** The commands leave the failure count and the running flag alone. *)
Lemma settled_exec (environ : gmap string string) (now START_TIME : Q) (sys : platform)
      (a : t) (c : command) :
  settled environ now START_TIME a -> settled environ now START_TIME (exec sys a c).
Proof.
  assert (Hsame : forall b, _failed b = _failed a -> _running b = _running a ->
                            settled environ now START_TIME a ->
                            settled environ now START_TIME b).
  { intros b Hf Hr Hs Hrun. rewrite (is_flapping_failed _ _ _ b a Hf). apply Hs. congruence. }
  intros Hs. apply Hsame; [| |exact Hs]; destruct c as [t0 gone run_id|run_id proc];
    try reflexivity; simpl; unfold _command_stop;
    destruct (_run_processes a !! run_id) as [p|]; try reflexivity;
    destruct (last_sigterm_time p); try reflexivity;
    destruct (Qlt_bool _ _); try reflexivity;
    destruct (kill sys gone p) as [[[c|] p'] [e|]]; try reflexivity;
    destruct (caught e); reflexivity.
Qed.

(** C4.  [is_flapping()] is true exactly when the environment does not
    set [WANDB_AGENT_DISABLE_FLAPPING] to ["true"], the time is before
    [START_TIME + 60] and at least 3 runs have failed.  A running agent is
    not flapping when it comes to poll a child (the failure count grows only
    in the polling loop, right before the test); when the polled child has
    exited with a status other than 0 and [is_flapping()] then holds, the
    agent is no longer running.  Polling, the passing of time and the
    commands keep a running agent out of flapping. *)
Theorem flap_protection (environ : gmap string string) (now START_TIME : Q) (a : t) :
  (truthy (is_flapping environ now START_TIME a) = true <->
   environ !! "WANDB_AGENT_DISABLE_FLAPPING" <> Some "true"
   /\ (now < START_TIME + 60)%Q
   /\ (3 <= _failed a)%Z)
  /\ (forall (run_id : string) (status : Z) (run_status : gmap string bool),
         _running a = true ->
         settled environ now START_TIME a ->
         status <> 0%Z ->
         truthy (is_flapping environ now START_TIME
                   (fst (fst (poll_one environ now START_TIME run_id (PollInt status)
                                       (a, run_status))))) = true ->
         _running (fst (fst (poll_one environ now START_TIME run_id (PollInt status)
                                      (a, run_status)))) = false)
  /\ ((_failed a < 3)%Z -> settled environ now START_TIME a)
  /\ (forall (now' : Q) (polled : list (string * poll_result))
             (run_status : gmap string bool) (sys : platform) (cs : list command),
         (now <= now')%Q ->
         settled environ now START_TIME a ->
         settled environ now' START_TIME
                 (run_commands sys
                    (fst (poll_children environ now' START_TIME polled (a, run_status)))
                    cs)).
Proof.
  split; [apply is_flapping_true|]. split; [|split].
  - intros run_id status run_status Hrun Hs _ Hafter.
    exact (poll_one_flapping _ _ _ _ _ _ _ (Hs Hrun) Hafter).
  - apply settled_fresh.
  - intros now' polled run_status sys cs Hle Hs.
    apply (settled_later _ _ _ _ _ Hle) in Hs.
    apply (settled_poll_children _ _ _ polled _ run_status) in Hs.
    revert Hs. generalize (fst (poll_children environ now' START_TIME polled (a, run_status))).
    induction cs as [|c cs IH]; intros b Hb; [exact Hb|].
    simpl. apply IH. now apply settled_exec.
Qed.

Lemma flap_protection_witness :
  let a := Sample.agent 2 in
  _running (fst (fst (poll_one ∅ 10 0 "run-1" (PollInt 1) (a, ∅)))) = false.
Proof.
  intros a.
  refine (proj1 (proj2 (flap_protection ∅ 10 0 (Sample.agent 2))) "run-1" 1%Z ∅ _ _ _ _).
  - reflexivity.
  - apply (proj1 (proj2 (proj2 (flap_protection ∅ 10 0 (Sample.agent 2))))). reflexivity.
  - discriminate.
  - reflexivity.
Defined.

(** Without flapping the finished child is removed and the agent keeps
    running. *)
Lemma poll_one_no_flap (environ : gmap string string) (now START_TIME : Q) (a : t)
      (run_id : string) (r : poll_result) (run_status : gmap string bool) :
  (forall n, r = PollInt n -> (0 < n)%Z ->
             truthy (is_flapping environ now START_TIME (set_failed (_failed a + 1) a)) = false) ->
  _running (fst (fst (poll_one environ now START_TIME run_id r (a, run_status))))
  = _running a.
Proof.
  intros H. unfold poll_one. destruct r as [|b|n]; try reflexivity.
  destruct (0 <? n)%Z eqn:E; [|reflexivity].
  rewrite (H n eq_refl) by (now apply Z.ltb_lt). reflexivity.
Qed.

(** Scenario 5 of the specification: three children exit with status 1
    within the first minute and the agent stops; with status 0 it does not.
    The guard of the loop is [poll_result > 0]: a child ended by a signal has
    a negative return code, which is not counted. *)
Example three_failures_stop_the_agent :
  let a := Sample.agent 0 in
  let polled (status : Z) :=
    [("run-1", PollInt status); ("run-2", PollInt status); ("run-3", PollInt status)] in
  _running (after_polling (fst (poll_children ∅ 25 0 (polled 1%Z) (a, ∅)))) = false
  /\ _running (after_polling (fst (poll_children ∅ 25 0 (polled 0%Z) (a, ∅)))) = true
  /\ _running (after_polling
                 (fst (poll_children {[AGENT_DISABLE_FLAPPING := "true"]} 25 0
                                     (polled 1%Z) (a, ∅)))) = true
  /\ _running (after_polling (fst (poll_children ∅ 61 0 (polled 1%Z) (a, ∅)))) = true
  /\ _failed (fst (poll_children ∅ 25 0 (polled (-9)%Z) (a, ∅))) = 0%Z.
Proof. repeat split; vm_compute; reflexivity. Qed.

(** *** The two-stage stop *)

Lemma command_stop_kill_delay (sys : platform) (now : Q) (gone : bool) (run_id : string)
      (a : t) :
  _kill_delay (snd (_command_stop sys now gone run_id a)) = _kill_delay a.
Proof.
  unfold _command_stop.
  destruct (_run_processes a !! run_id) as [p|]; [|reflexivity].
  destruct (last_sigterm_time p); [|reflexivity].
  destruct (Qlt_bool _ _); [|reflexivity].
  destruct (kill sys gone p) as [[[c|] p'] [e|]]; try reflexivity;
    destruct (caught e); reflexivity.
Qed.

Lemma exec_kill_delay (sys : platform) (a : t) (c : command) :
  _kill_delay (exec sys a c) = _kill_delay a.
Proof.
  destruct c as [now gone run_id|run_id proc]; simpl; [|reflexivity].
  apply command_stop_kill_delay.
Qed.

Lemma kill_last_sigterm_time (sys : platform) (gone : bool) (p : AgentProcess) :
  last_sigterm_time (snd (fst (kill sys gone p))) = last_sigterm_time p.
Proof.
  unfold kill. destruct (_popen p); [reflexivity|].
  destruct (pid p) as [n|]; [|reflexivity].
  destruct (n =? 0)%Z; [reflexivity|]. destruct sys, gone; reflexivity.
Qed.

Lemma kill_is_kill (sys : platform) (gone : bool) (p : AgentProcess) (c : call) :
  fst (fst (kill sys gone p)) = Some c -> is_kill c = true.
Proof.
  unfold kill. destruct (_popen p); [intros [= <-]; reflexivity|].
  destruct (pid p) as [n|]; [|discriminate].
  destruct (n =? 0)%Z; [discriminate|].
  destruct sys, gone; simpl; try discriminate; intros [= <-]; reflexivity.
Qed.

(** Where [kill] finds its signal, it makes its call on a started child,
    and raises nothing that is not caught. *)
Lemma kill_started (sys : platform) (gone : bool) (p : AgentProcess) :
  started p -> kill_is_there sys p = true ->
  exists c, fst (fst (kill sys gone p)) = Some c /\ is_kill c = true
            /\ match snd (kill sys gone p) with
               | Some e => caught e = true
               | None => True
               end.
Proof.
  unfold kill, kill_is_there. intros Hs Hthere.
  destruct (_popen p) eqn:Ep.
  - exists popen_kill. destruct gone; simpl; auto.
  - destruct Hs as [Hp | (n & Hn & Hnz)]; [congruence|]. rewrite Hn in *.
    destruct (Z.eqb_spec n 0); [contradiction|].
    destruct sys; [discriminate|].
    exists (os_kill_SIGKILL n). destruct gone; simpl; auto.
Qed.

(** The call [kill] makes does not depend on the answer of the handle. *)
Lemma kill_call_gone (sys : platform) (gone : bool) (p : AgentProcess) :
  fst (fst (kill sys gone p)) = fst (fst (kill sys false p)).
Proof.
  unfold kill. destruct (_popen p); [reflexivity|].
  destruct (pid p) as [n|]; [|reflexivity].
  destruct (n =? 0)%Z; [reflexivity|]. destruct sys, gone; reflexivity.
Qed.

Lemma terminate_is_terminate (sys : platform) (p : AgentProcess) :
  is_terminate (terminate sys p) = true.
Proof. unfold terminate. destruct (_popen p), sys; reflexivity. Qed.

Lemma terminate_is_not_kill (sys : platform) (p : AgentProcess) :
  is_kill (terminate sys p) = false.
Proof. unfold terminate. destruct (_popen p), sys; reflexivity. Qed.

(** What the kill branch of [_command_stop] leaves. *)
Lemma command_stop_kill (sys : platform) (now : Q) (gone : bool) (run_id : string) (a : t)
      (p : AgentProcess) (t0 : Q) :
  _run_processes a !! run_id = Some p ->
  last_sigterm_time p = Some t0 ->
  Qlt_bool (t0 + _kill_delay a) now = true ->
  snd (_command_stop sys now gone run_id a)
  = {| _run_processes := <[run_id := snd (fst (kill sys gone p))]> (_run_processes a);
       _running := _running a; _last_report_time := _last_report_time a;
       _kill_delay := _kill_delay a; _finished := _finished a;
       _failed := _failed a; _count := _count a;
       trace := (trace a ++ match fst (fst (kill sys gone p)) with
                            | Some c => [mkIssued now run_id c]
                            | None => []
                            end)%list |}.
Proof.
  intros Hp Ht Hlt. unfold _command_stop. rewrite Hp, Ht, Hlt.
  destruct (kill sys gone p) as [[[c|] p'] [e|]]; simpl;
    try destruct (caught e); simpl; rewrite ?app_nil_r; reflexivity.
Qed.

Lemma exec_invariants (sys : platform) (a : t) (c : command) :
  sigterm_recorded a -> kill_after_delay (_kill_delay a) (trace a) ->
  sigterm_recorded (exec sys a c) /\ kill_after_delay (_kill_delay a) (trace (exec sys a c)).
Proof.
  intros Hrec Hkill. destruct c as [now gone run_id|run_id proc]; simpl.
  2:{ split; [|exact Hkill]. intros r p t0 Hp Ht. simpl in Hp.
      destruct (decide (run_id = r)) as [->|Hne].
      - rewrite lookup_insert_eq in Hp. injection Hp as <-. discriminate.
      - rewrite lookup_insert_ne in Hp by exact Hne. exact (Hrec r p t0 Hp Ht). }
  destruct (_run_processes a !! run_id) as [p|] eqn:Ep.
  2:{ unfold _command_stop. rewrite Ep. split; assumption. }
  destruct (last_sigterm_time p) as [t0|] eqn:Et.
  - destruct (Qlt_bool (t0 + _kill_delay a) now) eqn:Elt.
    2:{ unfold _command_stop. rewrite Ep, Et, Elt. split; assumption. }
    rewrite (command_stop_kill sys now gone run_id a p t0 Ep Et Elt).
    apply Qlt_bool_iff in Elt.
    pose proof (kill_last_sigterm_time sys gone p) as Hp'. rewrite Et in Hp'.
    pose proof (kill_is_kill sys gone p) as Hiskill.
    destruct (kill sys gone p) as [[oc p'] oe]. simpl in Hp', Hiskill |- *.
    assert (Hrec' : forall tr',
               sigterm_recorded
                 {| _run_processes := <[run_id := p']> (_run_processes a);
                    _running := _running a; _last_report_time := _last_report_time a;
                    _kill_delay := _kill_delay a; _finished := _finished a;
                    _failed := _failed a; _count := _count a;
                    trace := (trace a ++ tr')%list |}).
    { intros tr' r q t1 Hq Ht1. simpl in Hq |- *.
      destruct (decide (run_id = r)) as [->|Hne].
      - rewrite lookup_insert_eq in Hq. injection Hq as <-.
        assert (t1 = t0) by congruence. subst t1.
        destruct (Hrec r p t0 Ep Et) as (j & e & Hj & He).
        exists j, e. split; [|exact He].
        apply lookup_app_l_Some. exact Hj.
      - rewrite lookup_insert_ne in Hq by exact Hne.
        destruct (Hrec r q t1 Hq Ht1) as (j & e & Hj & He).
        exists j, e. split; [|exact He].
        apply lookup_app_l_Some. exact Hj. }
    split; [apply Hrec'|]. simpl.
    destruct oc as [c|]; [|now rewrite app_nil_r].
    intros i e Hi Hk.
    destruct (decide (i < length (trace a))%nat) as [Hlt|Hge].
    + rewrite lookup_app_l in Hi by exact Hlt.
      destruct (Hkill i e Hi Hk) as (j & e' & Hji & Hj & He').
      exists j, e'. split; [exact Hji|]. split; [|exact He'].
      apply lookup_app_l_Some. exact Hj.
    + rewrite lookup_app_r in Hi by lia.
      destruct (i - length (trace a))%nat eqn:En; simpl in Hi; [|discriminate].
      injection Hi as <-. simpl.
      destruct (Hrec run_id p t0 Ep Et) as (j & e' & Hj & Hterm & Hrun & Htime).
      exists j, e'. apply lookup_lt_Some in Hj as Hjlt.
      split; [lia|]. split; [apply lookup_app_l_Some; exact Hj|].
      split; [exact Hterm|]. split; [exact Hrun|]. rewrite Htime. exact Elt.
  - unfold _command_stop. rewrite Ep, Et. simpl. split.
    + intros r q t1 Hq Ht1. simpl in Hq |- *.
      destruct (decide (run_id = r)) as [->|Hne].
      * rewrite lookup_insert_eq in Hq. injection Hq as <-. simpl in Ht1.
        injection Ht1 as <-.
        exists (length (trace a)), (mkIssued now r (terminate sys p)).
        split; [|split; [apply terminate_is_terminate | split; reflexivity]].
        rewrite lookup_app_r by lia. now rewrite Nat.sub_diag.
      * rewrite lookup_insert_ne in Hq by exact Hne.
        destruct (Hrec r q t1 Hq Ht1) as (j & e & Hj & He).
        exists j, e. split; [|exact He]. apply lookup_app_l_Some. exact Hj.
    + intros i e Hi Hk. simpl in Hi.
      destruct (decide (i < length (trace a))%nat) as [Hlt|Hge].
      * rewrite lookup_app_l in Hi by exact Hlt.
        destruct (Hkill i e Hi Hk) as (j & e' & Hji & Hj & He').
        exists j, e'. split; [exact Hji|]. split; [|exact He'].
        apply lookup_app_l_Some. exact Hj.
      * rewrite lookup_app_r in Hi by lia.
        destruct (i - length (trace a))%nat eqn:En; simpl in Hi; [|discriminate].
        injection Hi as <-. simpl in Hk.
        rewrite terminate_is_not_kill in Hk. discriminate.
Qed.

Lemma run_commands_invariants (sys : platform) (cs : list command) (a : t) :
  sigterm_recorded a -> kill_after_delay (_kill_delay a) (trace a) ->
  sigterm_recorded (run_commands sys a cs)
  /\ kill_after_delay (_kill_delay a) (trace (run_commands sys a cs)).
Proof.
  revert a; induction cs as [|c cs IH]; intros a Hrec Hkill; [split; assumption|].
  destruct (exec_invariants sys a c Hrec Hkill) as [Hrec' Hkill'].
  rewrite <- (exec_kill_delay sys a c) in Hkill' |- *.
  exact (IH (exec sys a c) Hrec' Hkill').
Qed.

(** Where [kill] finds its signal (on POSIX, and on Windows for a child
    started from a command) the stop command has its two stages: the first
    one issues the terminate call (CTRL-C on Windows and [Popen.terminate]
    elsewhere for a command, [Process.terminate] for a function) and records
    [last_sigterm_time = now]; a later one at a time not after
    [last_sigterm_time + _kill_delay] leaves the agent as it is; one at a
    later time issues a kill and returns.  On every platform, along every
    sequence of run and stop commands, each kill comes after a terminate for
    the same run that is older by more than the delay. *)
Lemma two_stage_stop_where_kill_is_there
      (sys : platform) (a : t) (run_id : string) (proc : AgentProcess) (now : Q)
      (gone : bool) :
  _run_processes a !! run_id = Some proc ->
  started proc ->
  (last_sigterm_time proc = None ->
   fst (_command_stop sys now gone run_id a) = Ok tt
   /\ trace (snd (_command_stop sys now gone run_id a))
      = trace a ++ [mkIssued now run_id (terminate sys proc)]
   /\ is_terminate (terminate sys proc) = true
   /\ (_popen proc = true ->
       terminate sys proc = match sys with
                            | Windows => popen_send_signal_CTRL_C_EVENT
                            | Posix => popen_terminate
                            end)
   /\ (_popen proc = false -> terminate sys proc = proc_terminate)
   /\ exists proc',
       _run_processes (snd (_command_stop sys now gone run_id a)) !! run_id = Some proc'
       /\ last_sigterm_time proc' = Some now)
  /\ (forall t0 : Q,
         last_sigterm_time proc = Some t0 -> (now <= t0 + _kill_delay a)%Q ->
         _command_stop sys now gone run_id a = (Ok tt, a))
  /\ (forall t0 : Q,
         last_sigterm_time proc = Some t0 -> (t0 + _kill_delay a < now)%Q ->
         kill_is_there sys proc = true ->
         exists c : call,
           is_kill c = true
           /\ fst (_command_stop sys now gone run_id a) = Ok tt
           /\ trace (snd (_command_stop sys now gone run_id a))
              = trace a ++ [mkIssued now run_id c])
  /\ (forall (a0 : t) (cs : list command),
         trace a0 = [] ->
         (forall r p, _run_processes a0 !! r = Some p -> last_sigterm_time p = None) ->
         kill_after_delay (_kill_delay a0) (trace (run_commands sys a0 cs))).
Proof.
  intros Hproc Hstarted. split; [|split; [|split]].
  - intros Hnone. unfold _command_stop. rewrite Hproc, Hnone. simpl.
    split; [reflexivity|]. split; [reflexivity|]. split; [apply terminate_is_terminate|].
    split; [|split].
    + intros Hp. unfold terminate. rewrite Hp. reflexivity.
    + intros Hp. unfold terminate. rewrite Hp. reflexivity.
    + eexists. rewrite lookup_insert_eq. split; reflexivity.
  - intros t0 Ht Hle. unfold _command_stop. rewrite Hproc, Ht.
    destruct (Qlt_bool (t0 + _kill_delay a) now) eqn:E; [|reflexivity].
    apply Qlt_bool_iff in E. exfalso. exact (Qlt_not_le _ _ E Hle).
  - intros t0 Ht Hlt Hthere.
    apply Qlt_bool_iff in Hlt.
    destruct (kill_started sys gone proc Hstarted Hthere) as (c & Hc & Hk & Hcaught).
    exists c. split; [exact Hk|].
    rewrite (command_stop_kill sys now gone run_id a proc t0 Hproc Ht Hlt), Hc.
    split; [|reflexivity].
    unfold _command_stop. rewrite Hproc, Ht, Hlt.
    destruct (kill sys gone proc) as [[oc p'] [e|]]; simpl in *; [|reflexivity].
    rewrite Hcaught. reflexivity.
  - intros a0 cs Htr Hfresh. apply run_commands_invariants.
    + intros r p t0 Hp Ht. rewrite (Hfresh r p Hp) in Ht. discriminate.
    + rewrite Htr. intros i e Hi. discriminate.
Qed.

(** C5, the failing input.  An agent on Windows that runs a function: the
    child is a [multiprocessing.Process].  The first stop command calls
    [Process.terminate()] (no CTRL-C event is sent to a function child) and
    records the time.  A second stop command after the kill delay does not
    kill the child: [AgentProcess.kill] looks up [signal.SIGKILL], which
    Windows does not have, and the [AttributeError] leaves [_command_stop]
    (its handler catches [OSError] only) with no call made on the child.  On
    POSIX the same two commands terminate and then kill. *)
Theorem function_child_on_windows_is_not_killed :
  let a0 := Sample.function_agent in
  let first := _command_stop Windows 5 false "run-1" a0 in
  let second := _command_stop Windows 36 false "run-1" (snd first) in
  fst first = Ok tt
  /\ trace (snd first) = [mkIssued 5 "run-1" proc_terminate]
  /\ (5 + _kill_delay (snd first) < 36)%Q
  /\ fst second = Raise (AttributeError "module 'signal' has no attribute 'SIGKILL'")
  /\ trace (snd second) = trace (snd first)
  /\ trace (run_commands Posix a0 [Stop 5 false "run-1"; Stop 36 false "run-1"])
     = [mkIssued 5 "run-1" proc_terminate; mkIssued 36 "run-1" (os_kill_SIGKILL 4242)].
Proof. repeat split; vm_compute; reflexivity. Qed.

(** The exit command is not a stop command: it kills at once. *)
Example exit_kills_at_once :
  let a := mk {["run-1" := mkProc true None false None]} true None KILL_DELAY 0 0 None [] in
  trace (snd (_command_exit Posix 5 (fun _ => false) a)) = [mkIssued 5 "run-1" popen_kill]
  /\ _running (snd (_command_exit Posix 5 (fun _ => false) a)) = false.
Proof. split; vm_compute; reflexivity. Qed.

(** A stop, a second stop inside the delay and a third one after it. *)
Example stop_stop_stop :
  trace (run_commands Posix (Sample.agent 0)
                      [Stop 5 false "run-1"; Stop 35 false "run-1"; Stop 36 false "run-1"])
  = [mkIssued 5 "run-1" popen_terminate; mkIssued 36 "run-1" popen_kill]
  /\ trace (run_commands Windows (Sample.agent 0)
                         [Stop 5 false "run-1"; Stop 35 false "run-1";
                          Stop 36 false "run-1"])
     = [mkIssued 5 "run-1" popen_send_signal_CTRL_C_EVENT; mkIssued 36 "run-1" popen_kill].
Proof. split; vm_compute; reflexivity. Qed.

End AgentFacts.

(** ** Dicts and sorting *)

Module PyDictFacts.

Lemma get_None {A} (k : string) (d : PyDict.t A) :
  PyDict.get k d = None <-> ~ In k (PyDict.keys d).
Proof.
  induction d as [|[k' v] d IH]; simpl; [tauto|].
  destruct (String.eqb_spec k' k) as [->|Hne].
  - split; [discriminate | intros H; exfalso; apply H; now left].
  - rewrite IH. split; [intros H [E|E]; [congruence | now apply H] | tauto].
Qed.

Lemma keys_set {A} (k : string) (v : A) (d : PyDict.t A) :
  PyDict.keys (PyDict.set k v d)
  = if PyDict.contains k d then PyDict.keys d else PyDict.keys d ++ [k].
Proof.
  unfold PyDict.contains.
  induction d as [|[k' v'] d IH]; simpl; [reflexivity|].
  destruct (String.eqb_spec k' k) as [->|Hne]; simpl; [reflexivity|].
  rewrite IH. destruct (PyDict.get k d); reflexivity.
Qed.

Lemma set_fresh {A} (k : string) (v : A) (d : PyDict.t A) :
  ~ In k (PyDict.keys d) -> PyDict.set k v d = d ++ [(k, v)].
Proof.
  induction d as [|[k' v'] d IH]; simpl; [reflexivity|]. intros Hnot.
  destruct (String.eqb_spec k' k) as [->|Hne]; [exfalso; apply Hnot; now left|].
  rewrite IH; [reflexivity|]. tauto.
Qed.

Lemma NoDup_keys_set {A} (k : string) (v : A) (d : PyDict.t A) :
  NoDup (PyDict.keys d) -> NoDup (PyDict.keys (PyDict.set k v d)).
Proof.
  intros Hd. rewrite keys_set. unfold PyDict.contains.
  destruct (PyDict.get k d) eqn:E; [exact Hd|].
  apply get_None in E. apply NoDup_app. split; [exact Hd|]. split.
  - intros x Hx Hin. apply list_elem_of_singleton in Hin as ->.
    apply E. now apply list_elem_of_In.
  - apply NoDup_singleton.
Qed.

Lemma fold_set_NoDup {A} (ins : list (string * A)) (d : PyDict.t A) :
  NoDup (PyDict.keys d) ->
  NoDup (PyDict.keys (fold_left (fun d kv => PyDict.set (fst kv) (snd kv) d) ins d)).
Proof.
  revert d; induction ins as [|[k v] ins IH]; intros d Hd; simpl; [exact Hd|].
  apply IH. now apply NoDup_keys_set.
Qed.

(** A dict built by assignments has no key twice. *)
Lemma of_assignments_NoDup {A} (ins : list (string * A)) :
  NoDup (PyDict.keys (PyDict.of_assignments ins)).
Proof. apply fold_set_NoDup. constructor. Qed.

Lemma fold_set_fresh {A} (ins : list (string * A)) (d : PyDict.t A) :
  NoDup (PyDict.keys (d ++ ins)) ->
  fold_left (fun d kv => PyDict.set (fst kv) (snd kv) d) ins d = d ++ ins.
Proof.
  revert d; induction ins as [|[k v] ins IH]; intros d Hd; simpl.
  - now rewrite app_nil_r.
  - replace (d ++ (k, v) :: ins) with ((d ++ [(k, v)]) ++ ins) in *
      by (now rewrite <- app_assoc).
    rewrite set_fresh.
    + now apply IH.
    + unfold PyDict.keys in Hd. rewrite !map_app in Hd. simpl in Hd.
      apply NoDup_app in Hd as [Hd _]. apply NoDup_app in Hd as (_ & Hd & _).
      intros Hin. apply (Hd k); [now apply list_elem_of_In | left].
Qed.

(** Assigning distinct keys to [{}] keeps them in the order assigned. *)
Lemma of_assignments_distinct {A} (ins : list (string * A)) :
  NoDup (map fst ins) -> PyDict.of_assignments ins = ins.
Proof. intros H. unfold PyDict.of_assignments. now rewrite fold_set_fresh. Qed.

End PyDictFacts.

Module SortFacts.

Import Artifacts.

Lemma leb_trans (a b c : string) :
  String.leb a b = true -> String.leb b c = true -> String.leb a c = true.
Proof.
  intros H1 H2. apply Is_true_true.
  apply (@transitivity _ String.le _ a b c); apply Is_true_true; assumption.
Qed.

Lemma leb_false_flip (a b : string) : String.leb a b = false -> String.leb b a = true.
Proof. intros H. destruct (String.leb_total a b) as [E|E]; congruence. Qed.

Lemma leb_neq_ltb (a b : string) : String.leb a b = true -> a <> b -> String.ltb a b = true.
Proof.
  unfold String.leb, String.ltb. intros H Hne.
  destruct (String.compare a b) eqn:E; try reflexivity; try discriminate.
  apply String.compare_eq_iff in E. contradiction.
Qed.

Lemma ltb_asym (a b : string) : String.ltb a b = true -> String.ltb b a = true -> False.
Proof.
  unfold String.ltb. intros H1 H2. rewrite String.compare_antisym in H2.
  destruct (String.compare a b); simpl in *; discriminate.
Qed.

Lemma insert_by_key_perm {A} (x : string * A) (l : list (string * A)) :
  Permutation (insert_by_key x l) (x :: l).
Proof.
  induction l as [|y l IH]; simpl; [reflexivity|].
  destruct (String.leb (fst x) (fst y)); [reflexivity|].
  rewrite IH. apply perm_swap.
Qed.

Lemma sorted_by_key_perm {A} (l : list (string * A)) : Permutation (sorted_by_key l) l.
Proof.
  induction l as [|x l IH]; simpl; [reflexivity|].
  rewrite insert_by_key_perm. now constructor.
Qed.

Lemma insert_by_key_sorted {A} (x : string * A) (l : list (string * A)) :
  StronglySorted le_key l -> StronglySorted le_key (insert_by_key x l).
Proof.
  induction 1 as [|y l Hs IH Hall]; simpl; [repeat constructor|].
  destruct (String.leb (fst x) (fst y)) eqn:E.
  - constructor; [now constructor|]. constructor; [exact E|].
    eapply Forall_impl; [exact Hall|]. intros z Hz. eapply leb_trans; eassumption.
  - constructor; [exact IH|].
    rewrite insert_by_key_perm.
    constructor; [now apply leb_false_flip | exact Hall].
Qed.

Lemma sorted_by_key_sorted {A} (l : list (string * A)) :
  StronglySorted le_key (sorted_by_key l).
Proof.
  induction l as [|x l IH]; simpl; [constructor|]. now apply insert_by_key_sorted.
Qed.

Lemma distinct_keys_ascending {A} (l : list (string * A)) :
  StronglySorted le_key l -> NoDup (map fst l) -> ascending l.
Proof.
  induction 1 as [|x l Hs IH Hall]; intros Hnd; [constructor|].
  simpl in Hnd. apply NoDup_cons in Hnd as [Hx Hnd].
  constructor; [now apply IH|].
  apply Forall_forall. intros z Hz.
  apply leb_neq_ltb.
  - rewrite Forall_forall in Hall. now apply Hall.
  - intros E. apply Hx. rewrite E. apply list_elem_of_In, in_map, list_elem_of_In, Hz.
Qed.

(** A set of entries with distinct paths has one ascending arrangement. *)
Lemma ascending_unique {A} (l1 l2 : list (string * A)) :
  ascending l1 -> ascending l2 -> Permutation l1 l2 -> l1 = l2.
Proof.
  unfold ascending. intros H1; revert l2.
  induction H1 as [|x l1 Hs1 IH Hall1]; intros l2 H2 Hp.
  - apply Permutation_nil in Hp. now subst.
  - destruct H2 as [|y l2 Hs2 Hall2].
    + symmetry in Hp. apply Permutation_nil in Hp. discriminate.
    + assert (x = y) as ->.
      { assert (Hx : In x (y :: l2)) by (eapply Permutation_in; [exact Hp | now left]).
        assert (Hy : In y (x :: l1))
          by (eapply Permutation_in; [symmetry; exact Hp | now left]).
        destruct Hx as [Hx|Hx]; [now subst|].
        destruct Hy as [Hy|Hy]; [now subst|].
        exfalso. rewrite Forall_forall in Hall1, Hall2.
        apply (ltb_asym (fst x) (fst y)).
        - apply Hall1. now apply list_elem_of_In.
        - apply Hall2. now apply list_elem_of_In. }
      f_equal. apply IH; [exact Hs2|]. eapply Permutation_cons_inv; exact Hp.
Qed.

Lemma sorted_by_key_ascending {A} (l : list (string * A)) :
  NoDup (map fst l) -> ascending (sorted_by_key l).
Proof.
  intros Hnd. apply distinct_keys_ascending; [apply sorted_by_key_sorted|].
  now rewrite sorted_by_key_perm.
Qed.

End SortFacts.

(** ** The manifest digest *)

Module ManifestFacts.

Import Artifacts.
Local Open Scope string_scope.

Section Digest.

Context `{Outside}.

Lemma hasher_fold (l : list (string * ArtifactManifestEntry)) (h : string) :
  fold_left (fun h kv => hasher_update h (manifest_line kv)) l h = h ++ digest_lines l.
Proof.
  revert h; induction l as [|[p e] l IH]; intros h; simpl.
  - now rewrite PyFacts.append_nil_r.
  - rewrite IH. unfold hasher_update, manifest_line. simpl.
    now rewrite !PyFacts.append_assoc.
Qed.

Lemma manifest_digest_sorted (m : PyDict.t ArtifactManifestEntry) :
  manifest_digest m
  = md5_hexdigest ("wandb-artifact-manifest-v1" ++ nl
                   ++ digest_lines (sorted_by_key (PyDict.items m))).
Proof.
  unfold manifest_digest. rewrite hasher_fold. unfold hasher_update.
  now rewrite PyFacts.append_nil_l, PyFacts.append_assoc.
Qed.

(** C1.  For the manifest built by any sequence of assignments: its digest
    is the MD5 hex digest of the header line followed by the line
    [path:digest] of each entry in ascending order of path, whichever
    ascending arrangement of its entries is taken (there is one); two
    manifests with the same entries have the same digest, and so have two
    orders of inserting the same entries with distinct paths. *)
Theorem manifest_digest_deterministic (ins : list (string * ArtifactManifestEntry)) :
  let m := PyDict.of_assignments ins in
  (exists l, Permutation l (PyDict.items m) /\ ascending l)
  /\ (forall l,
         Permutation l (PyDict.items m) -> ascending l ->
         manifest_digest m
         = md5_hexdigest ("wandb-artifact-manifest-v1" ++ nl ++ digest_lines l))
  /\ (forall ins',
         Permutation (PyDict.items (PyDict.of_assignments ins')) (PyDict.items m) ->
         manifest_digest (PyDict.of_assignments ins')
         = manifest_digest m)
  /\ (forall ins',
         NoDup (map fst ins) -> Permutation ins' ins ->
         manifest_digest (PyDict.of_assignments ins')
         = manifest_digest m).
Proof.
  intros m.
  assert (Hnd : NoDup (map fst (PyDict.items m))) by apply PyDictFacts.of_assignments_NoDup.
  assert (Hasc : ascending (sorted_by_key (PyDict.items m)))
    by now apply SortFacts.sorted_by_key_ascending.
  assert (Hsame : forall ins',
             Permutation (PyDict.items (PyDict.of_assignments ins')) (PyDict.items m) ->
             manifest_digest (PyDict.of_assignments ins')
             = manifest_digest m).
  { intros ins' Hp. rewrite !manifest_digest_sorted.
    assert (sorted_by_key (PyDict.items (PyDict.of_assignments ins'))
            = sorted_by_key (PyDict.items m)) as ->; [|reflexivity].
    apply SortFacts.ascending_unique.
    - apply SortFacts.sorted_by_key_ascending, PyDictFacts.of_assignments_NoDup.
    - exact Hasc.
    - rewrite !SortFacts.sorted_by_key_perm. exact Hp. }
  split; [|split; [|split]].
  - exists (sorted_by_key (PyDict.items m)).
    split; [apply SortFacts.sorted_by_key_perm | exact Hasc].
  - intros l Hp Hl. rewrite manifest_digest_sorted.
    assert (sorted_by_key (PyDict.items m) = l) as ->; [|reflexivity].
    apply SortFacts.ascending_unique; [exact Hasc | exact Hl |].
    rewrite SortFacts.sorted_by_key_perm. now symmetry.
  - exact Hsame.
  - intros ins' Hnd' Hp. apply Hsame. subst m.
    rewrite (PyDictFacts.of_assignments_distinct ins) by exact Hnd'.
    rewrite PyDictFacts.of_assignments_distinct; [exact Hp|].
    now rewrite Hp.
Qed.

End Digest.

Lemma manifest_digest_deterministic_witness :
  let a := mkEntry "a.txt" None (Some "AA") None (Some 1%Z) [] None in
  let b := mkEntry "b.txt" None (Some "BB") None (Some 2%Z) [] None in
  manifest_digest (H := Sample.outside) (PyDict.of_assignments [("b.txt", b); ("a.txt", a)])
  = manifest_digest (H := Sample.outside) (PyDict.of_assignments [("a.txt", a); ("b.txt", b)]).
Proof.
  intros a b.
  refine (proj2 (proj2 (proj2 (manifest_digest_deterministic
                                 (H := Sample.outside) [("a.txt", a); ("b.txt", b)])))
                [("b.txt", b); ("a.txt", a)] _ _).
  - apply (bool_decide_unpack _). vm_compute. exact I.
  - apply perm_swap.
Defined.

(** Scenario 1 of the specification: [a.txt:AA] and [b.txt:BB], inserted in
    either order. *)
Example digest_of_two_entries :
  let a := mkEntry "a.txt" None (Some "AA") None (Some 1%Z) [] None in
  let b := mkEntry "b.txt" None (Some "BB") None (Some 2%Z) [] None in
  manifest_digest (H := Sample.outside) (add_entry a (add_entry b []))
  = Sample.md5_hexdigest ("wandb-artifact-manifest-v1" ++ nl ++ "a.txt:AA" ++ nl
                          ++ "b.txt:BB" ++ nl)
  /\ manifest_digest (H := Sample.outside) (add_entry b (add_entry a []))
     = manifest_digest (H := Sample.outside) (add_entry a (add_entry b [])).
Proof. split; vm_compute; reflexivity. Qed.

End ManifestFacts.

(** ** The monad *)

Module MonadFacts.

Lemma bind_Ok {W A B} (m : M W A) (k : A -> M W B) (w w' : W) (b : B) :
  bind m k w = (Ok b, w') ->
  exists (a : A) (w1 : W), m w = (Ok a, w1) /\ k a w1 = (Ok b, w').
Proof.
  unfold bind. destruct (m w) as [[a|e] w1]; [eauto | discriminate].
Qed.

Lemma bind_Raise_first {W A B} (m : M W A) (k : A -> M W B) (w w' : W) (e : exn) :
  m w = (Raise e, w') -> bind m k w = (Raise e, w').
Proof. unfold bind. intros ->. reflexivity. Qed.

End MonadFacts.

(** ** The artifact engine *)

Module ArtifactFacts.

Import Artifacts.
Local Open Scope string_scope.

(** *** The cache *)

Section Cache.

Context `{Outside}.

(** A lookup answers [hit] exactly when a regular file of the wanted size
    stands at the path it computed, and then leaves the file system alone. *)
Lemma check_etag_obj_path_hit (cache_dir etag : string) (size : option Z) (fs : FS.t) :
  let path := OsPath.join cache_dir ["obj"; "etag"; Py.take 2 etag; Py.drop 2 etag] in
  (cached fs path size = true ->
   check_etag_obj_path cache_dir etag size fs = (Ok (path, true), fs))
  /\ (cached fs path size = false ->
      check_etag_obj_path cache_dir etag size fs
      = match mkdir_exists_ok (OsPath.dirname path) fs with
        | (Ok _, fs') => (Ok (path, false), fs')
        | (Raise e, fs') => (Raise e, fs')
        end).
Proof.
  intros path. unfold check_etag_obj_path, bind, get_world, ret. fold path.
  split; intros ->; [reflexivity|].
  destruct (mkdir_exists_ok (OsPath.dirname path) fs) as [[[]|e] fs']; reflexivity.
Qed.

Lemma check_md5_obj_path_hit (cache_dir b64_md5 raw : string) (size : option Z) (fs : FS.t) :
  b64decode b64_md5 = Ok raw ->
  let hex_md5 := bytes_to_hex raw in
  let path := OsPath.join cache_dir ["obj"; "md5"; Py.take 2 hex_md5; Py.drop 2 hex_md5] in
  (cached fs path size = true ->
   check_md5_obj_path cache_dir b64_md5 size fs = (Ok (path, true), fs))
  /\ (cached fs path size = false ->
      check_md5_obj_path cache_dir b64_md5 size fs
      = match mkdir_exists_ok (OsPath.dirname path) fs with
        | (Ok _, fs') => (Ok (path, false), fs')
        | (Raise e, fs') => (Raise e, fs')
        end).
Proof.
  intros Hraw hex_md5 path.
  unfold check_md5_obj_path, bind, get_world, ret, of_result. rewrite Hraw.
  fold hex_md5. fold path.
  split; intros ->; [reflexivity|].
  destruct (mkdir_exists_ok (OsPath.dirname path) fs) as [[[]|e] fs']; reflexivity.
Qed.

Lemma cached_iff (fs : FS.t) (path : string) (size : option Z) :
  cached fs path size = true <->
  FS.isfile fs path = true
  /\ exists n, FS.getsize fs path = Ok n /\ size = Some n.
Proof.
  unfold cached. rewrite andb_true_iff. split.
  - intros [Hf Hs]. split; [exact Hf|].
    destruct (FS.getsize fs path) as [n|]; [|discriminate].
    destruct size as [s|]; [|discriminate].
    apply Z.eqb_eq in Hs. subst. eauto.
  - intros [Hf (n & -> & ->)]. split; [exact Hf | apply Z.eqb_refl].
Qed.

Lemma plain_key_split (k : string) :
  plain_key k = true ->
  Py.take 2 k <> "" /\ Py.startswith (Py.take 2 k) "/" = false
  /\ Py.endswith (Py.take 2 k) "/" = false /\ Py.startswith (Py.drop 2 k) "/" = false.
Proof.
  destruct k as [|a [|b rest]]; try discriminate. unfold plain_key.
  rewrite !andb_true_iff, !negb_true_iff. intros [[Ha Hb] Hrest].
  change (Py.take 2 (String a (String b rest))) with (String a "" ++ String b "").
  change (Py.drop 2 (String a (String b rest))) with rest.
  split; [discriminate|]. split; [|split].
  - rewrite PyFacts.append_cons. now rewrite OsPathFacts.startswith_cons.
  - now rewrite OsPathFacts.endswith_last.
  - exact Hrest.
Qed.

Lemma hex_digit_not_slash (c : ascii) :
  Ascii.eqb (hex_digit (nat_of_ascii c / 16)) "/" = false
  /\ Ascii.eqb (hex_digit (nat_of_ascii c mod 16)) "/" = false.
Proof. destruct c as [[] [] [] [] [] [] [] []]; split; vm_compute; reflexivity. Qed.

(** The hex form of a hash that is not empty is such a key. *)
Lemma plain_key_hex (raw : string) : raw <> "" -> plain_key (bytes_to_hex raw) = true.
Proof.
  destruct raw as [|c raw]; [contradiction|]. intros _.
  change (bytes_to_hex (String c raw))
    with (String (hex_digit (nat_of_ascii c / 16))
                 (String (hex_digit (nat_of_ascii c mod 16)) (bytes_to_hex raw))).
  unfold plain_key. destruct (hex_digit_not_slash c) as [-> ->].
  destruct raw as [|d raw]; [reflexivity|].
  change (bytes_to_hex (String d raw))
    with (String (hex_digit (nat_of_ascii d / 16))
                 (String (hex_digit (nat_of_ascii d mod 16)) (bytes_to_hex raw))).
  rewrite OsPathFacts.startswith_cons.
  destruct (hex_digit_not_slash d) as [-> _]. reflexivity.
Qed.

(** The lookups on keys that split: the path is
    [<cache-root>/obj/<kind>/<key[0:2]>/<key[2:]>], the answer is a hit
    exactly when a regular file of the wanted size stands there, and after a
    miss the parent directory exists. *)
Lemma check_etag_obj_path_plain (cache_dir etag : string) (size : option Z) (fs : FS.t) :
  cache_dir <> "" -> Py.endswith cache_dir "/" = false -> plain_key etag = true ->
  let path := cache_dir ++ "/obj/etag/" ++ Py.take 2 etag ++ "/" ++ Py.drop 2 etag in
  (cached fs path size = true ->
   check_etag_obj_path cache_dir etag size fs = (Ok (path, true), fs))
  /\ (cached fs path size = false ->
      forall fs', mkdir_exists_ok (OsPath.dirname path) fs = (Ok tt, fs') ->
                  check_etag_obj_path cache_dir etag size fs = (Ok (path, false), fs')
                  /\ FS.isdir fs' (OsPath.dirname path) = true).
Proof.
  intros Hroot Hslash Hkey path.
  destruct (plain_key_split etag Hkey) as (H1 & H2 & H3 & H4).
  destruct (check_etag_obj_path_hit cache_dir etag size fs) as [Hhit Hmiss].
  assert (Hpath : OsPath.join cache_dir ["obj"; "etag"; Py.take 2 etag; Py.drop 2 etag]
                  = path).
  { rewrite (OsPathFacts.cache_layout cache_dir "etag")
      by (assumption || discriminate || reflexivity).
    reflexivity. }
  rewrite Hpath in Hhit, Hmiss. split; [exact Hhit|].
  intros Hc fs' Hmk. rewrite (Hmiss Hc), Hmk.
  split; [reflexivity | now apply (FSFacts.mkdir_exists_ok_isdir _ fs)].
Qed.

Lemma check_md5_obj_path_plain (cache_dir b64_md5 raw : string) (size : option Z)
      (fs : FS.t) :
  cache_dir <> "" -> Py.endswith cache_dir "/" = false ->
  b64decode b64_md5 = Ok raw -> raw <> "" ->
  let hex := bytes_to_hex raw in
  let path := cache_dir ++ "/obj/md5/" ++ Py.take 2 hex ++ "/" ++ Py.drop 2 hex in
  (cached fs path size = true ->
   check_md5_obj_path cache_dir b64_md5 size fs = (Ok (path, true), fs))
  /\ (cached fs path size = false ->
      forall fs', mkdir_exists_ok (OsPath.dirname path) fs = (Ok tt, fs') ->
                  check_md5_obj_path cache_dir b64_md5 size fs = (Ok (path, false), fs')
                  /\ FS.isdir fs' (OsPath.dirname path) = true).
Proof.
  intros Hroot Hslash Hraw Hne hex path.
  destruct (plain_key_split hex (plain_key_hex raw Hne)) as (H1 & H2 & H3 & H4).
  destruct (check_md5_obj_path_hit cache_dir b64_md5 raw size fs Hraw) as [Hhit Hmiss].
  assert (Hpath : OsPath.join cache_dir ["obj"; "md5"; Py.take 2 hex; Py.drop 2 hex]
                  = path).
  { rewrite (OsPathFacts.cache_layout cache_dir "md5")
      by (assumption || discriminate || reflexivity).
    reflexivity. }
  fold hex in Hhit, Hmiss. rewrite Hpath in Hhit, Hmiss. split; [exact Hhit|].
  intros Hc fs' Hmk. rewrite (Hmiss Hc), Hmk.
  split; [reflexivity | now apply (FSFacts.mkdir_exists_ok_isdir _ fs)].
Qed.

End Cache.

(** C2, the failing input.  The etag [ab/cd] (a slash is allowed in an HTTP
    entity tag) splits into [ab] and [/cd]; [os.path.join] drops all it has
    when a component is absolute, and the lookup answers with the path
    [/cd], which is not [<cache-root>/obj/etag/ab//cd] and not under the
    cache root at all. *)
Theorem etag_with_slash_leaves_the_cache :
  fst (check_etag_obj_path "/cache" "ab/cd" (Some 4%Z) Sample.fs_in_d) = Ok ("/cd", false)
  /\ Py.startswith "/cd" "/cache" = false
  /\ fst (check_etag_obj_path "/cache" "abcd" (Some 4%Z) Sample.fs_in_d)
     = Ok ("/cache/obj/etag/ab/cd", false).
Proof. repeat split; vm_compute; reflexivity. Qed.

(** Scenario 2 of the specification, with the stand-in decoder (the hash
    bytes [abc] are [616263] in hex): a file of 5 bytes at
    [<root>/obj/md5/61/6263] is a hit for size 5 and a miss for size 6. *)
Example cache_hit_and_miss :
  let fs := FS.mk (FS.Dir [("cache", FS.Dir [("obj", FS.Dir [("md5", FS.Dir [("61",
                     FS.Dir [("6263", FS.File "hello")])])])])]) [] in
  fst (check_md5_obj_path (H := Sample.outside) "/cache" "abc" (Some 5%Z) fs)
  = Ok ("/cache/obj/md5/61/6263", true)
  /\ fst (check_md5_obj_path (H := Sample.outside) "/cache" "abc" (Some 6%Z) fs)
     = Ok ("/cache/obj/md5/61/6263", false).
Proof. split; vm_compute; reflexivity. Qed.

(** *** [LocalFileHandler.store_path] on a directory *)

(** C3, the failing input.  In [/d] stand [a.txt] and [sub/b.txt]; the
    current directory is [/d].  The walk reaches [b.txt], and the size is
    asked of the bare name: [os.path.getsize("b.txt")] fails.  And a directory
    of one file with [max_objects = 1] is refused although one does not
    exceed one. *)
Theorem store_path_asks_the_bare_name :
  FS.walk Sample.fs_in_d "/d" = [("/d", ["sub"], ["a.txt"]); ("/d/sub", [], ["b.txt"])]
  /\ LocalFileHandler_store_path (H := Sample.outside) Sample.fs_in_d
                                 "file:///d" None true None
     = Raise (OSError "No such file or directory")
  /\ LocalFileHandler_store_path (H := Sample.outside) Sample.fs_one
                                 "file:///one" None true (Some 1%Z)
     = Raise (exceeded 1)
  /\ exists e, LocalFileHandler_store_path (H := Sample.outside) Sample.fs_one
                                           "file:///one" None true (Some 2%Z)
               = Ok [e] /\ size e = Some 3%Z.
Proof.
  split; [reflexivity|]. split; [vm_compute; reflexivity|].
  split; [vm_compute; reflexivity|].
  eexists. split; vm_compute; reflexivity.
Qed.

(** *** [MultiHandler] *)

Section Dispatch.

Context `{Outside}.

(** What [store_path] does with a scheme that has no handler. *)
Lemma store_path_unregistered (mh : MultiHandler) (fs : FS.t) (uri : string) (u : url)
      (name : option string) (checksum : bool) (max_objects : option Z) :
  urlparse uri = Parsed u ->
  _handlers mh !! Some (scheme u) = None ->
  MultiHandler_store_path mh fs uri name checksum max_objects
  = match _default_handler mh with
    | Some d => handler_store_path d fs uri name checksum max_objects
    | None => Raise (AttributeError "'NoneType' object has no attribute 'store_path'")
    end.
Proof.
  intros Hparse Hnone. unfold MultiHandler_store_path. rewrite Hparse, Hnone. reflexivity.
Qed.

(** A URI that [urlparse] refuses is refused by every [store_path] that
    parses it, with the [ValueError] of [urlparse]. *)
Lemma local_store_path_invalid (fs : FS.t) (uri msg : string) (name : option string)
      (checksum : bool) (max_objects : option Z) :
  urlparse uri = Invalid msg ->
  LocalFileHandler_store_path fs uri name checksum max_objects = Raise (ValueError msg).
Proof. intros Hparse. unfold LocalFileHandler_store_path. now rewrite Hparse. Qed.

Lemma store_path_invalid (mh : MultiHandler) (fs : FS.t) (uri msg : string)
      (name : option string) (checksum : bool) (max_objects : option Z) :
  urlparse uri = Invalid msg ->
  MultiHandler_store_path mh fs uri name checksum max_objects = Raise (ValueError msg).
Proof. intros Hparse. unfold MultiHandler_store_path. now rewrite Hparse. Qed.

(** What [load_path] does with it. *)
Lemma load_path_unregistered (mh : MultiHandler) (e : ArtifactManifestEntry)
      (url_scheme : string) (local : bool) (fs : FS.t) :
  ref_scheme e = Ok url_scheme ->
  _handlers mh !! Some url_scheme = None ->
  MultiHandler_load_path mh e local fs
  = match _default_handler mh with
    | Some d => handler_load_path d e local fs
    | None => (Raise (no_handler url_scheme), fs)
    end.
Proof.
  intros Hscheme Hnone. unfold MultiHandler_load_path, bind, of_result.
  rewrite Hscheme, Hnone. destruct (_default_handler mh); reflexivity.
Qed.

End Dispatch.

(** C8, the failing input.  A [MultiHandler] with a handler for [file] and
    no default handler, asked to store [foo://x]: [store_path] tests
    [self._handlers is not None], which holds, calls [store_path] on [None]
    and fails with [AttributeError]; the [ValueError] of the claim is never
    raised.  [load_path], which tests [self._default_handler], raises it. *)
Theorem store_path_without_default_handler :
  let mh := MultiHandler_init [LocalFileHandler "file"] None in
  let entry := mkEntry "x" (Some "foo://x") (Some "foo://x") None None [] None in
  MultiHandler_store_path (H := Sample.outside) mh Sample.fs_in_d "foo://x" None true None
  = Raise (AttributeError "'NoneType' object has no attribute 'store_path'")
  /\ fst (MultiHandler_load_path (H := Sample.outside) mh entry false Sample.fs_in_d)
     = Raise (ValueError ("No storage handler registered for scheme "
                          ++ dquote ++ "foo" ++ dquote))
  /\ MultiHandler_store_path (H := Sample.outside)
       (MultiHandler_init [LocalFileHandler "file"] (Some (TrackingHandler None)))
       Sample.fs_in_d "foo://x" (Some "x") true None
     = Ok [entry].
Proof. repeat split; vm_compute; reflexivity. Qed.

(** *** [store_path] with [checksum=False] *)

(** C10, the failing input.  [S3Handler.store_path] calls [init_boto] and
    [GCSHandler.store_path] calls [init_gcs] before they look at [checksum]:
    where the client library is missing they raise, and return no entry.
    The local-file handler (as the S3 and GCS ones) parses the URI before it
    looks at [checksum]: a URI that [urlparse] refuses raises as well. *)
Lemma unchecked_store_needs_the_sdk :
  handler_store_path (H := Sample.outside_without_sdk) (S3Handler "s3") Sample.fs_in_d
                     "s3://bucket/key" None false None
  = Raise (ImportFailure
             "s3:// references requires the boto3 library, run pip install wandb[aws]")
  /\ handler_store_path (H := Sample.outside_without_sdk) (GCSHandler "gs") Sample.fs_in_d
                        "gs://bucket/key" None false None
     = Raise (ImportFailure
                "gs:// references requires the google-cloud-storage library, run pip install wandb[gcp]")
  /\ handler_store_path (H := Sample.outside) (LocalFileHandler "file") Sample.fs_in_d
                        "file://[" None false None
     = Raise (ValueError "Invalid IPv6 URL").
Proof. repeat split; vm_compute; reflexivity. Qed.

(** C10, amended.  For the local-file, S3, GCS and HTTP handlers,
    [store_path] with [checksum=False] returns one entry whose digest and
    ref are the URI, without a size, named by [name] or else by the basename
    of the URI (local, HTTP) or the bucket key (S3, GCS) -- for S3 and GCS
    provided the client library initialises, and for all but the HTTP
    handler provided [urlparse] accepts the URI.  Where the client library is
    missing the call raises [ImportFailure]; where the library is there and
    [urlparse] refuses the URI it raises the [ValueError] of [urlparse].  The
    answer depends neither on the file system nor on what the services
    hold. *)
Theorem unchecked_store_path `{Outside} (h : handler) (fs : FS.t) (uri : string)
        (name : option string) (max_objects : option Z) :
  single_scheme h = true ->
  (initialises h = true -> parses h uri = true ->
   handler_store_path h fs uri name false max_objects
   = Ok [unchecked_entry (or_else name (default_name h uri)) uri])
  /\ (initialises h = false ->
      exists msg, handler_store_path h fs uri name false max_objects
                  = Raise (ImportFailure msg))
  /\ (initialises h = true -> parses h uri = false ->
      exists msg, urlparse uri = Invalid msg
                  /\ handler_store_path h fs uri name false max_objects
                     = Raise (ValueError msg)).
Proof.
  intros Hs. destruct h as [s|s|s|s|s]; try discriminate; simpl.
  - unfold LocalFileHandler_store_path. destruct (urlparse uri) as [u|msg].
    + split; [reflexivity|]. split; discriminate.
    + split; [discriminate|]. split; [discriminate | eauto].
  - unfold S3Handler_store_path, init_boto, _parse_uri.
    destruct boto3_available.
    + destruct (urlparse uri) as [u|msg].
      * split; [reflexivity|]. split; discriminate.
      * split; [discriminate|]. split; [discriminate | eauto].
    + split; [discriminate|]. split; [eauto | discriminate].
  - unfold GCSHandler_store_path, init_gcs, _parse_uri.
    destruct gcs_available.
    + destruct (urlparse uri) as [u|msg].
      * split; [reflexivity|]. split; discriminate.
      * split; [discriminate|]. split; [discriminate | eauto].
    + split; [discriminate|]. split; [eauto | discriminate].
  - split; [reflexivity|]. split; discriminate.
Qed.

Lemma unchecked_store_path_witness :
  handler_store_path (H := Sample.outside) (S3Handler "s3") Sample.fs_in_d
                     "s3://bucket/k/x" None false None
  = Ok [unchecked_entry "k/x" "s3://bucket/k/x"].
Proof.
  apply (proj1 (unchecked_store_path (H := Sample.outside) (S3Handler "s3") Sample.fs_in_d
                                     "s3://bucket/k/x" None None eq_refl)).
  - reflexivity.
  - reflexivity.
Defined.

(** *** A finalized [Artifact] *)

Section Finalized.

Context `{Outside}.

Lemma lift_fs_art {A} (m : M FS.t A) (w : world) : art (snd (lift_fs m w)) = art w.
Proof. unfold lift_fs. destruct (m (fs w)) as [r fs']. reflexivity. Qed.

Lemma remap_entry_final (key : string) (w : world) :
  _final (art (snd (remap_entry key w))) = _final (art w).
Proof.
  unfold remap_entry, bind, get_art, get_world, ret, raise, modify_art. simpl.
  destruct (PyDict.get key (_manifest (art w))) as [entry|]; [|reflexivity].
  destruct (local_path entry) as [lp|]; [|reflexivity].
  destruct (negb (Py.startswith lp (artifact_dir (art w)))); [reflexivity|].
  destruct (digest entry) as [d|]; [|reflexivity].
  unfold lift_fs.
  destruct (check_md5_obj_path (cache_dir (art w)) d (size entry) (fs w))
    as [[[cache_path hit]|e] fs1]; [|reflexivity].
  destruct hit; [reflexivity|].
  match goal with
  | |- context [copyfile ?a ?b ?c] => destruct (copyfile a b c) as [[[]|e] fs2]
  end; reflexivity.
Qed.

Lemma for_each_final {A} (body : A -> M world unit) (l : list A) :
  (forall x w, _final (art (snd (body x w))) = _final (art w)) ->
  forall w, _final (art (snd (for_each l body w))) = _final (art w).
Proof.
  intros Hbody. induction l as [|x l IH]; intros w; [reflexivity|].
  simpl. unfold bind. specialize (Hbody x w).
  destruct (body x w) as [[u|e] w1]; simpl in *; [|exact Hbody].
  rewrite IH. exact Hbody.
Qed.

(** When [finalize] returns, the artifact is final. *)
Lemma finalize_sets_final (w w' : world) (r : option (list ArtifactManifestEntry)) :
  finalize w = (Ok r, w') -> _final (art w') = true.
Proof.
  unfold finalize. intros Hf.
  apply MonadFacts.bind_Ok in Hf as (a & w0 & Ha & Hf).
  unfold get_art in Ha. injection Ha as <- <-.
  destruct (_final (art w)) eqn:Efinal.
  { unfold ret in Hf. injection Hf as _ <-. exact Efinal. }
  apply MonadFacts.bind_Ok in Hf as (u1 & w1 & _ & Hf).
  apply MonadFacts.bind_Ok in Hf as (u2 & w2 & H2 & Hf).
  apply MonadFacts.bind_Ok in Hf as (u3 & w3 & H3 & Hf).
  apply MonadFacts.bind_Ok in Hf as (u4 & w4 & H4 & Hf).
  unfold ret in Hf. injection Hf as _ <-.
  unfold modify_art in H2, H3. injection H2 as _ <-. injection H3 as _ <-.
  assert (Hkeep : _final (art w4) = true); [|exact Hkeep].
  destruct (_added_new (art w)).
  - unfold bind, get_art in H4. simpl in H4.
    match type of H4 with
    | for_each ?l ?body ?w0 = _ =>
        pose proof (for_each_final body l remap_entry_final w0) as Hk;
        rewrite H4 in Hk; exact Hk
    end.
  - unfold ret in H4. injection H4 as _ <-. reflexivity.
Qed.

(** C7.  Once [finalize] has returned, [new_file], [add_file], [add_dir]
    and [add_reference] each raise [ValueError], and the world they leave is
    the one they found: the manifest's entries and the digest are those
    [finalize] left. *)
Theorem finalized_artifact_rejects_additions
        (w w' : world) (r : option (list ArtifactManifestEntry)) :
  finalize w = (Ok r, w') ->
  (forall name mode, new_file name mode w' = (Raise finalized_error, w'))
  /\ (forall local_path name, add_file local_path name w' = (Raise finalized_error, w'))
  /\ (forall local_path name, add_dir local_path name w' = (Raise finalized_error, w'))
  /\ (forall uri name checksum max_objects,
         exists msg, add_reference uri name checksum max_objects w'
                     = (Raise (ValueError msg), w')).
Proof.
  intros Hf. apply finalize_sets_final in Hf.
  assert (Hens : _ensure_can_add w' = (Raise finalized_error, w')).
  { unfold _ensure_can_add, bind, get_art, raise. now rewrite Hf. }
  split; [|split; [|split]].
  - intros name mode. unfold new_file. now apply MonadFacts.bind_Raise_first.
  - intros local_path name. unfold add_file. now apply MonadFacts.bind_Raise_first.
  - intros local_path name. unfold add_dir. now apply MonadFacts.bind_Raise_first.
  - intros uri name checksum max_objects. unfold add_reference.
    destruct (urlparse uri) as [u|msg]; [|unfold raise; eauto].
    destruct (String.eqb (scheme u) ""); [unfold raise; eauto|].
    unfold bind, get_art, raise. rewrite Hf. unfold finalized_error. eauto.
Qed.

End Finalized.

Lemma finalized_artifact_rejects_additions_witness :
  exists w', finalize (H := Sample.outside) Sample.staged_world = (Ok None, w')
             /\ PyDict.keys (_manifest (art w')) = ["f"]
             /\ add_file (H := Sample.outside) "/stage/f" None w'
                = (Raise finalized_error, w').
Proof.
  eexists. split; [vm_compute; reflexivity|]. split; [reflexivity|].
  refine (proj1 (proj2 (finalized_artifact_rejects_additions
                          (H := Sample.outside) Sample.staged_world _ None _)) "/stage/f" None).
  vm_compute. reflexivity.
Defined.

End ArtifactFacts.

(** * Further theorems *)

(** ** More of [TBHistory] *)

Module TBHistoryMoreFacts.

Import TBHistory TBHistoryMore.

Lemma row_update_numbered (d : gmap string pyval) (h : t) (out : list (gmap string pyval)) :
  numbered h out -> fresh h ->
  numbered (_row_update d h) out /\ fresh (_row_update d h).
Proof.
  intros (Hout & Hadd & Hstep) [[Hd Hb] Hfresh].
  split; [split; [|split]|split; [split|]]; simpl.
  - exact Hout.
  - intros k r Hk. unfold deref; simpl.
    assert (r <> _data h).
    { intros ->. apply Hfresh. eapply list_elem_of_lookup_2; eauto. }
    rewrite list_lookup_insert_ne by congruence. now apply Hadd.
  - exact Hstep.
  - now rewrite length_insert.
  - intros r Hr. rewrite length_insert. now apply Hb.
  - exact Hfresh.
Qed.

Lemma only_call_get_and_reset (cs : list method_call) (h : t) (out : list (gmap string pyval)) :
  forallb is_call_get_and_reset cs = true ->
  numbered h out ->
  numbered (fst (run_calls_from (h, out) cs)) (snd (run_calls_from (h, out) cs)).
Proof.
  revert h out; induction cs as [|c cs IH]; intros h out Hall Hn; [exact Hn|].
  simpl in Hall. apply andb_true_iff in Hall as [Hc Hall].
  destruct c; try discriminate. simpl.
  apply IH; [exact Hall|]. apply (TBHistoryFacts.get_and_reset_numbered h out Hn).
Qed.

Lemma left_alone_numbered (cs : list method_call) (h : t) (out : list (gmap string pyval)) :
  appended_is_left_alone h cs = true ->
  numbered h out -> fresh h ->
  numbered (fst (run_calls_from (h, out) cs)) (snd (run_calls_from (h, out) cs)).
Proof.
  revert h out; induction cs as [|c cs IH]; intros h out Hp Hn Hf; [exact Hn|].
  destruct c as [d|d| |]; simpl in Hp |- *.
  - destruct (TBHistoryFacts.add_numbered d h out Hn Hf) as [Hn' Hf']. now apply IH.
  - destruct (row_update_numbered d h out Hn Hf) as [Hn' Hf']. now apply IH.
  - destruct (size (deref h (_data h)) =? 0)%nat eqn:E.
    + assert (_flush h = h) as -> by (unfold _flush; now rewrite E).
      now apply IH.
    + apply only_call_get_and_reset; [exact Hp|].
      now apply TBHistoryFacts.flush_numbered.
  - apply IH; [exact Hp| apply (TBHistoryFacts.get_and_reset_numbered h out Hn) |].
    destruct Hf as [[Hd _] _]. split; [split|]; simpl.
    + exact Hd.
    + intros r Hr. now apply elem_of_nil in Hr.
    + apply not_elem_of_nil.
Qed.

(** X1.  With [_row_update] among the calls: as long as no dict is written
    after it was appended, the rows returned carry the steps [0, 1, 2, ...],
    whatever the updates write, a key [_step] included. *)
Theorem row_updates_keep_the_numbering (cs : list method_call) :
  appended_is_left_alone init cs = true ->
  steps_of (returned cs) = contiguous_from_zero (length (returned cs)).
Proof.
  intros Hp. destruct TBHistoryFacts.numbered_init as [Hn Hf].
  destruct (left_alone_numbered cs init [] Hp Hn Hf) as (Hout & _ & _).
  fold (returned cs) in Hout.
  apply list_eq. intros i. rewrite TBHistoryFacts.contiguous_lookup. unfold steps_of.
  rewrite list_lookup_fmap.
  destruct (returned cs !! i) as [row|] eqn:Ei; simpl.
  - apply lookup_lt_Some in Ei as Hlt. rewrite (Hout _ _ Ei).
    destruct (decide (i < length (returned cs))%nat); [reflexivity | lia].
  - apply lookup_ge_None in Ei.
    destruct (decide (i < length (returned cs))%nat); [lia | reflexivity].
Qed.

Lemma row_updates_keep_the_numbering_witness :
  let cs := [CallAdd {["loss" := PyFloat 1]}; CallRowUpdate {["_step" := PyInt 7]};
             CallAdd {["loss" := PyFloat 2]}; CallFlush; CallGetAndReset] in
  steps_of (returned cs) = [Some (PyInt 0); Some (PyInt 1)].
Proof.
  intros cs.
  exact (row_updates_keep_the_numbering cs eq_refl).
Defined.

End TBHistoryMoreFacts.

Module TBHistoryRowsFacts.

Import TBHistory TBHistoryMore.

Lemma numbered_from_app (n : nat) (a b : list (gmap string pyval)) :
  numbered_from n (a ++ b) = numbered_from n a ++ numbered_from (n + length a) b.
Proof.
  revert n; induction a as [|x a IH]; intros n; simpl.
  - now rewrite Nat.add_0_r.
  - rewrite IH. do 3 f_equal. lia.
Qed.

Lemma map_deref_ext (h h' : t) (rs : list ref) :
  (forall r, r ∈ rs -> deref h' r = deref h r) ->
  map (deref h') rs = map (deref h) rs.
Proof.
  intros Hext. apply map_ext_in. intros r Hr. apply Hext. now apply list_elem_of_In.
Qed.

(** What [_flush] appends. *)
Lemma flush_rows (h : t) (n : nat) :
  fresh h -> _step h = Z.of_nat n ->
  bounded (_flush h)
  /\ map (deref (_flush h)) (_added (_flush h))
     = map (deref h) (_added h)
       ++ numbered_from n (List.filter non_empty [deref h (_data h)])
  /\ _step (_flush h)
     = Z.of_nat (n + length (List.filter non_empty [deref h (_data h)])).
Proof.
  intros [[Hd Hb] Hfresh] Hstep. unfold _flush. simpl. unfold non_empty.
  destruct (size (deref h (_data h)) =? 0)%nat; simpl.
  { split; [split; assumption|]. split; [now rewrite app_nil_r|]. rewrite Hstep. f_equal. lia. }
  split; [split|split]; simpl.
  - now rewrite length_insert.
  - intros r Hr. rewrite length_insert. apply elem_of_app in Hr as [Hr|Hr].
    + now apply Hb.
    + apply list_elem_of_singleton in Hr as ->. exact Hd.
  - rewrite map_app. simpl. f_equal.
    + apply map_deref_ext. intros r Hr. unfold deref; simpl.
      rewrite list_lookup_insert_ne; [reflexivity|]. intros <-. now apply Hfresh.
    + unfold deref at 1; simpl. rewrite list_lookup_insert_eq by exact Hd. simpl.
      now rewrite Hstep.
  - rewrite Hstep. lia.
Qed.

Lemma add_rows (d : gmap string pyval) (h : t) (n : nat) :
  fresh h -> _step h = Z.of_nat n ->
  fresh (add d h)
  /\ map (deref (add d h)) (_added (add d h))
     = map (deref h) (_added h)
       ++ numbered_from n (List.filter non_empty [deref h (_data h)])
  /\ _step (add d h)
     = Z.of_nat (n + length (List.filter non_empty [deref h (_data h)]))
  /\ deref (add d h) (_data (add d h)) = d.
Proof.
  intros Hf Hstep. destruct (flush_rows h n Hf Hstep) as ([Hd Hb] & Hrows & Hstep').
  unfold add. split; [split; [split|]|split; [|split]]; simpl.
  - rewrite length_app. simpl. lia.
  - intros r Hr. rewrite length_app. simpl. specialize (Hb r Hr). lia.
  - intros Hin. specialize (Hb _ Hin). lia.
  - etransitivity; [|exact Hrows].
    apply map_deref_ext. intros r Hr. unfold deref; simpl.
    rewrite lookup_app_l; [reflexivity|]. now apply Hb.
  - exact Hstep'.
  - unfold deref; simpl. rewrite lookup_app_r by lia.
    rewrite Nat.sub_diag. simpl. unfold dict_update. apply (right_id ∅ (∪)).
Qed.

Lemma rows_of_a_run (body : list op) (h : t) (out : list (gmap string pyval)) (n : nat) :
  forallb (fun o => negb (is_flush o)) body = true ->
  fresh h -> _step h = Z.of_nat n ->
  snd (run_from (h, out) (body ++ [Flush; GetAndReset]))
  = out ++ map (deref h) (_added h)
        ++ numbered_from n (List.filter non_empty (deref h (_data h) :: added_dicts body)).
Proof.
  revert h out n; induction body as [|o body IH]; intros h out n Hall Hf Hstep.
  - destruct (flush_rows h n Hf Hstep) as (_ & Hrows & _).
    change (out ++ map (deref (_flush h)) (_added (_flush h))
            = out ++ map (deref h) (_added h)
                  ++ numbered_from n (List.filter non_empty [deref h (_data h)])).
    now rewrite Hrows.
  - simpl in Hall. apply andb_true_iff in Hall as [Ho Hall].
    destruct o as [d| |]; [| discriminate |].
    + destruct (add_rows d h n Hf Hstep) as (Hf' & Hrows & Hstep' & Hdata).
      change (snd (run_from (add d h, out) (body ++ [Flush; GetAndReset])) = 
              out ++ map (deref h) (_added h)
                  ++ numbered_from n
                       (List.filter non_empty ([deref h (_data h)] ++ d :: added_dicts body))).
      rewrite (IH _ out _ Hall Hf' Hstep'), Hrows, Hdata.
      rewrite List.filter_app, numbered_from_app, <- !app_assoc. reflexivity.
    + change (snd (run_from (snd (_get_and_reset h), out ++ map (deref h) (_added h))
                            (body ++ [Flush; GetAndReset]))
              = out ++ map (deref h) (_added h)
                    ++ numbered_from n
                         (List.filter non_empty (deref h (_data h) :: added_dicts body))).
      rewrite (IH _ _ n Hall); [now rewrite <- app_assoc | | exact Hstep].
      destruct Hf as [[Hd _] _]. split; [split|]; simpl.
      * exact Hd.
      * intros r Hr. now apply elem_of_nil in Hr.
      * apply not_elem_of_nil.
Qed.

(** X2.  What the consumer gets out of a history: whatever way the [add]
    and [_get_and_reset] calls are interleaved, after the closing [_flush]
    and [_get_and_reset] the rows returned are the dicts that were added, in
    the order they were added, the empty ones left out, each with its
    position written in under [_step] (over a value the dict had there). *)
Theorem rows_are_the_added_dicts (body : list op) :
  forallb (fun o => negb (is_flush o)) body = true ->
  emitted (body ++ [Flush; GetAndReset])
  = numbered_from 0 (List.filter non_empty (added_dicts body)).
Proof.
  intros Hall. destruct TBHistoryFacts.numbered_init as [_ Hf].
  unfold emitted, run.
  change (fold_left step (body ++ [Flush; GetAndReset]) (init, []))
    with (run_from (init, []) (body ++ [Flush; GetAndReset])).
  rewrite (rows_of_a_run body init [] 0 Hall Hf eq_refl). reflexivity.
Qed.

Lemma rows_are_the_added_dicts_witness :
  emitted ([Add {["loss" := PyFloat 1]}; Add ∅; GetAndReset;
            Add {["_step" := PyInt 9]}] ++ [Flush; GetAndReset])
  = [ {["loss" := PyFloat 1; "_step" := PyInt 0]}; {["_step" := PyInt 1]} ].
Proof.
  rewrite (rows_are_the_added_dicts
             [Add {["loss" := PyFloat 1]}; Add ∅; GetAndReset; Add {["_step" := PyInt 9]}]
             eq_refl).
  vm_compute. reflexivity.
Defined.

End TBHistoryRowsFacts.

(** ** [TBDirWatcher.process_event] *)

Module TBDirWatcherFacts.

Import TBDirWatcher.

Lemma process_events_app (es es' : list (Q * tf_event)) (w : t) :
  process_events (es ++ es') w = process_events es' (process_events es w).
Proof. apply fold_left_app. Qed.

Lemma process_events_queue (es : list (Q * tf_event)) (w : t) :
  _queue (process_events es w)
  = _queue w ++ map (fun ne => mkEvent (snd ne) (_namespace w) (fst ne))
                    (List.filter has_summary es)
  /\ _namespace (process_events es w) = _namespace w.
Proof.
  revert w; induction es as [|[now e] es IH]; intros w.
  - simpl. now rewrite app_nil_r.
  - change (process_events ((now, e) :: es) w)
      with (process_events es (process_event now e w)).
    destruct (IH (process_event now e w)) as [-> ->]. split; [|reflexivity].
    simpl. unfold has_summary at 2. simpl.
    destruct (summary e); simpl; [now rewrite <- app_assoc | reflexivity].
Qed.

Lemma process_events_first (es : list (Q * tf_event)) (w : t) (ts : Q) :
  _first_event_timestamp w = Some ts ->
  _first_event_timestamp (process_events es w) = Some ts.
Proof.
  revert w; induction es as [|[now e] es IH]; intros w Hw; [exact Hw|].
  apply IH. simpl. now rewrite Hw.
Qed.

(** X3.  Events read from a directory: the time stamp of the first event
    is latched (set by the first event ever processed, with or without a
    summary, and never changed afterwards), and exactly the events that carry
    a summary are put on the queue, in the order read, under the watcher's
    namespace. *)
Theorem process_events_spec (es : list (Q * tf_event)) (w : t) :
  _queue (process_events es w)
  = _queue w ++ map (fun ne => mkEvent (snd ne) (_namespace w) (fst ne))
                    (List.filter has_summary es)
  /\ _first_event_timestamp (process_events es w)
     = match _first_event_timestamp w with
       | Some ts => Some ts
       | None => option_map (fun ne => wall_time (snd ne)) (head es)
       end.
Proof.
  split; [apply process_events_queue|].
  destruct (_first_event_timestamp w) as [ts|] eqn:Hw.
  - now apply process_events_first.
  - destruct es as [|[now e] es]; [exact Hw|].
    change (process_events ((now, e) :: es) w)
      with (process_events es (process_event now e w)).
    apply process_events_first. simpl. now rewrite Hw.
Qed.

End TBDirWatcherFacts.

(** ** The agent's polling loop and [_command_exit] *)

Module AgentLoopFacts.

Import Agent AgentLoop.

Lemma fold_delete_lookup {A} (ids : list string) (m : gmap string A) (i : string) :
  fold_left (fun m id => delete id m) ids m !! i
  = if bool_decide (i ∈ ids) then None else m !! i.
Proof.
  revert m; induction ids as [|k ids IH]; intros m; cbn [fold_left].
  - rewrite bool_decide_eq_false_2; [reflexivity | apply not_elem_of_nil].
  - rewrite IH. destruct (decide (i = k)) as [->|Hne].
    + rewrite lookup_delete_eq. rewrite (bool_decide_eq_true_2 (k ∈ k :: ids)) by left.
      now destruct (bool_decide _).
    + rewrite lookup_delete_ne by congruence.
      destruct (bool_decide (i ∈ ids)) eqn:E.
      * apply bool_decide_eq_true in E. rewrite bool_decide_eq_true_2; [reflexivity| now right].
      * apply bool_decide_eq_false in E. rewrite bool_decide_eq_false_2; [reflexivity|].
        rewrite elem_of_cons. tauto.
Qed.

Lemma fold_insert_lookup {A} (v : A) (ids : list string) (m : gmap string A) (i : string) :
  fold_left (fun m id => <[id := v]> m) ids m !! i
  = if bool_decide (i ∈ ids) then Some v else m !! i.
Proof.
  revert m; induction ids as [|k ids IH]; intros m; cbn [fold_left].
  - rewrite bool_decide_eq_false_2; [reflexivity | apply not_elem_of_nil].
  - rewrite IH. destruct (decide (i = k)) as [->|Hne].
    + rewrite lookup_insert_eq. rewrite (bool_decide_eq_true_2 (k ∈ k :: ids)) by left.
      now destruct (bool_decide _).
    + rewrite lookup_insert_ne by congruence.
      destruct (bool_decide (i ∈ ids)) eqn:E.
      * apply bool_decide_eq_true in E. rewrite bool_decide_eq_true_2; [reflexivity| now right].
      * apply bool_decide_eq_false in E. rewrite bool_decide_eq_false_2; [reflexivity|].
        rewrite elem_of_cons. tauto.
Qed.

Lemma never_flapping (environ : gmap string string) (now START_TIME : Q) (a : t) :
  environ !! AGENT_DISABLE_FLAPPING = Some "true"
  \/ (START_TIME + FLAPPING_MAX_SECONDS <= now)%Q ->
  truthy (is_flapping environ now START_TIME a) = false.
Proof.
  intros H. destruct (truthy (is_flapping environ now START_TIME a)) eqn:E; [|reflexivity].
  apply AgentFacts.is_flapping_true in E as (Henv & Hlt & _).
  destruct H as [H|H]; [contradiction|].
  exfalso. exact (Qlt_not_le _ _ Hlt H).
Qed.

Lemma polled_without_flapping (environ : gmap string string) (now START_TIME : Q)
      (polled : list (string * poll_result)) (a : t) (run_status : gmap string bool) :
  environ !! AGENT_DISABLE_FLAPPING = Some "true"
  \/ (START_TIME + FLAPPING_MAX_SECONDS <= now)%Q ->
  let a' := fst (poll_children environ now START_TIME polled (a, run_status)) in
  let run_status' := snd (poll_children environ now START_TIME polled (a, run_status)) in
  _running a' = _running a
  /\ _failed a' = (_failed a + Z.of_nat (failures polled))%Z
  /\ _finished a' = (_finished a + Z.of_nat (length (finished_ids polled)))%Z
  /\ _run_processes a'
     = fold_left (fun m id => delete id m) (finished_ids polled) (_run_processes a)
  /\ run_status'
     = fold_left (fun m id => <[id := true]> m) (alive_ids polled) run_status
  /\ trace a' = trace a.
Proof.
  intros Hno. cbv zeta. revert a run_status.
  induction polled as [|[run_id r] polled IH]; intros a run_status.
  - unfold finished_ids, alive_ids, failures. simpl. repeat split; lia.
  - unfold finished_ids, alive_ids, failures in *. simpl.
    destruct r as [|b|n]; simpl.
    + apply IH.
    + destruct (IH (fst (fst (poll_one environ now START_TIME run_id (PollBool b)
                                         (a, run_status)))) run_status)
        as (H1 & H2 & H3 & H4 & H5 & H6).
      simpl in *. rewrite H1, H2, H3, H4, H5, H6. repeat split; lia.
    + destruct (0 <? n)%Z eqn:Hn; simpl.
      * rewrite (never_flapping _ _ _ _ Hno).
        match goal with
        | |- context [poll_children _ _ _ _ (?x, _)] =>
            destruct (IH x run_status) as (H1 & H2 & H3 & H4 & H5 & H6)
        end.
        simpl in *. rewrite H1, H2, H3, H4, H5, H6. repeat split; lia.
      * match goal with
        | |- context [poll_children _ _ _ _ (?x, _)] =>
            destruct (IH x run_status) as (H1 & H2 & H3 & H4 & H5 & H6)
        end.
        simpl in *. rewrite H1, H2, H3, H4, H5, H6. repeat split; lia.
Qed.

(** X4.  With flap protection out of play (the environment sets
    [WANDB_AGENT_DISABLE_FLAPPING] to ["true"], or the first 60 seconds are
    over) one round of polling goes through all the children: the agent keeps
    running as it was, every positive exit status is counted as a failure,
    every child that has ended is counted as finished and removed, every
    child still alive is reported as running, and no child is signalled. *)
Theorem polling_without_flap_protection
        (environ : gmap string string) (now START_TIME : Q)
        (polled : list (string * poll_result)) (a : t) (run_status : gmap string bool) :
  environ !! "WANDB_AGENT_DISABLE_FLAPPING" = Some "true" \/ (START_TIME + 60 <= now)%Q ->
  let a' := fst (poll_children environ now START_TIME polled (a, run_status)) in
  let run_status' := snd (poll_children environ now START_TIME polled (a, run_status)) in
  _running a' = _running a
  /\ _failed a' = (_failed a + Z.of_nat (failures polled))%Z
  /\ _finished a' = (_finished a + Z.of_nat (length (finished_ids polled)))%Z
  /\ (forall run_id,
         _run_processes a' !! run_id
         = if bool_decide (run_id ∈ finished_ids polled) then None
           else _run_processes a !! run_id)
  /\ (forall run_id,
         run_status' !! run_id
         = if bool_decide (run_id ∈ alive_ids polled) then Some true
           else run_status !! run_id)
  /\ trace a' = trace a.
Proof.
  intros Hno a' run_status'.
  destruct (polled_without_flapping environ now START_TIME polled a run_status Hno)
    as (H1 & H2 & H3 & H4 & H5 & H6).
  repeat split; try assumption.
  - intros run_id. subst a'. rewrite H4. apply fold_delete_lookup.
  - intros run_id. subst run_status'. rewrite H5. apply fold_insert_lookup.
Qed.

Lemma polling_without_flap_protection_witness :
  let polled := [("run-1", PollInt 1); ("run-2", PollNone); ("run-3", PollInt 1)] in
  let a' := fst (poll_children {["WANDB_AGENT_DISABLE_FLAPPING" := "true"]} 10 0 polled
                               (Sample.agent 2, ∅)) in
  _running a' = true /\ _failed a' = 4%Z /\ _finished a' = 2%Z.
Proof.
  intros polled a'.
  assert (Henv : ({["WANDB_AGENT_DISABLE_FLAPPING" := "true"]} : gmap string string)
                   !! "WANDB_AGENT_DISABLE_FLAPPING" = Some "true")
    by (vm_compute; reflexivity).
  destruct (polling_without_flap_protection
              {["WANDB_AGENT_DISABLE_FLAPPING" := "true"]} 10 0 polled (Sample.agent 2) ∅
              (or_introl Henv)) as (H1 & H2 & H3 & _).
  repeat split; assumption.
Defined.

(** X5.  Polling stops a running agent for one reason only: flap
    protection is not disabled, the time is within 60 seconds of the start,
    a polled child has exited with a positive status, and with it at least 3
    failures have been counted. *)
Theorem polling_stops_only_when_flapping
        (environ : gmap string string) (now START_TIME : Q)
        (polled : list (string * poll_result)) (a : t) (run_status : gmap string bool) :
  _running a = true ->
  _running (fst (poll_children environ now START_TIME polled (a, run_status))) = false ->
  environ !! "WANDB_AGENT_DISABLE_FLAPPING" <> Some "true"
  /\ (now < START_TIME + 60)%Q
  /\ (3 <= _failed (fst (poll_children environ now START_TIME polled (a, run_status))))%Z
  /\ exists run_id status, In (run_id, PollInt status) polled /\ (0 < status)%Z.
Proof.
  revert a run_status.
  induction polled as [|[run_id r] polled IH]; intros a run_status Hrun Hstop.
  - simpl in Hstop. congruence.
  - assert (Hnext : forall a1 rs1,
               _running a1 = true ->
               _running (fst (poll_children environ now START_TIME polled (a1, rs1))) = false ->
               environ !! "WANDB_AGENT_DISABLE_FLAPPING" <> Some "true"
               /\ (now < START_TIME + 60)%Q
               /\ (3 <= _failed (fst (poll_children environ now START_TIME polled (a1, rs1))))%Z
               /\ exists run_id0 status,
                   In (run_id0, PollInt status) ((run_id, r) :: polled) /\ (0 < status)%Z).
    { intros a1 rs1 H1 H2. destruct (IH a1 rs1 H1 H2) as (E1 & E2 & E3 & id & st & Hin & Hpos).
      repeat split; try assumption. exists id, st. split; [now right | exact Hpos]. }
    simpl in Hstop |- *. destruct r as [|b|n]; simpl in Hstop |- *.
    + now apply Hnext.
    + now apply Hnext.
    + destruct (0 <? n)%Z eqn:Hn; simpl in Hstop |- *; [|now apply Hnext].
      destruct (truthy (is_flapping environ now START_TIME (set_failed (_failed a + 1) a)))
        eqn:Hflap; simpl in Hstop |- *; [|now apply Hnext].
      apply AgentFacts.is_flapping_true in Hflap as (E1 & E2 & E3).
      repeat split; try assumption.
      exists run_id, n. split; [now left | now apply Z.ltb_lt].
Qed.

Lemma polling_stops_only_when_flapping_witness :
  let polled := [("run-1", PollInt 0); ("run-2", PollInt 2)] in
  (3 <= _failed (fst (poll_children ∅ 10 0 polled (Sample.agent 2, ∅))))%Z
  /\ exists run_id status, In (run_id, PollInt status) polled /\ (0 < status)%Z.
Proof.
  intros polled.
  exact (proj2 (proj2 (polling_stops_only_when_flapping ∅ 10 0 polled (Sample.agent 2) ∅
                                                        eq_refl eq_refl))).
Defined.

(** *** [_command_exit] *)

(** What [kill] raises: nothing or a caught [OSError] where it finds its
    signal, the [AttributeError] where it does not. *)
Lemma kill_raises (sys : platform) (gone : bool) (p : AgentProcess) :
  if kill_is_there sys p
  then match snd (kill sys gone p) with
       | Some e => caught e = true
       | None => True
       end
  else kill sys gone p = (None, p, Some no_SIGKILL).
Proof.
  unfold kill, kill_is_there. destruct (_popen p).
  - destruct sys, gone; simpl; auto.
  - destruct (pid p) as [n|]; [|destruct sys; simpl; auto].
    destruct (n =? 0)%Z; [destruct sys; simpl; auto|].
    destruct sys, gone; simpl; auto.
Qed.

Lemma exit_loop_running (sys : platform) (now : Q) (gone : string -> bool)
      (l : list (string * AgentProcess)) (a : t) :
  _running (snd (exit_loop sys now gone l a)) = _running a.
Proof.
  revert a; induction l as [|[run_id p] l IH]; intros a; [reflexivity|].
  cbn [exit_loop]. destruct (kill sys (gone run_id) p) as [[[c|] p'] [e|]];
    try destruct (caught e); rewrite ?IH; reflexivity.
Qed.

Lemma exit_loop_Ok (sys : platform) (now : Q) (gone : string -> bool)
      (l : list (string * AgentProcess)) (a : t) :
  (forall kv, In kv l -> kill_is_there sys (snd kv) = true) ->
  fst (exit_loop sys now gone l a) = Ok tt
  /\ trace (snd (exit_loop sys now gone l a)) = trace a ++ omap (exit_call sys now) l
  /\ _run_processes (snd (exit_loop sys now gone l a))
     = fold_left (fun m kv => <[fst kv := killed sys (gone (fst kv)) (snd kv)]> m) l
                 (_run_processes a).
Proof.
  revert a; induction l as [|[run_id p] l IH]; intros a Hall.
  - simpl. now rewrite app_nil_r.
  - assert (Hrest : forall kv, In kv l -> kill_is_there sys (snd kv) = true)
      by (intros kv Hin; apply Hall; now right).
    pose proof (kill_raises sys (gone run_id) p) as Hr.
    pose proof (Hall (run_id, p) (or_introl eq_refl)) as Hthere. cbn [snd] in Hthere.
    rewrite Hthere in Hr.
    pose proof (AgentFacts.kill_call_gone sys (gone run_id) p) as Hcall.
    cbn [exit_loop fold_left]. unfold killed at 2, exit_call. cbn [omap list_omap fst snd].
    rewrite <- Hcall.
    destruct (kill sys (gone run_id) p) as [[oc p'] oe]. cbn [fst snd] in *.
    assert (Hstep : forall b,
               trace b = (trace a ++ option_list (mkIssued now run_id <$> oc))%list ->
               _run_processes b = <[run_id := p']> (_run_processes a) ->
               fst (exit_loop sys now gone l b) = Ok tt
               /\ trace (snd (exit_loop sys now gone l b))
                  = trace a ++ match mkIssued now run_id <$> oc with
                               | Some y => y :: omap (exit_call sys now) l
                               | None => omap (exit_call sys now) l
                               end
               /\ _run_processes (snd (exit_loop sys now gone l b))
                  = fold_left
                      (fun m kv => <[fst kv := killed sys (gone (fst kv)) (snd kv)]> m) l
                      (<[run_id := p']> (_run_processes a))).
    { intros b Hb1 Hb2. destruct (IH b Hrest) as (E1 & E2 & E3).
      rewrite E1, E2, E3, Hb1, Hb2, <- app_assoc.
      repeat split. destruct oc; reflexivity. }
    destruct oc as [c|], oe as [e|]; try rewrite Hr; apply Hstep; simpl;
      rewrite ?app_nil_r; reflexivity.
Qed.

Lemma exit_loop_raises (sys : platform) (now : Q) (gone : string -> bool)
      (l : list (string * AgentProcess)) (a : t) (run_id : string) (p : AgentProcess) :
  In (run_id, p) l -> kill_is_there sys p = false ->
  fst (exit_loop sys now gone l a) = Raise no_SIGKILL.
Proof.
  revert a; induction l as [|[k q] l IH]; intros a Hin Hbad; [contradiction|].
  cbn [exit_loop]. pose proof (kill_raises sys (gone k) q) as Hr.
  destruct (kill_is_there sys q) eqn:Eq.
  - destruct Hin as [[= -> ->]|Hin]; [congruence|].
    destruct (kill sys (gone k) q) as [[[c|] q'] [e|]]; cbn [snd] in Hr;
      try rewrite Hr; now apply IH.
  - rewrite Hr. reflexivity.
Qed.

Lemma fold_insert_map {A} (f : string -> A -> A) (l : list (string * A))
      (m : gmap string A) (i : string) :
  NoDup l.*1 ->
  fold_left (fun m kv => <[fst kv := f (fst kv) (snd kv)]> m) l m !! i
  = match (list_to_map l : gmap string A) !! i with
    | Some v => Some (f i v)
    | None => m !! i
    end.
Proof.
  revert m; induction l as [|[k v] l IH]; intros m Hnd; [reflexivity|].
  apply NoDup_cons in Hnd as [Hk Hnd]. simpl. rewrite (IH _ Hnd).
  destruct (decide (i = k)) as [->|Hne].
  - rewrite (not_elem_of_list_to_map_1 _ _ Hk), !lookup_insert_eq. reflexivity.
  - rewrite !lookup_insert_ne by congruence. reflexivity.
Qed.

(** X6.  The exit command.  Where [kill] finds its signal for every child
    (on POSIX, and on Windows when the children were started from a command)
    it kills every started child at once, with no terminate before and no
    regard for the kill delay: the calls made are exactly one kill for each
    started child, a function child whose [os.kill] returned is marked as
    killed, and the agent stops.  On Windows with a function child that has a
    pid, [signal.SIGKILL] is missing: the command raises [AttributeError] and
    the agent is left running as it was. *)
Theorem exit_kills_every_child (sys : platform) (now : Q) (gone : string -> bool) (a : t) :
  ((forall run_id p, _run_processes a !! run_id = Some p -> kill_is_there sys p = true) ->
   fst (_command_exit sys now gone a) = Ok tt
   /\ _running (snd (_command_exit sys now gone a)) = false
   /\ trace (snd (_command_exit sys now gone a))
      = trace a ++ omap (exit_call sys now) (map_to_list (_run_processes a))
   /\ forall run_id p,
       _run_processes a !! run_id = Some p ->
       _run_processes (snd (_command_exit sys now gone a)) !! run_id
       = Some (killed sys (gone run_id) p)
       /\ (started p ->
           exists c, is_kill c = true
                     /\ mkIssued now run_id c ∈ trace (snd (_command_exit sys now gone a))))
  /\ (forall run_id p,
         _run_processes a !! run_id = Some p -> kill_is_there sys p = false ->
         fst (_command_exit sys now gone a)
         = Raise (AttributeError "module 'signal' has no attribute 'SIGKILL'")
         /\ _running (snd (_command_exit sys now gone a)) = _running a).
Proof.
  split.
  - intros Hall.
    assert (Hl : forall kv, In kv (map_to_list (_run_processes a)) ->
                            kill_is_there sys (snd kv) = true).
    { intros [k q] Hin. apply list_elem_of_In, elem_of_map_to_list in Hin.
      exact (Hall k q Hin). }
    destruct (exit_loop_Ok sys now gone _ a Hl) as (E1 & E2 & E3).
    unfold _command_exit.
    destruct (exit_loop sys now gone (map_to_list (_run_processes a)) a) as [[[]|e] a'];
      cbn [fst snd] in *; [|discriminate].
    split; [reflexivity|]. split; [reflexivity|]. split; [exact E2|].
    intros run_id p Hp. split.
    + simpl. rewrite E3.
      rewrite (fold_insert_map (fun k q => killed sys (gone k) q))
        by apply NoDup_fst_map_to_list.
      now rewrite list_to_map_to_list, Hp.
    + intros Hstarted.
      destruct (AgentFacts.kill_started sys false p Hstarted (Hall run_id p Hp))
        as (c & Hc & Hkill & _).
      exists c. split; [exact Hkill|]. simpl. rewrite E2. apply elem_of_app. right.
      apply list_elem_of_omap. exists (run_id, p). split.
      * now apply elem_of_map_to_list.
      * unfold exit_call. simpl. now rewrite Hc.
  - intros run_id p Hp Hbad.
    assert (Hin : In (run_id, p) (map_to_list (_run_processes a)))
      by (apply list_elem_of_In; now apply elem_of_map_to_list).
    pose proof (exit_loop_raises sys now gone _ a run_id p Hin Hbad) as Hraise.
    pose proof (exit_loop_running sys now gone (map_to_list (_run_processes a)) a) as Hrun.
    unfold _command_exit.
    destruct (exit_loop sys now gone (map_to_list (_run_processes a)) a) as [[[]|e] a'];
      cbn [fst snd] in *; [discriminate|].
    injection Hraise as ->. split; [reflexivity | exact Hrun].
Qed.

Lemma exit_kills_every_child_witness :
  (exists c, is_kill c = true
             /\ mkIssued 5 "run-2" c
                ∈ trace (snd (_command_exit Posix 5 (fun _ => false) (Sample.agent 0))))
  /\ fst (_command_exit Windows 5 (fun _ => false) Sample.function_agent)
     = Raise (AttributeError "module 'signal' has no attribute 'SIGKILL'").
Proof.
  split.
  - destruct (proj1 (exit_kills_every_child Posix 5 (fun _ => false) (Sample.agent 0))
                     (fun _ _ _ => eq_refl)) as (_ & _ & _ & Hall).
    exact (proj2 (Hall "run-2" (mkProc true None false None) eq_refl) (or_introl eq_refl)).
  - exact (proj1 (proj2 (exit_kills_every_child Windows 5 (fun _ => false)
                                                Sample.function_agent)
                        "run-1" (mkProc false (Some 4242%Z) false None) eq_refl eq_refl)).
Defined.

End AgentLoopFacts.

(** ** The command line of a run *)

Module AgentCommandFacts.

Import Agent AgentCommand.
Local Open Scope string_scope.

Lemma expand_from (vars : gmap string (list string)) (cs : list string) (acc : list string) :
  fold_left
    (fun command_list c =>
       if Py.startswith c "${" && Py.endswith c "}"
       then (command_list ++ default [] (vars !! between c))%list
       else (command_list ++ [c])%list)
    cs acc
  = (acc ++ expand vars cs)%list.
Proof.
  revert acc; induction cs as [|c cs IH]; intros acc.
  - simpl. now rewrite app_nil_r.
  - unfold expand. cbn [fold_left]. rewrite !IH.
    destruct (Py.startswith c "${" && Py.endswith c "}"); now rewrite <- app_assoc.
Qed.

Lemma expand_app (vars : gmap string (list string)) (cs cs' : list string) :
  expand vars (cs ++ cs') = (expand vars cs ++ expand vars cs')%list.
Proof. unfold expand at 1. rewrite fold_left_app. fold (expand vars cs). apply expand_from. Qed.

Lemma take_length_app (s t : string) : Py.take (String.length s) (s ++ t) = s.
Proof.
  induction s as [|c s IH]; simpl.
  - destruct t; reflexivity.
  - now rewrite IH.
Qed.

Lemma length_append (s t : string) :
  String.length (s ++ t) = (String.length s + String.length t)%nat.
Proof.
  induction s as [|c s IH]; [reflexivity|].
  rewrite PyFacts.append_cons. simpl. now rewrite IH.
Qed.

(** [c[2:-1]] of a macro is its name. *)
Lemma between_macro (name : string) : between ("${" ++ name ++ "}") = name.
Proof.
  unfold between.
  change ("${" ++ name ++ "}") with (String "$" (String "{" (name ++ "}"))).
  cbn [String.length Py.drop]. rewrite length_append. simpl String.length.
  replace (S (S (String.length name + 1)) - 3)%nat with (String.length name) by lia.
  apply take_length_app.
Qed.

Lemma macro_shape (name : string) :
  Py.startswith ("${" ++ name ++ "}") "${" && Py.endswith ("${" ++ name ++ "}") "}" = true.
Proof.
  apply andb_true_iff. split.
  - apply PyFacts.prefix_iff. exists (name ++ "}"). reflexivity.
  - apply PyFacts.endswith_iff. exists ("${" ++ name).
    now rewrite <- !PyFacts.append_assoc.
Qed.

(** X7.  Macros of a configured sweep command: a token [${name}] is
    replaced by the words of the variable [name] (by nothing when there is no
    such variable), whatever [name] is; the tokens around it are expanded on
    their own, in order. *)
Theorem macro_expansion (vars : gmap string (list string)) (name : string)
        (before after : list string) :
  expand vars (before ++ ["${" ++ name ++ "}"] ++ after)
  = (expand vars before ++ default [] (vars !! name) ++ expand vars after)%list.
Proof.
  rewrite !expand_app. do 2 f_equal.
  unfold expand. cbn [fold_left]. rewrite macro_shape, between_macro. reflexivity.
Qed.

(** X8.  With no command configured for the sweep, a run is started as
    [/usr/bin/env python <program> --<param>=<value> ...], one flag for each
    parameter in the order of the command's arguments; on Windows the line
    starts at [python]. *)
Theorem default_command_line (program : string) (flags_list : list (string * string))
        (flags_json sweep_id run_id : string) :
  command_list Posix [] program flags_list flags_json sweep_id run_id
  = "/usr/bin/env" :: "python" :: program
      :: map (fun pv => "--" ++ fst pv ++ "=" ++ snd pv) flags_list
  /\ command_list Windows [] program flags_list flags_json sweep_id run_id
     = "python" :: program
         :: map (fun pv => "--" ++ fst pv ++ "=" ++ snd pv) flags_list.
Proof.
  assert (Hflags : flags flags_list
                   = map (fun pv => "--" ++ fst pv ++ "=" ++ snd pv) flags_list).
  { unfold flags, flags_no_hyphens. rewrite map_map. reflexivity. }
  rewrite <- Hflags.
  split; cbv - [flags]; reflexivity.
Qed.

End AgentCommandFacts.

(** ** More about the file system *)

Module FSMoreFacts.

Lemma get_set_ne {A} (k k' : string) (v : A) (d : PyDict.t A) :
  k <> k' -> PyDict.get k' (PyDict.set k v d) = PyDict.get k' d.
Proof.
  intros Hne. induction d as [|[k0 v0] d IH]; simpl.
  - destruct (String.eqb_spec k k'); [contradiction | reflexivity].
  - destruct (String.eqb_spec k0 k) as [->|Hk]; simpl.
    + destruct (String.eqb_spec k k'); [contradiction | reflexivity].
    + destruct (String.eqb_spec k0 k'); [reflexivity | exact IH].
Qed.

Lemma get_app {A} (k : string) (d d' : PyDict.t A) :
  PyDict.get k (d ++ d')
  = match PyDict.get k d with Some v => Some v | None => PyDict.get k d' end.
Proof.
  induction d as [|[k0 v0] d IH]; simpl; [reflexivity|].
  destruct (String.eqb k0 k); [reflexivity | exact IH].
Qed.

Lemma lookup_chain_no_file (cs ds : list string) (c : string) :
  FS.lookup (FS.chain cs) ds <> Some (FS.File c).
Proof.
  revert ds; induction cs as [|c0 cs IH]; intros [|d ds]; simpl; try discriminate.
  destruct (String.eqb c0 d); [apply IH | discriminate].
Qed.

(** [mkdirs] makes directories only: a regular file found afterwards was
    there before. *)
Lemma mkdirs_no_new_file (cs ds : list string) (n n' : FS.node) (c : string) :
  FS.mkdirs n cs = Some n' ->
  FS.lookup n' ds = Some (FS.File c) -> FS.lookup n ds = Some (FS.File c).
Proof.
  revert n n' ds; induction cs as [|c0 cs IH]; intros n n' ds.
  - destruct n as [content|ch]; simpl; [discriminate|]. now intros [= <-].
  - destruct n as [content|ch]; simpl; [discriminate|].
    destruct (PyDict.get c0 ch) as [n1|] eqn:E.
    + destruct (FS.mkdirs n1 cs) as [n1'|] eqn:E1; [|discriminate].
      intros [= <-]. destruct ds as [|d ds]; simpl; [discriminate|].
      destruct (String.eqb_spec c0 d) as [->|Hne].
      * rewrite FSFacts.get_set_eq, E. now apply IH.
      * now rewrite get_set_ne.
    + intros [= <-]. destruct ds as [|d ds]; simpl; [discriminate|].
      rewrite get_app. destruct (PyDict.get d ch); [trivial|].
      simpl. destruct (String.eqb c0 d); [|discriminate].
      intros Hc. now apply lookup_chain_no_file in Hc.
Qed.

Lemma mkdir_exists_ok_cwd (p : string) (fs fs' : FS.t) (r : result unit) :
  Artifacts.mkdir_exists_ok p fs = (r, fs') -> FS.cwd fs' = FS.cwd fs.
Proof.
  unfold Artifacts.mkdir_exists_ok.
  destruct (String.eqb p ""); [now intros [= _ <-]|].
  destruct (FS.mkdirs (FS.root fs) (FS.components fs p)); now intros [= _ <-].
Qed.

Lemma mkdir_exists_ok_read (p q : string) (fs fs' : FS.t) (r : result unit) (c : string) :
  Artifacts.mkdir_exists_ok p fs = (r, fs') ->
  FS.read fs' q = Ok c -> FS.read fs q = Ok c.
Proof.
  unfold Artifacts.mkdir_exists_ok.
  destruct (String.eqb p ""); [now intros [= _ <-]|].
  destruct (FS.mkdirs (FS.root fs) (FS.components fs p)) as [n'|] eqn:E;
    [|now intros [= _ <-]].
  intros [= _ <-]. unfold FS.read, FS.stat, FS.components. simpl.
  destruct (String.eqb q ""); [discriminate|].
  set (ds := fold_left FS.norm_step (Py.split "/" q)
                       (if Py.startswith q "/" then [] else FS.cwd fs)).
  destruct (FS.lookup n' ds) as [[c'|ch]|] eqn:El; try discriminate.
  intros [= ->]. now rewrite (mkdirs_no_new_file _ _ _ _ _ E El).
Qed.

Lemma write_node_lookup (cs : list string) (n n' : FS.node) (c : string) :
  FS.write_node n cs c = Some n' -> FS.lookup n' cs = Some (FS.File c).
Proof.
  revert n n'; induction cs as [|c0 cs IH]; intros n n'.
  - destruct n; discriminate.
  - destruct n as [content|ch]; [discriminate|].
    destruct cs as [|c1 cs].
    + simpl. destruct (PyDict.get c0 ch) as [[x|x]|]; try discriminate;
        intros [= <-]; simpl; now rewrite FSFacts.get_set_eq.
    + change (FS.write_node (FS.Dir ch) (c0 :: c1 :: cs) c)
        with (match PyDict.get c0 ch with
              | Some n1 =>
                  match FS.write_node n1 (c1 :: cs) c with
                  | Some n'' => Some (FS.Dir (PyDict.set c0 n'' ch))
                  | None => None
                  end
              | None => None
              end).
      destruct (PyDict.get c0 ch) as [n1|]; [|discriminate].
      destruct (FS.write_node n1 (c1 :: cs) c) as [n1'|] eqn:E1; [|discriminate].
      intros [= <-]. change (FS.lookup (FS.Dir (PyDict.set c0 n1' ch)) (c0 :: c1 :: cs))
        with (match PyDict.get c0 (PyDict.set c0 n1' ch) with
              | Some n2 => FS.lookup n2 (c1 :: cs)
              | None => None
              end).
      rewrite FSFacts.get_set_eq. now apply (IH n1).
Qed.

(** What was written is what is read. *)
Lemma write_read (fs fs' : FS.t) (p c : string) :
  FS.write fs p c = Ok fs' -> FS.read fs' p = Ok c /\ FS.cwd fs' = FS.cwd fs.
Proof.
  unfold FS.write, FS.read, FS.stat. destruct (String.eqb p ""); [discriminate|].
  destruct (FS.write_node (FS.root fs) (FS.components fs p) c) as [r|] eqn:E; [|discriminate].
  intros [= <-]. unfold FS.components in *. simpl.
  now rewrite (write_node_lookup _ _ _ _ E).
Qed.

Lemma read_exists (fs : FS.t) (p c : string) :
  FS.read fs p = Ok c -> FS.exists_ fs p = true /\ FS.isfile fs p = true /\ FS.isdir fs p = false.
Proof.
  unfold FS.read, FS.exists_, FS.isfile, FS.isdir.
  destruct (FS.stat fs p) as [[c'|ch]|]; try discriminate. auto.
Qed.

Lemma copyfile_read (src dst : string) (fs fs' : FS.t) :
  Artifacts.copyfile src dst fs = (Ok tt, fs') ->
  exists c, FS.read fs src = Ok c /\ FS.read fs' dst = Ok c.
Proof.
  unfold Artifacts.copyfile. destruct (FS.read fs src) as [c|e] eqn:Er; [|discriminate].
  destruct (FS.write fs dst c) as [fs1|e] eqn:Ew; [|discriminate].
  intros [= <-]. exists c. split; [reflexivity|]. now apply write_read in Ew.
Qed.

End FSMoreFacts.

(** ** Creating an artifact *)

Module ArtifactInitFacts.

Import Artifacts ArtifactsMore.
Local Open Scope string_scope.


Section Creation.

Context `{Host}.


End Creation.


End ArtifactInitFacts.

(** ** [new_file] *)

Module NewFileFacts.

Import Artifacts ArtifactsMore.
Local Open Scope string_scope.

Lemma ensure_can_add_Ok (w w' : world) (u : unit) :
  _ensure_can_add w = (Ok u, w') -> w' = w /\ _final (art w) = false.
Proof.
  unfold _ensure_can_add, bind, get_art, raise, ret.
  destruct (_final (art w)); [discriminate|]. now intros [= _ <-].
Qed.

Lemma lift_fs_Ok {A} (m : M FS.t A) (w w' : world) (a : A) :
  lift_fs m w = (Ok a, w') ->
  art w' = art w /\ m (fs w) = (Ok a, fs w').
Proof.
  unfold lift_fs. destruct (m (fs w)) as [r fs1]. intros [= -> <-]. auto.
Qed.

(** What a successful [new_file] has done. *)
Lemma new_file_Ok (name : string) (mode : open_mode) (w w' : world) (p : string) :
  new_file name mode w = (Ok p, w') ->
  let path := OsPath.join2 (artifact_dir (art w)) (lstrip_slash name) in
  p = path
  /\ _final (art w) = false
  /\ FS.exists_ (fs w) path = false
  /\ art w' = set_added_new (art w)
  /\ exists fs1,
      mkdir_exists_ok (OsPath.dirname path) (fs w) = (Ok tt, fs1)
      /\ match mode with
         | Creating => FS.write fs1 path "" = Ok (fs w')
         | Reading => fs w' = fs1 /\ exists c, FS.read fs1 path = Ok c
         end.
Proof.
  intros Hn path. unfold new_file in Hn.
  apply MonadFacts.bind_Ok in Hn as (u & w0 & Hens & Hn).
  apply ensure_can_add_Ok in Hens as [-> Hfinal].
  apply MonadFacts.bind_Ok in Hn as (a & w0 & Ha & Hn).
  unfold get_art in Ha. injection Ha as <- <-.
  apply MonadFacts.bind_Ok in Hn as (w0 & w1 & Hw & Hn).
  unfold get_world in Hw. injection Hw as <- <-. fold path in Hn.
  destruct (FS.exists_ (fs w) path) eqn:Eex; [discriminate|].
  apply MonadFacts.bind_Ok in Hn as ([] & w1 & Hmk & Hn).
  apply lift_fs_Ok in Hmk as [Hart1 Hmk].
  apply MonadFacts.bind_Ok in Hn as ([] & w2 & Hmod & Hn).
  unfold modify_art in Hmod. injection Hmod as <-.
  destruct mode; unfold open_ in Hn.
  - apply MonadFacts.bind_Ok in Hn as (w2 & w3 & Hw & Hn).
    unfold get_world in Hw. injection Hw as <- <-.
    apply MonadFacts.bind_Ok in Hn as (fs' & w3 & Hwr & Hn).
    unfold of_result in Hwr. injection Hwr as Hwr <-.
    apply MonadFacts.bind_Ok in Hn as ([] & w3 & Hput & Hn).
    unfold put_world in Hput. injection Hput as <-.
    unfold ret in Hn. injection Hn as <- <-. simpl in *.
    repeat split; try congruence. exists (fs w1). split; [exact Hmk | exact Hwr].
  - apply MonadFacts.bind_Ok in Hn as (w2 & w3 & Hw & Hn).
    unfold get_world in Hw. injection Hw as <- <-.
    apply MonadFacts.bind_Ok in Hn as (c & w3 & Hrd & Hn).
    unfold of_result in Hrd. injection Hrd as Hrd <-.
    unfold ret in Hn. injection Hn as <- <-. simpl in *.
    repeat split; try congruence. exists (fs w1). repeat split; eauto.
Qed.

(** X10.  A name is given out once: when [new_file(name)] has returned
    the (empty) file it made under the artifact's directory, any further
    [new_file] with that name raises [ValueError] and changes nothing. *)
Theorem new_file_gives_a_name_once (name : string) (w w' : world) (p : string) :
  new_file name Creating w = (Ok p, w') ->
  p = OsPath.join2 (artifact_dir (art w)) (lstrip_slash name)
  /\ FS.read (fs w') p = Ok ""
  /\ _added_new (art w') = true
  /\ forall mode, new_file name mode w' = (Raise (already_exists name), w').
Proof.
  intros Hn. destruct (new_file_Ok _ _ _ _ _ Hn) as (Hp & Hfinal & _ & Hart & fs1 & _ & Hwr).
  apply FSMoreFacts.write_read in Hwr as [Hrd _].
  rewrite Hp. split; [reflexivity|]. split; [exact Hrd|]. split; [now rewrite Hart|].
  intros mode.
  assert (Hens : _ensure_can_add w' = (Ok tt, w')).
  { unfold _ensure_can_add, bind, get_art, ret. rewrite Hart. simpl. now rewrite Hfinal. }
  unfold new_file, bind. rewrite Hens. unfold get_art, get_world.
  rewrite Hart. simpl. apply FSMoreFacts.read_exists in Hrd as [-> _]. reflexivity.
Qed.

(** X11.  [new_file] with a mode that reads never returns a file: the name
    must be new, so there is nothing to open. *)
Theorem new_file_cannot_read (name : string) (w w' : world) (r : result string) :
  new_file name Reading w = (r, w') -> exists e, r = Raise e.
Proof.
  intros Hn. destruct r as [p|e]; [|eauto]. exfalso.
  destruct (new_file_Ok _ _ _ _ _ Hn) as (_ & _ & Hex & _ & fs1 & Hmk & _ & c & Hrd).
  apply (FSMoreFacts.mkdir_exists_ok_read _ _ _ _ _ _ Hmk) in Hrd.
  apply FSMoreFacts.read_exists in Hrd as [Hex' _]. congruence.
Qed.

Lemma new_file_gives_a_name_once_witness :
  exists w',
    new_file "notes.txt" Creating Sample.staged_world
    = (Ok "/stage/notes.txt", w')
    /\ new_file "notes.txt" Creating w'
       = (Raise (already_exists "notes.txt"), w').
Proof.
  eexists. split; [vm_compute; reflexivity|].
  refine (proj2 (proj2 (proj2 (new_file_gives_a_name_once
                                 "notes.txt" Sample.staged_world _
                                 "/stage/notes.txt" _))) Creating).
  vm_compute. reflexivity.
Defined.

Lemma new_file_cannot_read_witness :
  exists e w',
    new_file "notes.txt" Reading Sample.staged_world = (Raise e, w').
Proof.
  destruct (new_file "notes.txt" Reading Sample.staged_world)
    as [r w'] eqn:E.
  destruct (new_file_cannot_read "notes.txt" Sample.staged_world w' r E)
    as [e ->].
  now exists e, w'.
Defined.

End NewFileFacts.

(** ** [LocalFileHandler]: [load_path], and [store_path] followed by it *)

Module LoadPathFacts.

Import Artifacts ArtifactsMore.
Local Open Scope string_scope.

Section Loading.

Context `{Outside}.

Lemma check_md5_obj_path_Ok (cache_dir d : string) (size : option Z) (fs fs1 : FS.t)
      (p : string) (hit : bool) :
  check_md5_obj_path cache_dir d size fs = (Ok (p, hit), fs1) ->
  (hit = true /\ fs1 = fs /\ cached fs p size = true)
  \/ (hit = false /\ mkdir_exists_ok (OsPath.dirname p) fs = (Ok tt, fs1)).
Proof.
  unfold check_md5_obj_path, bind, of_result, get_world, ret.
  destruct (b64decode d) as [raw|e]; [|discriminate].
  match goal with |- context [cached fs ?q size] => destruct (cached fs q size) eqn:Ec end.
  - intros [= <- <- <-]. left. auto.
  - match goal with
    | |- context [mkdir_exists_ok ?q fs] => destruct (mkdir_exists_ok q fs) as [[[]|e] fs2] eqn:Em
    end; [|discriminate].
    intros [= <- <- <-]. right. auto.
Qed.

Lemma md5_file_b64_Ok (fs : FS.t) (p d : string) :
  md5_file_b64 fs p = Ok d -> exists c, FS.read fs p = Ok c /\ d = md5_b64 c.
Proof.
  unfold md5_file_b64. destruct (FS.read fs p) as [c|e]; [|discriminate].
  intros [= <-]. eauto.
Qed.

(** What a [load_path] that returns has done. *)
Lemma load_path_Ok (cache_dir : string) (e : ArtifactManifestEntry)
      (fs fs' : FS.t) (p : string) :
  LocalFileHandler_load_path cache_dir e fs = (Ok p, fs') ->
  exists d local_path,
    ref_local_path e = Ok local_path
    /\ digest e = Some d
    /\ ((cached fs p (size e) = true /\ fs' = fs)
        \/ exists content target,
            FS.read fs local_path = Ok content
            /\ md5_b64 content = d
            /\ (target = p \/ target = OsPath.join2 p (OsPath.basename local_path))
            /\ FS.read fs' target = Ok content).
Proof.
  unfold LocalFileHandler_load_path. intros Hl.
  apply MonadFacts.bind_Ok in Hl as (local_path & fs0 & Hlp & Hl).
  unfold of_result in Hlp. injection Hlp as Hlp <-.
  apply MonadFacts.bind_Ok in Hl as (fs0 & fs0' & Hw & Hl).
  unfold get_world in Hw. injection Hw as <- <-.
  destruct (negb (FS.exists_ fs local_path)); [discriminate|].
  destruct (digest e) as [d|]; [|discriminate]. exists d, local_path.
  split; [exact Hlp|]. split; [reflexivity|].
  apply MonadFacts.bind_Ok in Hl as ([path hit] & fs1 & Hck & Hl).
  apply check_md5_obj_path_Ok in Hck as [(-> & -> & Hc) | (-> & Hmk1)].
  { unfold ret in Hl. injection Hl as <- <-. left. auto. }
  right.
  apply MonadFacts.bind_Ok in Hl as (fs1' & fs1'' & Hw & Hl).
  unfold get_world in Hw. injection Hw as <- <-.
  apply MonadFacts.bind_Ok in Hl as (md5 & fs1' & Hmd5 & Hl).
  unfold of_result in Hmd5. injection Hmd5 as Hmd5 <-.
  apply md5_file_b64_Ok in Hmd5 as (content & Hrd1 & ->).
  destruct (String.eqb_spec (md5_b64 content) d) as [Hd|Hd]; [|discriminate]. simpl in Hl.
  apply MonadFacts.bind_Ok in Hl as ([] & fs2 & Hmk2 & Hl).
  apply MonadFacts.bind_Ok in Hl as (dst & fs3 & Hcp & Hl).
  unfold ret in Hl. injection Hl as <- <-.
  unfold shutil_copy in Hcp.
  apply MonadFacts.bind_Ok in Hcp as (fs2' & fs2'' & Hw & Hcp).
  unfold get_world in Hw. injection Hw as <- <-.
  match type of Hcp with
  | (if samefile _ _ ?t then _ else _) _ = _ => set (target := t) in *
  end.
  destruct (samefile fs2 local_path target); [discriminate|].
  apply MonadFacts.bind_Ok in Hcp as ([] & fs3' & Hcp & Hret).
  unfold ret in Hret. injection Hret as _ <-.
  apply FSMoreFacts.copyfile_read in Hcp as (c2 & Hrd2 & Hrd3).
  apply (FSMoreFacts.mkdir_exists_ok_read _ _ _ _ _ _ Hmk2) in Hrd2.
  assert (c2 = content) as -> by congruence.
  exists content, target. split; [|split; [|split]].
  - exact (FSMoreFacts.mkdir_exists_ok_read _ _ _ _ _ _ Hmk1 Hrd1).
  - exact Hd.
  - subst target. destruct (FS.isdir fs2 path); [now right | now left].
  - exact Hrd3.
Qed.

(** X12.  [LocalFileHandler.load_path] gives out a path only for a
    verified copy: when it returns, [urlparse] has accepted the entry's
    reference, and either the cache already held a regular file of the
    entry's size at the path (and nothing was touched), or the referenced
    file was read, its MD5 is the entry's digest, and the copy stands at the
    path returned (inside it, under the file's own name, should the path be a
    directory). *)
Theorem load_path_is_verified (cache_dir : string) (e : ArtifactManifestEntry)
        (fs fs' : FS.t) (p : string) :
  LocalFileHandler_load_path cache_dir e fs = (Ok p, fs') ->
  exists d local_path,
    ref_local_path e = Ok local_path
    /\ digest e = Some d
    /\ ((cached fs p (size e) = true /\ fs' = fs)
        \/ exists content target,
            FS.read fs local_path = Ok content
            /\ md5_b64 content = d
            /\ (target = p \/ target = OsPath.join2 p (OsPath.basename local_path))
            /\ FS.read fs' target = Ok content).
Proof. apply load_path_Ok. Qed.

(** X13.  A checksummed [file://] reference to a regular file, stored and
    loaded again.  With a URI that [urlparse] accepts, [store_path] gives one
    entry with the file's length and MD5, named by [name] or the file's base
    name; when [load_path] of that entry returns, what stands at the path is
    the content of the file, or the cache held a file of that length there
    already.  With a URI that [urlparse] refuses, [store_path] raises the
    [ValueError] of [urlparse]. *)
Theorem local_reference_round_trip (fs : FS.t) (uri : string) (name : option string)
        (max_objects : option Z) :
  (forall (u : url) (content : string),
      urlparse uri = Parsed u ->
      let local_path := netloc u ++ url_path u in
      FS.read fs local_path = Ok content ->
      exists e,
        LocalFileHandler_store_path fs uri name true max_objects = Ok [e]
        /\ path e = or_else name (OsPath.basename local_path)
        /\ ref e = Some uri
        /\ digest e = Some (md5_b64 content)
        /\ size e = Some (Z.of_nat (String.length content))
        /\ forall cache_dir p fs',
            LocalFileHandler_load_path cache_dir e fs = (Ok p, fs') ->
            (cached fs p (size e) = true /\ fs' = fs)
            \/ exists target,
                (target = p \/ target = OsPath.join2 p (OsPath.basename local_path))
                /\ FS.read fs' target = Ok content)
  /\ (forall msg : string,
         urlparse uri = Invalid msg ->
         LocalFileHandler_store_path fs uri name true max_objects = Raise (ValueError msg)).
Proof.
  split; [|intros msg; apply ArtifactFacts.local_store_path_invalid].
  intros u content Hparse local_path Hrd.
  exists (mkEntry (or_else name (OsPath.basename local_path)) (Some uri)
                  (Some (md5_b64 content)) None
                  (Some (Z.of_nat (String.length content))) [] None).
  split; [|repeat split].
  - unfold LocalFileHandler_store_path. rewrite Hparse. fold local_path.
    destruct (FSMoreFacts.read_exists _ _ _ Hrd) as (_ & Hfile & Hdir).
    rewrite Hdir, Hfile. simpl.
    unfold md5_file_b64, FS.getsize. rewrite Hrd.
    unfold FS.read in Hrd. destruct (FS.stat fs local_path) as [[c|ch]|]; try discriminate.
    injection Hrd as ->. reflexivity.
  - intros cache_dir p fs' Hl.
    destruct (load_path_Ok _ _ _ _ _ Hl) as (d & lp & Hlp & Hd & [Hhit | Hmiss]).
    + now left.
    + right. destruct Hmiss as (c & target & Hrd' & _ & Htarget & Hread).
      unfold ref_local_path in Hlp. cbn [ref] in Hlp. rewrite Hparse in Hlp.
      injection Hlp as <-. fold local_path in Hrd', Htarget.
      assert (c = content) as -> by congruence. eauto.
Qed.

End Loading.

Lemma load_path_is_verified_witness :
  let e := mkEntry "model.bin" (Some "file:///data/model.bin") (Some "md5b64(weights)")
                   None (Some 7%Z) [] None in
  exists fs',
    LocalFileHandler_load_path (H := Sample.outside) "/cache" e SampleMore.fs_data
    = (Ok "/cache/obj/md5/6d/6435623634287765696768747329", fs')
    /\ exists d, digest e = Some d.
Proof.
  intros e. eexists. split; [vm_compute; reflexivity|].
  destruct (load_path_is_verified (H := Sample.outside) "/cache" e SampleMore.fs_data _ _
                                  ltac:(vm_compute; reflexivity)) as (d & lp & _ & Hd & _).
  now exists d.
Defined.

Lemma local_reference_round_trip_witness :
  exists e,
    LocalFileHandler_store_path (H := Sample.outside) SampleMore.fs_data
                                "file:///data/model.bin" None true None = Ok [e]
    /\ digest e = Some (Sample.md5_b64 "weights").
Proof.
  destruct (proj1 (local_reference_round_trip (H := Sample.outside) SampleMore.fs_data
                                              "file:///data/model.bin" None None)
                  (mkUrl "file" "" "/data/model.bin") "weights"
                  ltac:(vm_compute; reflexivity)
                  ltac:(vm_compute; reflexivity))
    as (e & Hs & _ & _ & Hd & _).
  exists e. split; [exact Hs | exact Hd].
Defined.

End LoadPathFacts.

(** ** The digest of a finalized artifact *)

Module DigestFacts.

Import Artifacts ArtifactsMore.
Local Open Scope string_scope.

Lemma insert_by_key_digests (x : string * ArtifactManifestEntry)
      (l : list (string * ArtifactManifestEntry)) :
  digests (insert_by_key x l) = insert_by_key (fst x, digest (snd x)) (digests l).
Proof.
  induction l as [|y l IH]; [reflexivity|].
  simpl. destruct (String.leb (fst x) (fst y)); [reflexivity|].
  simpl. now rewrite <- IH.
Qed.

Lemma sorted_by_key_digests (l : list (string * ArtifactManifestEntry)) :
  digests (sorted_by_key l) = sorted_by_key (digests l).
Proof.
  induction l as [|x l IH]; [reflexivity|].
  simpl. now rewrite insert_by_key_digests, IH.
Qed.

Lemma digest_lines_digests (l l' : list (string * ArtifactManifestEntry)) :
  digests l = digests l' -> digest_lines l = digest_lines l'.
Proof.
  revert l'; induction l as [|[p e] l IH]; intros [|[p' e'] l']; try discriminate.
  - reflexivity.
  - simpl. intros [= -> -> Hl]. now rewrite (IH l' Hl).
Qed.

Lemma set_digests (k : string) (e e' : ArtifactManifestEntry)
      (m : PyDict.t ArtifactManifestEntry) :
  PyDict.get k m = Some e -> digest e' = digest e ->
  digests (PyDict.set k e' m) = digests m.
Proof.
  intros Hget Hd. induction m as [|[k0 e0] m IH]; [discriminate|].
  simpl in Hget |- *. destruct (String.eqb_spec k0 k) as [->|Hne].
  - injection Hget as ->. simpl. now rewrite Hd.
  - simpl. now rewrite IH.
Qed.

Section Digest.

Context `{Outside}.

(** The digest reads the paths and the digests of the entries, nothing
    else. *)
Lemma manifest_digest_digests (m m' : PyDict.t ArtifactManifestEntry) :
  digests m = digests m' -> manifest_digest m = manifest_digest m'.
Proof.
  intros Hd. rewrite !ManifestFacts.manifest_digest_sorted. do 3 f_equal.
  apply digest_lines_digests. unfold PyDict.items.
  now rewrite !sorted_by_key_digests, Hd.
Qed.

(** Moving an entry's file into the cache leaves the digest alone. *)
Lemma remap_entry_digests (key : string) (w : world) :
  digests (_manifest (art (snd (remap_entry key w)))) = digests (_manifest (art w))
  /\ _digest (art (snd (remap_entry key w))) = _digest (art w).
Proof.
  unfold remap_entry, bind, get_art, get_world, ret, raise, modify_art. simpl.
  destruct (PyDict.get key (_manifest (art w))) as [entry|] eqn:Eget; [|auto].
  destruct (local_path entry) as [lp|]; [|auto].
  destruct (negb (Py.startswith lp (artifact_dir (art w)))); [auto|].
  destruct (digest entry) as [d|] eqn:Ed; [|auto].
  unfold lift_fs.
  destruct (check_md5_obj_path (cache_dir (art w)) d (size entry) (fs w))
    as [[[cache_path hit]|e] fs1]; [|auto].
  destruct hit.
  - simpl. split; [|reflexivity]. now apply (set_digests key entry).
  - match goal with
    | |- context [copyfile ?a ?b ?c] => destruct (copyfile a b c) as [[[]|e] fs2]
    end; simpl; [|auto].
    split; [|reflexivity]. now apply (set_digests key entry).
Qed.

Lemma for_each_digests {A} (body : A -> M world unit) (l : list A) :
  (forall x w,
      digests (_manifest (art (snd (body x w)))) = digests (_manifest (art w))
      /\ _digest (art (snd (body x w))) = _digest (art w)) ->
  forall w,
    digests (_manifest (art (snd (for_each l body w)))) = digests (_manifest (art w))
    /\ _digest (art (snd (for_each l body w))) = _digest (art w).
Proof.
  intros Hbody. induction l as [|x l IH]; intros w; [auto|].
  simpl. unfold bind. specialize (Hbody x w).
  destruct (body x w) as [[u|e] w1]; simpl in *; [|exact Hbody].
  destruct (IH w1) as [-> ->]. exact Hbody.
Qed.

Lemma finalize_digest (w w' : world) (r : option (list ArtifactManifestEntry)) :
  _final (art w) = false ->
  finalize w = (Ok r, w') ->
  _digest (art w') = Some (manifest_digest (_manifest (art w'))).
Proof.
  unfold finalize. intros Efinal Hf.
  apply MonadFacts.bind_Ok in Hf as (a & w0 & Ha & Hf).
  unfold get_art in Ha. injection Ha as <- <-. rewrite Efinal in Hf.
  apply MonadFacts.bind_Ok in Hf as (u1 & w1 & _ & Hf).
  apply MonadFacts.bind_Ok in Hf as (u2 & w2 & H2 & Hf).
  apply MonadFacts.bind_Ok in Hf as (u3 & w3 & H3 & Hf).
  apply MonadFacts.bind_Ok in Hf as (u4 & w4 & H4 & Hf).
  unfold ret in Hf. injection Hf as _ <-.
  unfold modify_art in H2, H3. injection H2 as _ <-. injection H3 as _ <-.
  destruct (_added_new (art w)).
  - unfold bind, get_art in H4. simpl in H4.
    match type of H4 with
    | for_each ?l ?body ?w0 = _ =>
        destruct (for_each_digests body l remap_entry_digests w0) as [Hm Hd];
        rewrite H4 in Hm, Hd
    end.
    simpl in Hm, Hd. rewrite Hd. f_equal. now apply manifest_digest_digests.
  - unfold ret in H4. injection H4 as _ <-. reflexivity.
Qed.

(** X14.  The property [digest] of an artifact that was not final: it
    finalizes the artifact and returns the digest of the manifest as it then
    stands, the entries of staged files moved to the cache included; asked
    again, [digest] and [manifest] return the same and change nothing. *)
Theorem digest_is_of_the_final_manifest (w w' : world) (d : option string) :
  _final (art w) = false ->
  Artifact_digest w = (Ok d, w') ->
  d = Some (manifest_digest (_manifest (art w')))
  /\ _final (art w') = true
  /\ Artifact_digest w' = (Ok d, w')
  /\ Artifact_manifest w' = (Ok (_manifest (art w')), w').
Proof.
  intros Efinal Hd. unfold Artifact_digest in Hd.
  apply MonadFacts.bind_Ok in Hd as (r & w1 & Hf & Hd).
  unfold bind, get_art, ret in Hd. injection Hd as <- <-.
  pose proof (finalize_digest _ _ _ Efinal Hf) as Hdigest.
  pose proof (ArtifactFacts.finalize_sets_final _ _ _ Hf) as Hfin.
  split; [exact Hdigest|]. split; [exact Hfin|].
  unfold Artifact_digest, Artifact_manifest, finalize, bind, get_art, ret.
  rewrite Hfin. split; reflexivity.
Qed.

End Digest.

Lemma digest_is_of_the_final_manifest_witness :
  exists d w',
    Artifact_digest (H := Sample.outside) Sample.staged_world = (Ok d, w')
    /\ d = Some (manifest_digest (H := Sample.outside) (_manifest (art w'))).
Proof.
  eexists _, _. split; [vm_compute; reflexivity|].
  refine (proj1 (digest_is_of_the_final_manifest (H := Sample.outside)
                   Sample.staged_world _ _ eq_refl _)).
  vm_compute. reflexivity.
Defined.

End DigestFacts.

(** ** References with a scheme that has no handler *)

Module TrackingFacts.

Import Artifacts ArtifactsMore.
Local Open Scope string_scope.

Section Tracking.

Context `{Outside}.

Lemma policy_handler_unknown (s : string) :
  s <> "s3" -> s <> "gs" -> s <> "http" -> s <> "https" -> s <> "file" ->
  _handlers policy_handler !! Some s = None.
Proof.
  intros H1 H2 H3 H4 H5. unfold policy_handler, MultiHandler_init. simpl.
  rewrite !lookup_insert_ne by congruence. apply lookup_empty.
Qed.

(** X15.  A reference that [urlparse] accepts and whose scheme is none of
    [s3], [gs], [http], [https] and [file] is only tracked: with no name
    given [store_reference] raises [ValueError]; with a name it returns one
    entry under that name (under the URI's path without its first character
    when the name is empty) whose reference and digest are the URI, whether a
    checksum was asked for or not, and without looking at any file.  A
    reference that [urlparse] refuses raises the [ValueError] of
    [urlparse]. *)
Theorem unknown_scheme_is_tracked (fs : FS.t) (uri : string) (name : option string)
        (checksum : bool) (max_objects : option Z) :
  (forall u : url,
      urlparse uri = Parsed u ->
      let s := scheme u in
      s <> "s3" -> s <> "gs" -> s <> "http" -> s <> "https" -> s <> "file" ->
      store_reference fs uri name checksum max_objects
      = match name with
        | None =>
            Raise (ValueError ("You must pass name=" ++ dquote ++ "<entry_name>" ++ dquote
                               ++ " when tracking references with unknown schemes. ref: "
                               ++ uri))
        | Some n =>
            Ok [unchecked_entry (if String.eqb n "" then Py.drop 1 (url_path u) else n) uri]
        end)
  /\ (forall msg : string,
         urlparse uri = Invalid msg ->
         store_reference fs uri name checksum max_objects = Raise (ValueError msg)).
Proof.
  split; [|intros msg; apply ArtifactFacts.store_path_invalid].
  intros u Hparse s H1 H2 H3 H4 H5. unfold store_reference.
  rewrite (ArtifactFacts.store_path_unregistered _ _ _ u)
    by (exact Hparse || now apply policy_handler_unknown).
  simpl. unfold TrackingHandler_store_path. rewrite Hparse.
  destruct name as [n|]; reflexivity.
Qed.

End Tracking.

Lemma unknown_scheme_is_tracked_witness :
  store_reference (H := Sample.outside) Sample.fs_in_d "nfs://share/data/x.bin"
                  (Some "x.bin") true None
  = Ok [unchecked_entry "x.bin" "nfs://share/data/x.bin"].
Proof.
  apply (proj1 (unknown_scheme_is_tracked (H := Sample.outside) Sample.fs_in_d
                                          "nfs://share/data/x.bin" (Some "x.bin") true None)
               (mkUrl "nfs" "share" "/data/x.bin"));
    [vm_compute; reflexivity | vm_compute; discriminate ..].
Defined.

End TrackingFacts.

(** ** The manifest written as JSON and read back *)

Module ManifestJsonFacts.

Import Artifacts ArtifactsMore ManifestJson.
Local Open Scope string_scope.

Lemma keyed_values (m : PyDict.t ArtifactManifestEntry) :
  keyed_by_path m -> map (fun e => (path e, e)) (PyDict.values m) = m.
Proof.
  unfold PyDict.values. induction 1 as [|[k e] m Hk Hm IH]; [reflexivity|].
  simpl in *. now rewrite IH, Hk.
Qed.

Lemma keyed_perm (m m' : PyDict.t ArtifactManifestEntry) :
  Permutation m m' -> keyed_by_path m -> keyed_by_path m'.
Proof.
  unfold keyed_by_path. rewrite !List.Forall_forall. intros Hp Hm kv Hin.
  apply Hm. eapply Permutation_in; [symmetry; exact Hp | exact Hin].
Qed.

Lemma NoDup_keys_sorted {A} (m : PyDict.t A) :
  NoDup (PyDict.keys m) -> NoDup (map fst (sorted_by_key m)).
Proof.
  unfold PyDict.keys. intros Hnd.
  now rewrite (Permutation_map fst (SortFacts.sorted_by_key_perm m)).
Qed.

Lemma map_fst_relabel {A B} (g : A -> B) (l : list (string * A)) :
  map fst (map (fun kv => (fst kv, g (snd kv))) l) = map fst l.
Proof. rewrite map_map. reflexivity. Qed.

(** The loop of [to_manifest_json] over entries that stand under their
    paths. *)
Lemma contents_fold (l : list (string * ArtifactManifestEntry)) (acc : PyDict.t json_entry) :
  keyed_by_path l ->
  fold_left (fun contents entry => PyDict.set (path entry) (to_json_entry entry) contents)
            (map snd l) acc
  = fold_left (fun d kv => PyDict.set (fst kv) (snd kv) d)
              (map (fun kv => (fst kv, to_json_entry (snd kv))) l) acc.
Proof.
  intros Hk. revert acc. induction Hk as [|[k e] l Hke Hl IH]; intros acc; [reflexivity|].
  simpl in *. rewrite Hke. apply IH.
Qed.

Lemma default_extra (x : PyDict.t string) :
  default [] (match x with [] => None | y :: x' => Some (y :: x') end) = x.
Proof. destruct x; reflexivity. Qed.

(** The comprehension of [from_manifest_json] over what [to_manifest_json]
    wrote. *)
Lemma entries_of_written (l : list (string * ArtifactManifestEntry))
      (acc : PyDict.t ArtifactManifestEntry) :
  keyed_by_path l ->
  entries_of (map (fun kv => (fst kv, to_json_entry (snd kv))) l) acc
  = Ok (fold_left (fun d kv => PyDict.set (fst kv) (snd kv) d)
                  (map (fun kv => (fst kv, as_stored (snd kv))) l) acc).
Proof.
  intros Hk. revert acc. induction Hk as [|[k e] l Hke Hl IH]; intros acc; [reflexivity|].
  simpl in *. unfold new_entry. rewrite default_extra, IH. unfold as_stored.
  now rewrite Hke.
Qed.

Lemma to_json_entry_as_stored (e : ArtifactManifestEntry) :
  to_json_entry (as_stored e) = to_json_entry e.
Proof.
  unfold to_json_entry, as_stored. simpl.
  destruct (truthy_str (birth_artifact_id e)) eqn:Eb, (truthy_str (ref e)) eqn:Er;
    simpl; rewrite ?Eb, ?Er; reflexivity.
Qed.

Lemma digests_as_stored (l : list (string * ArtifactManifestEntry)) :
  digests (map (fun kv => (fst kv, as_stored (snd kv))) l) = digests l.
Proof. unfold digests. rewrite map_map. reflexivity. Qed.

Lemma sorted_by_key_idem {A} (l : list (string * A)) :
  NoDup (map fst l) -> sorted_by_key (sorted_by_key l) = sorted_by_key l.
Proof.
  intros Hnd. apply SortFacts.ascending_unique.
  - apply SortFacts.sorted_by_key_ascending.
    now rewrite (Permutation_map fst (SortFacts.sorted_by_key_perm l)).
  - now apply SortFacts.sorted_by_key_ascending.
  - apply SortFacts.sorted_by_key_perm.
Qed.

Section RoundTrip.

Context `{Outside} `{Host}.

Variable lookup_by_name : string -> option policy_class.

(** X16.  A manifest of the default storage policy, written with
    [to_manifest_json] and read with [from_manifest_json]: reading raises
    nothing of its own (only setting up the policy can fail), and it gives
    back the same policy and the same entries in ascending order of path,
    each without its local path and with an empty reference or birth id read
    as none; the digest of the manifest read is the digest of the manifest
    written. *)
Theorem manifest_json_round_trip (config : PyDict.t string)
        (m : PyDict.t ArtifactManifestEntry) (p : process) :
  lookup_by_name "wandb-storage-policy-v1" = Some WandbStoragePolicy_cls ->
  NoDup (PyDict.keys m) ->
  keyed_by_path m ->
  let read := map (fun kv => (fst kv, as_stored (snd kv))) (sorted_by_key m) in
  from_manifest_json lookup_by_name
                     (to_manifest_json (mkManifest (WandbStoragePolicy config) m)) p
  = match WandbStoragePolicy_init p with
    | (Ok _, p') => (Ok (mkManifest (WandbStoragePolicy config) read), p')
    | (Raise e, p') => (Raise e, p')
    end
  /\ manifest_digest read = manifest_digest m.
Proof.
  intros Hlookup Hnd Hkeyed read.
  assert (Hsorted : keyed_by_path (sorted_by_key m)).
  { eapply keyed_perm; [symmetry; apply SortFacts.sorted_by_key_perm | exact Hkeyed]. }
  assert (Hnds : NoDup (map fst (sorted_by_key m))) by now apply NoDup_keys_sorted.
  split.
  - unfold from_manifest_json, to_manifest_json. simpl.
    rewrite Hlookup. unfold sorted_by_path. rewrite (keyed_values m Hkeyed).
    rewrite (contents_fold _ [] Hsorted).
    change (fold_left (fun d kv => PyDict.set (fst kv) (snd kv) d)
                      (map (fun kv => (fst kv, to_json_entry (snd kv))) (sorted_by_key m)) [])
      with (PyDict.of_assignments
              (map (fun kv => (fst kv, to_json_entry (snd kv))) (sorted_by_key m))).
    rewrite PyDictFacts.of_assignments_distinct by (now rewrite map_fst_relabel).
    unfold PyDict.items. rewrite (entries_of_written _ [] Hsorted).
    change (fold_left (fun d kv => PyDict.set (fst kv) (snd kv) d)
                      (map (fun kv => (fst kv, as_stored (snd kv))) (sorted_by_key m)) [])
      with (PyDict.of_assignments read).
    rewrite PyDictFacts.of_assignments_distinct
      by (subst read; now rewrite map_fst_relabel).
    unfold from_config, bind, of_result, ret.
    destruct (WandbStoragePolicy_init p) as [[u|e] p']; reflexivity.
  - rewrite (DigestFacts.manifest_digest_digests read (sorted_by_key m))
      by apply digests_as_stored.
    rewrite !ManifestFacts.manifest_digest_sorted. unfold PyDict.items.
    now rewrite sorted_by_key_idem.
Qed.

End RoundTrip.

Lemma manifest_json_round_trip_witness :
  let b := mkEntry "b.txt" None (Some "BB") None (Some 2%Z) [] (Some "/d/b.txt") in
  let a := mkEntry "a.txt" (Some "") (Some "AA") (Some "") (Some 1%Z) [] None in
  let lookup (name : string) :=
    if String.eqb name "wandb-storage-policy-v1" then Some WandbStoragePolicy_cls else None in
  exists p',
    from_manifest_json (H := SampleMore.host) lookup
                       (to_manifest_json
                          (mkManifest (WandbStoragePolicy []) [("b.txt", b); ("a.txt", a)]))
                       SampleMore.fresh_process
    = (Ok (mkManifest (WandbStoragePolicy [])
                      [("a.txt", mkEntry "a.txt" None (Some "AA") None (Some 1%Z) [] None);
                       ("b.txt", mkEntry "b.txt" None (Some "BB") None (Some 2%Z) [] None)]),
       p').
Proof.
  intros b a lookup. eexists.
  rewrite (proj1 (manifest_json_round_trip (H := Sample.outside) (H0 := SampleMore.host)
                    lookup [] [("b.txt", b); ("a.txt", a)] SampleMore.fresh_process
                    eq_refl
                    ltac:(apply (bool_decide_unpack _); vm_compute; exact I)
                    ltac:(repeat constructor))).
  vm_compute. reflexivity.
Defined.

End ManifestJsonFacts.

(** ** The limit on the objects of a directory reference, and the cache object *)

Module LimitFacts.

Import Artifacts ArtifactsMore.
Local Open Scope string_scope.

Section Limit.

Context `{Outside}.

Lemma local_files_loop_Ok (fs : FS.t) (uri : string) (max_objects : Z) (files : list string)
      (st st' : Z * list ArtifactManifestEntry) :
  local_files_loop fs uri max_objects files st = Ok st' ->
  fst st' = (fst st + Z.of_nat (length files))%Z
  /\ length (snd st') = (length (snd st) + length files)%nat
  /\ (files <> [] -> (fst st' < max_objects)%Z).
Proof.
  revert st; induction files as [|f files IH]; intros st.
  - simpl. intros [= <-]. repeat split; try lia. congruence.
  - cbn [local_files_loop]. destruct (max_objects <=? fst st + 1)%Z eqn:Emax; [discriminate|].
    destruct (FS.getsize fs f) as [sz|e]; [|discriminate].
    destruct (md5_file_b64 fs f) as [d|e]; [|discriminate].
    destruct (new_entry _ _ _ _ _ _ _) as [entry|e]; [|discriminate].
    intros Hl. apply IH in Hl as (H1 & H2 & H3). simpl in H1, H2.
    rewrite length_app in H2. simpl in H2. cbn [length].
    repeat split; try lia.
    intros _. destruct files as [|f' files'].
    + simpl in H1. apply Z.leb_gt in Emax. lia.
    + apply H3. discriminate.
Qed.

Lemma local_walk_loop_Ok (fs : FS.t) (uri : string) (max_objects : Z)
      (triples : list (string * list string * list string))
      (st st' : Z * list ArtifactManifestEntry) :
  local_walk_loop fs uri max_objects triples st = Ok st' ->
  let files := flat_map (fun t => snd t) triples in
  fst st' = (fst st + Z.of_nat (length files))%Z
  /\ length (snd st') = (length (snd st) + length files)%nat
  /\ (files <> [] -> (fst st' < max_objects)%Z).
Proof.
  revert st; induction triples as [|[[root dirs] files] triples IH]; intros st.
  - simpl. intros [= <-]. repeat split; try lia. congruence.
  - cbn [local_walk_loop].
    destruct (local_files_loop fs uri max_objects files st) as [st1|e] eqn:E1; [|discriminate].
    intros Hl. apply local_files_loop_Ok in E1 as (A1 & A2 & A3).
    apply IH in Hl as (B1 & B2 & B3). cbv zeta in *. cbn [flat_map snd].
    rewrite length_app. repeat split; try lia.
    intros Hne.
    destruct (flat_map (fun t => snd t) triples) as [|f rest] eqn:Erest.
    + simpl in B1. rewrite app_nil_r in Hne. specialize (A3 Hne). lia.
    + apply B3. discriminate.
Qed.

(** X17.  The limit on a checksummed [file://] reference to a directory is
    exclusive: when [store_path] returns, [urlparse] has accepted the URI, it
    returns one entry for each file the walk lists, and they are fewer than
    [max_objects] (10000 when none is given, or 0); a directory with
    [max_objects] files or more is never stored. *)
Theorem directory_reference_limit (fs : FS.t) (uri : string) (name : option string)
        (max_objects : option Z) (entries : list ArtifactManifestEntry) :
  LocalFileHandler_store_path fs uri name true max_objects = Ok entries ->
  exists u : url,
    urlparse uri = Parsed u
    /\ let local_path := netloc u ++ url_path u in
       FS.isdir fs local_path = true ->
       length entries = length (walked_files fs local_path)
       /\ (entries <> [] ->
           (Z.of_nat (length entries) < max_objects_or_default max_objects)%Z).
Proof.
  destruct (urlparse uri) as [u|msg] eqn:Hparse;
    [|intros Hs; rewrite (ArtifactFacts.local_store_path_invalid _ _ _ _ _ _ Hparse) in Hs;
      discriminate].
  intros Hs. exists u. split; [reflexivity|]. revert Hs.
  intros Hs local_path Hdir. revert Hs. unfold LocalFileHandler_store_path.
  rewrite Hparse. fold local_path. rewrite Hdir. simpl.
  destruct (local_walk_loop fs uri (max_objects_or_default max_objects)
                            (FS.walk fs local_path) (0%Z, [])) as [[i es]|e] eqn:E;
    [|discriminate].
  intros [= <-]. apply local_walk_loop_Ok in E as (H1 & H2 & H3). simpl in H1, H2.
  fold (walked_files fs local_path) in H1, H2, H3.
  split; [exact H2|]. intros Hne.
  assert (Hlt : (i < max_objects_or_default max_objects)%Z).
  { apply H3. intros Hnil. rewrite Hnil in H2. destruct es; [contradiction | discriminate]. }
  lia.
Qed.

End Limit.

Lemma directory_reference_limit_witness :
  exists entries,
    LocalFileHandler_store_path (H := Sample.outside) Sample.fs_one "file:///one" None true
                                (Some 2%Z) = Ok entries
    /\ length entries = 1%nat.
Proof.
  eexists. split; [vm_compute; reflexivity|].
  destruct (directory_reference_limit (H := Sample.outside) Sample.fs_one "file:///one"
                                      None (Some 2%Z) _ ltac:(vm_compute; reflexivity))
    as (u & Hu & Hlimit).
  injection Hu as <-. exact (proj1 (Hlimit eq_refl)).
Defined.

Section CacheObject.

Context `{Host}.

(** X18.  The cache object is made once in a process: when
    [get_artifacts_cache] has returned, the directory of the cache exists,
    and every later call returns the same cache and touches nothing. *)
Theorem artifacts_cache_is_made_once (p p' : process) (cache : string) :
  get_artifacts_cache p = (Ok cache, p') ->
  get_artifacts_cache p' = (Ok cache, p')
  /\ (_artifacts_cache p = None ->
      cache = OsPath.join2 get_cache_dir "artifacts"
      /\ FS.isdir (files p') cache = true).
Proof.
  unfold get_artifacts_cache at 1. unfold bind, get_world, ret.
  destruct (_artifacts_cache p) as [c|] eqn:Ec.
  - intros [= <- <-]. split; [|discriminate].
    unfold get_artifacts_cache, bind, get_world, ret. now rewrite Ec.
  - unfold lift_files, ArtifactsCache_init, bind, ret, put_world.
    destruct (mkdir_exists_ok (OsPath.join2 get_cache_dir "artifacts") (files p))
      as [[[]|e] fs'] eqn:Emk; [|discriminate].
    simpl. intros [= <- <-]. split.
    + reflexivity.
    + intros _. split; [reflexivity|].
      simpl. now apply (FSFacts.mkdir_exists_ok_isdir _ (files p)).
Qed.

End CacheObject.

Lemma artifacts_cache_is_made_once_witness :
  exists p',
    get_artifacts_cache (H := SampleMore.host) SampleMore.fresh_process
    = (Ok "/home/.cache/wandb/artifacts", p')
    /\ get_artifacts_cache (H := SampleMore.host) p' = (Ok "/home/.cache/wandb/artifacts", p').
Proof.
  eexists. split; [vm_compute; reflexivity|].
  exact (proj1 (artifacts_cache_is_made_once (H := SampleMore.host) SampleMore.fresh_process
                                             _ _ ltac:(vm_compute; reflexivity))).
Defined.

End LimitFacts.

(** ** Where [finalize] leaves the staged files *)

Module StagingFacts.

Import Artifacts ArtifactsMore.
Local Open Scope string_scope.

Section Staging.

Context `{Outside}.

Lemma check_md5_obj_path_path (cache_dir d : string) (size : option Z) (fs fs1 : FS.t)
      (p : string) (hit : bool) :
  check_md5_obj_path cache_dir d size fs = (Ok (p, hit), fs1) ->
  exists raw, b64decode d = Ok raw /\ p = md5_cache_path cache_dir raw.
Proof.
  unfold check_md5_obj_path, bind, of_result, get_world, ret.
  destruct (b64decode d) as [raw|e]; [|discriminate].
  fold (md5_cache_path cache_dir raw).
  destruct (cached fs (md5_cache_path cache_dir raw) size).
  - intros [= <- _ _]. eauto.
  - destruct (mkdir_exists_ok _ fs) as [[[]|e] fs2]; [|discriminate].
    intros [= <- _ _]. eauto.
Qed.

Lemma keys_set_present {A} (k : string) (v v' : A) (d : PyDict.t A) :
  PyDict.get k d = Some v -> PyDict.keys (PyDict.set k v' d) = PyDict.keys d.
Proof.
  intros Hget. rewrite PyDictFacts.keys_set. unfold PyDict.contains. now rewrite Hget.
Qed.

Lemma remap_entry_step (key : string) (done : list string) (w w1 : world) (u : unit) :
  remap_entry key w = (Ok u, w1) ->
  remapped done w ->
  remapped (key :: done) w1
  /\ PyDict.keys (_manifest (art w1)) = PyDict.keys (_manifest (art w)).
Proof.
  unfold remap_entry. intros Hr Hdone.
  apply MonadFacts.bind_Ok in Hr as (a & w0 & Ha & Hr).
  unfold get_art in Ha. injection Ha as <- <-.
  assert (Hsame : forall w2, w2 = w ->
             (forall e, PyDict.get key (_manifest (art w)) = Some e ->
                        out_of_staging (art w) e) ->
             remapped (key :: done) w2
             /\ PyDict.keys (_manifest (art w2)) = PyDict.keys (_manifest (art w))).
  { intros w2 -> Hkey. split; [|reflexivity].
    intros k e [<-|Hin] Hget; [now apply Hkey | now apply (Hdone k)]. }
  destruct (PyDict.get key (_manifest (art w))) as [entry|] eqn:Eget.
  2:{ unfold ret in Hr. injection Hr as _ <-. apply Hsame; [reflexivity | discriminate]. }
  destruct (local_path entry) as [lp|] eqn:Elp.
  2:{ unfold ret in Hr. injection Hr as _ <-. apply Hsame; [reflexivity|].
      intros e [= <-]. unfold out_of_staging. now rewrite Elp. }
  destruct (Py.startswith lp (artifact_dir (art w))) eqn:Estart; simpl in Hr.
  2:{ unfold ret in Hr. injection Hr as _ <-. apply Hsame; [reflexivity|].
      intros e [= <-]. unfold out_of_staging. rewrite Elp. now left. }
  apply MonadFacts.bind_Ok in Hr as (w0 & w0' & Hw & Hr).
  unfold get_world in Hw. injection Hw as <- <-.
  destruct (digest entry) as [d|] eqn:Ed; [|discriminate].
  apply MonadFacts.bind_Ok in Hr as ([cache_path hit] & w2 & Hck & Hr).
  apply NewFileFacts.lift_fs_Ok in Hck as [Hart2 Hck].
  apply check_md5_obj_path_path in Hck as (raw & Hraw & ->).
  apply MonadFacts.bind_Ok in Hr as ([] & w3 & Hcp & Hr).
  assert (Hart3 : art w3 = art w).
  { destruct hit.
    - unfold ret in Hcp. now injection Hcp as <-.
    - apply NewFileFacts.lift_fs_Ok in Hcp as [-> _]. exact Hart2. }
  unfold modify_art in Hr. injection Hr as _ <-. simpl. rewrite Hart3. simpl.
  split.
  - intros k e [<-|Hin] Hget; simpl in Hget.
    + rewrite FSFacts.get_set_eq in Hget. injection Hget as <-.
      unfold out_of_staging. simpl. right. exists d, raw. auto.
    + destruct (String.eqb_spec key k) as [->|Hne].
      * rewrite FSFacts.get_set_eq in Hget. injection Hget as <-.
        unfold out_of_staging. simpl. right. exists d, raw. auto.
      * rewrite FSMoreFacts.get_set_ne in Hget by exact Hne.
        exact (Hdone k e Hin Hget).
  - now apply (keys_set_present key entry).
Qed.

Lemma remap_loop (keys : list string) (done : list string) (w w' : world) (u : unit) :
  for_each keys remap_entry w = (Ok u, w') ->
  remapped done w ->
  remapped (rev keys ++ done) w'
  /\ PyDict.keys (_manifest (art w')) = PyDict.keys (_manifest (art w)).
Proof.
  revert done w; induction keys as [|key keys IH]; intros done w Hl Hdone.
  - simpl in Hl. unfold ret in Hl. injection Hl as _ <-. auto.
  - simpl in Hl. apply MonadFacts.bind_Ok in Hl as (u1 & w1 & Hstep & Hl).
    destruct (remap_entry_step _ _ _ _ _ Hstep Hdone) as [Hdone1 Hkeys1].
    destruct (IH _ _ Hl Hdone1) as [Hdone' Hkeys'].
    split; [|congruence].
    simpl. now rewrite <- app_assoc.
Qed.

(** X19.  Where [finalize] leaves the files made with [new_file]: once it
    has returned for an artifact that was not yet final and has new files,
    every entry the manifest gives for a path has no local path, or a local
    path that does not start with the name of the artifact's own directory
    (a comparison of strings, as [finalize] makes it), or the path of the
    cache for its own MD5 digest. *)
Theorem staged_files_are_remapped (w w' : world) (r : option (list ArtifactManifestEntry))
        (k : string) (e : ArtifactManifestEntry) :
  _final (art w) = false ->
  _added_new (art w) = true ->
  finalize w = (Ok r, w') ->
  PyDict.get k (_manifest (art w')) = Some e ->
  out_of_staging (art w') e.
Proof.
  unfold finalize. intros Efinal Enew Hf Hget.
  apply MonadFacts.bind_Ok in Hf as (a & w0 & Ha & Hf).
  unfold get_art in Ha. injection Ha as <- <-. rewrite Efinal, Enew in Hf.
  apply MonadFacts.bind_Ok in Hf as (u1 & w1 & _ & Hf).
  apply MonadFacts.bind_Ok in Hf as (u2 & w2 & H2 & Hf).
  apply MonadFacts.bind_Ok in Hf as (u3 & w3 & H3 & Hf).
  apply MonadFacts.bind_Ok in Hf as (u4 & w4 & H4 & Hf).
  unfold ret in Hf. injection Hf as _ <-.
  apply MonadFacts.bind_Ok in H4 as (a3 & w3' & Ha3 & H4).
  unfold get_art in Ha3. injection Ha3 as <- <-.
  assert (Hnone : remapped [] w3) by (intros k0 e0 []).
  destruct (remap_loop _ _ _ _ _ H4 Hnone) as [Hdone Hkeys].
  apply (Hdone k e); [|exact Hget].
  rewrite app_nil_r. apply in_rev. rewrite rev_involutive, <- Hkeys.
  destruct (in_dec string_dec k (PyDict.keys (_manifest (art w4)))) as [Hin|Hnin];
    [exact Hin|].
  apply PyDictFacts.get_None in Hnin. congruence.
Qed.

End Staging.

Lemma staged_files_are_remapped_witness :
  exists w' e,
    finalize (H := Sample.outside) Sample.staged_world = (Ok None, w')
    /\ PyDict.get "f" (_manifest (art w')) = Some e
    /\ local_path e = Some "/cache/obj/md5/6d/643562363428686929"
    /\ out_of_staging (H := Sample.outside) (art w') e.
Proof.
  eexists _, _. split; [vm_compute; reflexivity|]. split; [vm_compute; reflexivity|].
  split; [reflexivity|].
  refine (staged_files_are_remapped (H := Sample.outside) Sample.staged_world _ None "f" _
                                    eq_refl eq_refl _ _); vm_compute; reflexivity.
Defined.

End StagingFacts.

(** ** File names the tfevents filter accepts *)

Module TfeventsNameFacts.

Import TbWatcher.
Local Open Scope string_scope.

Lemma split_nonempty (sep : ascii) (s : string) : Py.split sep s <> [].
Proof.
  destruct s as [|c s]; simpl; [discriminate|].
  destruct (Ascii.eqb c sep); [discriminate|].
  destruct (Py.split sep s); discriminate.
Qed.

Lemma split_app (sep : ascii) (a b : string) :
  Py.split sep (a ++ String sep b) = (Py.split sep a ++ Py.split sep b)%list.
Proof.
  induction a as [|c a IH].
  - rewrite PyFacts.append_nil_l. simpl. now rewrite Ascii.eqb_refl.
  - rewrite PyFacts.append_cons. simpl. rewrite IH.
    destruct (Ascii.eqb c sep); [reflexivity|].
    destruct (Py.split sep a) as [|w ws] eqn:E; [|reflexivity].
    now apply split_nonempty in E.
Qed.

Lemma split_no_sep (sep : ascii) (s : string) :
  forallb (fun c => negb (Ascii.eqb c sep)) (list_ascii_of_string s) = true ->
  Py.split sep s = [s].
Proof.
  induction s as [|c s IH]; simpl; [reflexivity|].
  intros Hall. apply andb_true_iff in Hall as [Hc Hall].
  apply negb_true_iff in Hc. rewrite Hc, (IH Hall). reflexivity.
Qed.

(** The components of a name in the format of the event writer. *)
Lemma written_name_components (T hostname rest : string) :
  forallb (fun c => negb (Ascii.eqb c ".")) (list_ascii_of_string T) = true ->
  rest = "" \/ (exists r, rest = "." ++ r) ->
  exists more,
    Py.split "." ("events.out.tfevents." ++ T ++ "." ++ hostname ++ rest)
    = (["events"; "out"; "tfevents"; T] ++ Py.split "." hostname ++ more)%list.
Proof.
  intros HT Hrest.
  change ("events.out.tfevents." ++ T ++ "." ++ hostname ++ rest)
    with ("events" ++ String "." ("out" ++ String "." ("tfevents"
            ++ String "." (T ++ String "." (hostname ++ rest))))).
  rewrite !split_app, (split_no_sep _ T HT).
  destruct Hrest as [->|[r ->]].
  - exists []. now rewrite PyFacts.append_nil_r, app_nil_r.
  - exists (Py.split "." r).
    change (hostname ++ "." ++ r) with (hostname ++ String "." r).
    now rewrite split_app.
Qed.

(** X20.  A file named as the event writer names it,
    [events.out.tfevents.<time>.<hostname>] with or without further
    components after the host name, is accepted when the time is a number not
    below [start_time] and the name does not end with [.profile_empty]:
    only the components of the host name are compared, so the files of a host
    whose name goes on after ours are accepted as well. *)
Theorem written_file_is_recognised (path T hostname rest : string) (t : Z) (start_time : Q) :
  OsPath.basename path = "events.out.tfevents." ++ T ++ "." ++ hostname ++ rest ->
  forallb (fun c => negb (Ascii.eqb c ".")) (list_ascii_of_string T) = true ->
  Py.int T = Some t ->
  (start_time <= inject_Z t)%Q ->
  rest = "" \/ (exists r, rest = "." ++ r) ->
  Py.endswith (OsPath.basename path) ".profile_empty" = false ->
  is_tfevents_file_created_by path hostname start_time = Ok true.
Proof.
  intros Hbase HT Hint Hle Hrest Hprofile.
  unfold is_tfevents_file_created_by.
  destruct (String.eqb_spec path "") as [->|_]; [discriminate|].
  rewrite Hprofile, Hbase.
  destruct (written_name_components T hostname rest HT Hrest) as [more ->].
  change (Py.index "tfevents"
            (["events"; "out"; "tfevents"; T] ++ Py.split "." hostname ++ more)%list)
    with (Some 2%nat).
  assert (Hloop : hostname_loop
                    (["events"; "out"; "tfevents"; T] ++ Py.split "." hostname ++ more)%list
                    2 0 (Py.split "." hostname) = true).
  { apply TbWatcherFacts.hostname_loop_true. intros k part Hk. simpl.
    now apply lookup_app_l_Some. }
  cbv beta iota. rewrite Hloop. simpl. rewrite Hint. f_equal. now apply Qle_bool_iff.
Qed.

Lemma written_file_is_recognised_witness :
  is_tfevents_file_created_by "/logs/train/events.out.tfevents.1600000000.host.local.1234"
                              "host" 1500000000 = Ok true.
Proof.
  apply (written_file_is_recognised
           "/logs/train/events.out.tfevents.1600000000.host.local.1234"
           "1600000000" "host" ".local.1234" 1600000000 1500000000).
  - reflexivity.
  - reflexivity.
  - vm_compute. reflexivity.
  - vm_compute. discriminate.
  - right. exists "local.1234". reflexivity.
  - vm_compute. reflexivity.
Defined.

End TfeventsNameFacts.
